(** * The Neighbor backend: submission pipeline and listing reader

    A shallow embedding of the three revisions of the Express server found
    in the repository:

    - [ServerJs]  : src/server.js          (fields name, email; random path token)
    - [Part001]   : src/unnamed/part_001   (fields firstname, lastname, email,
                                            location, activity; original image)
    - [Part002]   : src/unnamed/part_002   (fields name, email; fixed prompt)

    JavaScript strings are sequences of UTF-16 code units, modelled as
    [list N].  A body field is absent, a string, or a value of another
    kind, on which [?.trim()] throws.  Handlers run in a small
    state-and-exception monad whose state
    holds the handler's mutable locals and the trace of calls made to the
    collaborators (console, OpenAI, Supabase storage, Supabase database).
    What the collaborators, the clock and the engine's Unicode tables answer
    is read from a [World]. *)

From Stdlib Require Import List String Ascii NArith Bool Lia.
From Stdlib Require Import Sorting.Sorted Sorting.Permutation.
From Stdlib Require Import DecimalString DecimalN.
Import ListNotations.

Local Open Scope string_scope.
Local Open Scope list_scope.
Local Open Scope N_scope.

(* ================================================================= *)
(** ** JavaScript strings and scalar values *)

Module Js.

(** A string is its sequence of 16-bit code units. *)
Definition jsstring := list N.

(** A source literal (all literals of the program are ASCII). *)
Definition lit (s : string) : jsstring :=
  map N_of_ascii (list_ascii_of_string s).

(** WhiteSpace and LineTerminator code units, as String.prototype.trim
    strips them. *)
Definition isWhiteSpace (c : N) : bool :=
  existsb (N.eqb c)
    [9; 10; 11; 12; 13; 32; 160; 5760; 8232; 8233; 8239; 8287; 12288; 65279]
  || ((8192 <=? c) && (c <=? 8202)).

Fixpoint trimStart (s : jsstring) : jsstring :=
  match s with
  | c :: s' => if isWhiteSpace c then trimStart s' else s
  | [] => []
  end.

Definition trimEnd (s : jsstring) : jsstring := rev (trimStart (rev s)).

(** [s.trim()] *)
Definition trim (s : jsstring) : jsstring := trimEnd (trimStart s).

(** The scalar values the handlers' variables range over. *)
Inductive jsval :=
| Undefined
| Null
| Str (s : jsstring).

(** ToBoolean: [undefined], [null] and the empty string are falsy. *)
Definition truthy (v : jsval) : bool :=
  match v with
  | Undefined | Null => false
  | Str [] => false
  | Str (_ :: _) => true
  end.

(** [!v] *)
Definition jsNot (v : jsval) : bool := negb (truthy v).

(** [a || b] *)
Definition jsOr (a b : jsval) : jsval := if truthy a then a else b.

(** ToString, as used by template literals and by [+] on a string. *)
Definition ToString (v : jsval) : jsstring :=
  match v with
  | Undefined => lit "undefined"
  | Null => lit "null"
  | Str s => s
  end.

(** What a parsed body holds under a key, as far as [?.trim()] tells the
    cases apart: nothing ([undefined], or [null] in a JSON body), a string,
    or a value of another kind (the array multer builds when a field is sent
    more than once or with brackets in its name, a nested object, a JSON
    number or boolean). *)
Inductive FieldValue :=
| Absent
| Text (s : jsstring)
| NotText.

(** [?.trim()] can be called on the value: it is a string, or [?.] stops
    at it. *)
Definition readable (x : FieldValue) : bool :=
  match x with
  | NotText => false
  | Absent | Text _ => true
  end.

(** What [x?.trim()] evaluates to on a readable value; on [NotText] the
    call throws (see [optTrim] below) and no value is produced. *)
Definition trimmed (x : FieldValue) : jsval :=
  match x with
  | Text s => Str (trim s)
  | Absent | NotText => Undefined
  end.

(** Number::toString on a non-negative integer below 10^21: its decimal
    digits. *)
Definition numberToString (n : N) : jsstring :=
  lit (NilEmpty.string_of_uint (N.to_uint n)).

Definition isLowerAlnum (c : N) : bool :=
  ((97 <=? c) && (c <=? 122)) || ((48 <=? c) && (c <=? 57)).

(** [s.replace(/[^a-z0-9]+/g, "-")]: every maximal run of code units
    outside a-z and 0-9 becomes one hyphen.  [inRun] tells that the
    previous code unit belonged to a run already replaced. *)
Fixpoint replaceRuns (inRun : bool) (s : jsstring) : jsstring :=
  match s with
  | [] => []
  | c :: s' =>
      if isLowerAlnum c then c :: replaceRuns false s'
      else if inRun then replaceRuns true s'
      else 45 :: replaceRuns true s'
  end.

Definition replaceNonAlnum (s : jsstring) : jsstring := replaceRuns false s.

(** [s.slice(a, b)] for literal bounds 0 <= a <= b. *)
Definition slice (a b : nat) (s : jsstring) : jsstring :=
  firstn (b - a) (skipn a s).

(** Structured values handed to collaborators and to [res.json]. *)
#[warnings="-register-all"]
Inductive jsdata :=
| Val (v : jsval)
| Flag (b : bool)
| Number (n : N)
| Object (fields : list (string * jsdata))
| Array (items : list jsdata).

(** An Error object; only its [message] is ever read. *)
Record JsError := mkError { message : jsstring }.

(** [new Error(msg)] and the engine's own TypeError. *)
Definition Error (msg : string) : JsError := mkError (lit msg).
Definition TypeError (msg : string) : JsError := mkError (lit msg).

(** [s] occurs in [t] as a contiguous run of code units. *)
Definition occursIn (s t : jsstring) : Prop :=
  exists before after, t = before ++ s ++ after.

End Js.
Import Js.

(* ================================================================= *)
(** ** Requests, responses, collaborators *)

(** The file multer leaves in [req.file]; the buffer itself is opaque. *)
Record UploadedFile := {
  originalname : jsstring;
  mimetype : jsstring;
  size : N
}.

(** [req.body] as the body parser (multer for a multipart form,
    [express.json] for a JSON body) leaves it, at the six keys the handlers
    read. *)
Record Body := {
  b_name : FieldValue;
  b_firstname : FieldValue;
  b_lastname : FieldValue;
  b_email : FieldValue;
  b_location : FieldValue;
  b_activity : FieldValue
}.

Record Request := {
  body : Body;
  file : option UploadedFile
}.

(** [req.body.k] *)
Definition bodyField (b : Body) (k : string) : FieldValue :=
  if String.eqb k "name" then b_name b
  else if String.eqb k "firstname" then b_firstname b
  else if String.eqb k "lastname" then b_lastname b
  else if String.eqb k "email" then b_email b
  else if String.eqb k "location" then b_location b
  else if String.eqb k "activity" then b_activity b
  else Absent.
Arguments bodyField : simpl never.

Record Response := {
  status : N;
  payload : jsdata
}.

(** Bytes sent to storage: the uploaded buffer, or
    [Buffer.from(base64, "base64")]. *)
Inductive Bytes :=
| FileBuffer
| FromBase64 (b64 : jsstring).

(** What a Supabase call settles to: [{error: null}], [{error: e}], or a
    rejected promise. *)
Inductive Reply :=
| Accepted
| Refused (e : JsError)
| Rejected (e : JsError).

(** The shape of what [openai.images.edit] resolves to, as far as
    [result.data[0].b64_json] looks into it. *)
Inductive EditResult :=
| NoData
| NoEntry
| Entry (b64_json : option jsstring).

Inductive EditReply :=
| EditRejected (e : JsError)
| EditResolved (r : EditResult).

Inductive SelectReply :=
| SelectData (rows : list jsdata)
| SelectError (e : JsError).

(** A row object literal. *)
Abbreviation Row := (list (string * jsval)).

(** The query GET /community builds. *)
Record Query := {
  q_table : string;
  q_columns : string;
  q_orderBy : string;
  q_ascending : bool
}.

Inductive Event :=
| ConsoleLog (args : list jsdata)
| ConsoleError (args : list jsdata)
| ToFile (filename : jsstring) (type : jsstring)
| ImagesEdit (prompt : jsstring) (imgSize : string) (background : string)
| StorageUpload (bucket : string) (path : jsstring) (data : Bytes)
    (contentType : jsstring)
| GetPublicUrl (bucket : string) (path : jsstring)
| DbInsert (table : string) (rows : list Row)
| DbSelect (q : Query).

(** Everything the handlers read from outside. *)
Record World := {
  (** String.prototype.toLowerCase (Unicode tables of the engine) *)
  w_toLowerCase : jsstring -> jsstring;
  (** the k-th reading of [Date.now()] within the request *)
  w_dateNow : nat -> N;
  (** [Math.random().toString(36)] *)
  w_random36 : jsstring;
  w_toFile : option JsError;
  w_imagesEdit : jsstring -> EditReply;
  w_upload : jsstring -> Reply;
  w_publicUrl : jsstring -> jsstring;
  w_insert : list Row -> Reply;
  w_select : Query -> SelectReply
}.

(* ================================================================= *)
(** ** The handler monad: mutable locals, call trace, exceptions *)

Record State := {
  trace : list Event;
  nowCalls : nat;
  imageStatus : jsstring;
  imageUrl : jsval;
  originalImageUrl : jsval
}.

Inductive Completion (A : Type) :=
| Normal (a : A)
| Throw (e : JsError).
Arguments Normal {A} a.
Arguments Throw {A} e.

Definition M (A : Type) := State -> Completion A * State.

Definition ret {A} (a : A) : M A := fun s => (Normal a, s).

Definition bind {A B} (m : M A) (k : A -> M B) : M B :=
  fun s => match m s with
           | (Normal a, s') => k a s'
           | (Throw e, s') => (Throw e, s')
           end.

Definition throw {A} (e : JsError) : M A := fun s => (Throw e, s).

(** [try { body } catch (e) { handler e }]: the state reached when the
    exception was raised is the one the handler starts from. *)
Definition try_catch {A} (body0 : M A) (handler : JsError -> M A) : M A :=
  fun s => match body0 s with
           | (Normal a, s') => (Normal a, s')
           | (Throw e, s') => handler e s'
           end.

Declare Scope js_scope.
Delimit Scope js_scope with js.
Notation "x <- m ;; k" := (bind m (fun x => k))
  (at level 61, m at next level, right associativity) : js_scope.
Notation "m ;; k" := (bind m (fun _ => k))
  (at level 61, right associativity) : js_scope.
Local Open Scope js_scope.

Definition emit (e : Event) : M unit :=
  fun s => (Normal tt,
            {| trace := trace s ++ [e]; nowCalls := nowCalls s;
               imageStatus := imageStatus s; imageUrl := imageUrl s;
               originalImageUrl := originalImageUrl s |}).

(** [console.log(text, ...args)] and [console.error(text, ...args)] with a
    literal first argument. *)
Definition console_log (text : string) (args : list jsdata) : M unit :=
  emit (ConsoleLog (Val (Str (lit text)) :: args)).

Definition console_error (text : string) (args : list jsdata) : M unit :=
  emit (ConsoleError (Val (Str (lit text)) :: args)).

Definition set_imageStatus (v : string) : M unit :=
  fun s => (Normal tt,
            {| trace := trace s; nowCalls := nowCalls s;
               imageStatus := lit v; imageUrl := imageUrl s;
               originalImageUrl := originalImageUrl s |}).

Definition set_imageUrl (v : jsval) : M unit :=
  fun s => (Normal tt,
            {| trace := trace s; nowCalls := nowCalls s;
               imageStatus := imageStatus s; imageUrl := v;
               originalImageUrl := originalImageUrl s |}).

Definition set_originalImageUrl (v : jsval) : M unit :=
  fun s => (Normal tt,
            {| trace := trace s; nowCalls := nowCalls s;
               imageStatus := imageStatus s; imageUrl := imageUrl s;
               originalImageUrl := v |}).

Definition get_imageStatus : M jsstring := fun s => (Normal (imageStatus s), s).
Definition get_imageUrl : M jsval := fun s => (Normal (imageUrl s), s).
Definition get_originalImageUrl : M jsval :=
  fun s => (Normal (originalImageUrl s), s).

(** [Date.now()] *)
Definition date_now (w : World) : M N :=
  fun s => (Normal (w_dateNow w (nowCalls s)),
            {| trace := trace s; nowCalls := S (nowCalls s);
               imageStatus := imageStatus s; imageUrl := imageUrl s;
               originalImageUrl := originalImageUrl s |}).

(** [await toFile(req.file.buffer, filename, {type})] *)
Definition to_file (w : World) (filename type : jsstring) : M unit :=
  emit (ToFile filename type) ;;
  match w_toFile w with
  | None => ret tt
  | Some e => throw e
  end.

(** [await openai.images.edit({model, image, prompt, size, background})] *)
Definition images_edit (w : World) (prompt : jsstring) (imgSize background : string)
  : M EditResult :=
  emit (ImagesEdit prompt imgSize background) ;;
  match w_imagesEdit w prompt with
  | EditResolved r => ret r
  | EditRejected e => throw e
  end.

(** [await supabase.storage.from(bucket).upload(path, data, {contentType})],
    destructured as [{ error }]. *)
Definition storage_upload (w : World) (bucket : string) (path : jsstring)
  (data : Bytes) (contentType : jsstring) : M (option JsError) :=
  emit (StorageUpload bucket path data contentType) ;;
  match w_upload w path with
  | Accepted => ret None
  | Refused e => ret (Some e)
  | Rejected e => throw e
  end.

(** [supabase.storage.from(bucket).getPublicUrl(path).data.publicUrl] *)
Definition get_public_url (w : World) (bucket : string) (path : jsstring)
  : M jsstring :=
  emit (GetPublicUrl bucket path) ;;
  ret (w_publicUrl w path).

(** [await supabase.from(table).insert(rows)], destructured as [{ error }]. *)
Definition db_insert (w : World) (table : string) (rows : list Row)
  : M (option JsError) :=
  emit (DbInsert table rows) ;;
  match w_insert w rows with
  | Accepted => ret None
  | Refused e => ret (Some e)
  | Rejected e => throw e
  end.

(** [await supabase.from(table).select(columns).order(col, {ascending})] *)
Definition db_select (w : World) (q : Query) : M SelectReply :=
  emit (DbSelect q) ;;
  ret (w_select w q).

Definition initial : State :=
  {| trace := []; nowCalls := 0%nat; imageStatus := []; imageUrl := Undefined;
     originalImageUrl := Undefined |}.

(** Running a route handler on a fresh request: the response it sends (none
    if the handler's promise rejects) and the calls it made. *)
Definition run (h : M Response) : option Response * list Event :=
  match h initial with
  | (Normal r, s) => (Some r, trace s)
  | (Throw _, s) => (None, trace s)
  end.

(** [{ error: msg }] *)
Definition errorBody (msg : jsstring) : jsdata :=
  Object [("error", Val (Str msg))].

(** The object [err] as the console prints it. *)
Definition errorObject (e : JsError) : jsdata :=
  Object [("message", Val (Str (message e)))].

(** [v.toLowerCase()]: reading a property of [undefined] or [null] raises a
    TypeError. *)
Definition toLowerCase (w : World) (v : jsval) : M jsstring :=
  match v with
  | Str s => ret (w_toLowerCase w s)
  | Undefined =>
      throw (TypeError "Cannot read properties of undefined (reading 'toLowerCase')")
  | Null =>
      throw (TypeError "Cannot read properties of null (reading 'toLowerCase')")
  end.

(** [x?.trim()], where [expr] is the source text of [x]: optional chaining
    stops at [undefined] and [null] only, so on any other value without a
    [trim] method the call raises a TypeError. *)
Definition optTrim (expr : string) (x : FieldValue) : M jsval :=
  match x with
  | Absent => ret Undefined
  | Text s => ret (Str (trim s))
  | NotText => throw (TypeError (expr ++ "?.trim is not a function"))
  end.

(** [result.data?.[0]?.b64_json] *)
Definition b64_json_optional (r : EditResult) : jsval :=
  match r with
  | NoData | NoEntry | Entry None => Undefined
  | Entry (Some s) => Str s
  end.

(** [req.file.originalname || "upload.png"] *)
Definition filenameOf (f : UploadedFile) : jsstring :=
  ToString (jsOr (Str (originalname f)) (Str (lit "upload.png"))).

(** [console.log("Image received:", {...})] arguments. *)
Definition fileType (f : UploadedFile) : string * jsdata :=
  ("type", Val (Str (mimetype f))).
Definition fileSize (f : UploadedFile) : string * jsdata :=
  ("size", Number (size f)).

(* ================================================================= *)
(** ** src/server.js *)

Module ServerJs.

Definition baseline : jsstring :=
  lit "Using the provided photo as reference, create an original baby character for the comic strip   'Peanuts'. They are standing up, the background is white, and they should not have facial hair.".

Definition extended (activity : jsstring) : jsstring :=
  lit "Using the provided photo as reference, create an original baby character for the comic strip 'Peanuts'. They are   standing up, the background is white, and they should not have facial hair. They are doing the following activity: "
  ++ activity ++ lit ".".

Definition getPrompt (activity : jsval) : jsstring :=
  if jsNot activity then baseline
  else extended (ToString activity).

(** [`community/${slug}-${id}.png`] *)
Definition filePath (slug id : jsstring) : jsstring :=
  lit "community/" ++ slug ++ lit "-" ++ id ++ lit ".png".

(** The body of the inner [try] of POST /submitMember. *)
Definition imageRequests (w : World) (req : Request) (f : UploadedFile)
  (name : jsval) : M unit :=
  to_file w (filenameOf f) (mimetype f) ;;
  activity <- optTrim "req.body.activity" (bodyField (body req) "activity") ;;
  let PROMPT := getPrompt activity in
  console_log "Sending input to OpenAI." [] ;;
  result <- images_edit w PROMPT "1024x1024" "transparent" ;;
  console_log "Output received from OpenAI." [] ;;
  let base64 := b64_json_optional result in
  if jsNot base64 then throw (Error "OpenAI returned no image data.")
  else
    let buffer := FromBase64 (ToString base64) in
    lower <- toLowerCase w name ;;
    let slug := replaceNonAlnum lower in
    let id := slice 2 6 (w_random36 w) in
    let path := filePath slug id in
    console_log "Uploading image in storage:" [Val (Str path)] ;;
    uploadError <- storage_upload w "neighbors" path buffer (lit "image/png") ;;
    match uploadError with
    | Some e => throw e
    | None =>
        publicUrl <- get_public_url w "neighbors" path ;;
        set_imageUrl (Str publicUrl) ;;
        set_imageStatus "ready" ;;
        url <- get_imageUrl ;;
        console_log "Image successfully stored:" [Val url]
    end.

(** POST /submitMember *)
Definition submitMember (w : World) (req : Request) : M Response :=
  try_catch
    (console_log "----- NEW SUBMISSION -----" [] ;;
     name <- optTrim "req.body.name" (bodyField (body req) "name") ;;
     email <- optTrim "req.body.email" (bodyField (body req) "email") ;;
     location <- optTrim "req.body.location" (bodyField (body req) "location") ;;
     console_log "Incoming Neighbor:"
       [Object [("name", Val name); ("email", Val email);
                ("location", Val location)]] ;;
     set_imageStatus "none" ;;
     set_imageUrl Null ;;
     match file req with
     | Some f =>
         set_imageStatus "processing" ;;
         console_log "Image received:" [Object [fileType f; fileSize f]] ;;
         try_catch
           (imageRequests w req f name)
           (fun imageError =>
              console_error "Image processing failed:"
                [Val (Str (message imageError))] ;;
              set_imageStatus "failed" ;;
              set_imageUrl Null)
     | None => console_log "No image uploaded." []
     end ;;
     console_log "Inserting neighbor in DB." [] ;;
     imageUrl <- get_imageUrl ;;
     dbError <- db_insert w "community_members"
                  [[("name", name); ("email", email); ("image_url", imageUrl)]] ;;
     match dbError with
     | Some e => throw e
     | None =>
         console_log "User saved successfully" [] ;;
         imageStatus <- get_imageStatus ;;
         imageUrl <- get_imageUrl ;;
         ret {| status := 200;
                payload := Object [("ok", Flag true);
                                   ("image", Object [("status", Val (Str imageStatus));
                                                     ("url", Val imageUrl)])] |}
     end)
    (fun err =>
       console_error "[/submitMember]" [Val (Str (message err))] ;;
       ret {| status := 500; payload := errorBody (lit "Internal Server Error.") |}).

Definition communityQuery : Query :=
  {| q_table := "community_members";
     q_columns := "name,email,image_url,created_at";
     q_orderBy := "created_at";
     q_ascending := false |}.

(** GET /community *)
Definition community (w : World) : M Response :=
  reply <- db_select w communityQuery ;;
  match reply with
  | SelectError error =>
      console_error "Failed to fetch community:" [errorObject error] ;;
      ret {| status := 500; payload := errorBody (message error) |}
  | SelectData data => ret {| status := 200; payload := Array data |}
  end.

(** GET /health *)
Definition health : M Response :=
  ret {| status := 200; payload := Object [("ok", Flag true)] |}.

End ServerJs.

(* ================================================================= *)
(** ** src/unnamed/part_001 *)

Module Part001.

Definition baseline : jsstring :=
  lit "Using the provided photo as reference, create an original baby character for the comic strip   'Peanuts'. They are standing up (from hair to toe in frame), no background, and they should not have facial hair. Leave clear margin around the character's silhouette, with at least 20 pixels from the highest-point of their hair, and 20 below the lowest point of their feet. Make sure that their skin color is solid       COMPOSITION RULES (CRITICAL):- Full body visible with generous empty space around the character- Character appears small-to-medium scale in the canvas- Clear space above the head and below the feet- Do not zoom in- Do not crop any part of the character- Character centered with visible breathing room on all sidesSTYLE RULES:- Solid opaque skin color- Clean cartoon shading- No facial hair".

Definition extended (activity : jsstring) : jsstring :=
  lit "Using the provided photo as reference, create an original baby character for the comic strip 'Peanuts'. They are   standing up (from head to toe in frame), with no background, and they should not have facial hair. They should clearly be doing the following activity: "
  ++ activity
  ++ lit ". Leave clear margin around the character's silhouette (including top of hair and bottom of feet).".

(** This revision's [getPrompt] also writes one console line in its
    [else] branch. *)
Definition getPrompt (activity : jsval) : M jsstring :=
  if jsNot activity then ret baseline
  else
    emit (ConsoleLog
            [Val (Str (ToString activity
                       ++ lit "activity being played and fed to GPT"))]) ;;
    ret (extended (ToString activity)).

(** [`${firstname}-${lastname}`.toLowerCase().replace(/[^a-z0-9]+/g, "-")] *)
Definition safeNameSlug (w : World) (firstname lastname : jsval) : jsstring :=
  replaceNonAlnum
    (w_toLowerCase w (ToString firstname ++ lit "-" ++ ToString lastname)).

Definition originalFilePath (now : N) (slug : jsstring) : jsstring :=
  lit "original_image_url/" ++ numberToString now ++ lit "-" ++ slug ++ lit ".png".

Definition filePath (now : N) (slug : jsstring) : jsstring :=
  lit "community/" ++ numberToString now ++ lit "-" ++ slug ++ lit ".png".

(** The body of the inner [try] of POST /submitMember. *)
Definition imageProcessing (w : World) (f : UploadedFile)
  (firstname lastname activity : jsval) : M unit :=
  let slug := safeNameSlug w firstname lastname in
  now <- date_now w ;;
  let originalPath := originalFilePath now slug in
  console_log "Uploading original image to Supabase:" [Val (Str originalPath)] ;;
  originalUploadError <-
    storage_upload w "neighbors" originalPath FileBuffer (mimetype f) ;;
  match originalUploadError with
  | Some e =>
      console_error "Original image upload failed:" [Val (Str (message e))]
  | None =>
      publicUrl <- get_public_url w "neighbors" originalPath ;;
      set_originalImageUrl (Str publicUrl) ;;
      url <- get_originalImageUrl ;;
      console_log "Original image successfully stored:" [Val url]
  end ;;
  to_file w (filenameOf f) (mimetype f) ;;
  console_log "Sending image to OpenAI..." [] ;;
  PROMPT <- getPrompt activity ;;
  result <- images_edit w PROMPT "1024x1024" "transparent" ;;
  console_log "OpenAI image generation completed" [] ;;
  let base64 := b64_json_optional result in
  if jsNot base64 then throw (Error "OpenAI returned no image data")
  else
    let buffer := FromBase64 (ToString base64) in
    now' <- date_now w ;;
    let path := filePath now' slug in
    console_log "Uploading image to Supabase:" [Val (Str path)] ;;
    uploadError <- storage_upload w "neighbors" path buffer (lit "image/png") ;;
    match uploadError with
    | Some e => throw e
    | None =>
        publicUrl <- get_public_url w "neighbors" path ;;
        set_imageUrl (Str publicUrl) ;;
        url <- get_imageUrl ;;
        console_log "Image successfully stored:" [Val url]
    end.

(** The validation test [!firstname || !lastname || !email]. *)
Definition missingRequired (firstname lastname email : jsval) : bool :=
  jsNot firstname || jsNot lastname || jsNot email.

(** POST /submitMember *)
Definition submitMember (w : World) (req : Request) : M Response :=
  try_catch
    (console_log "----- NEW SUBMISSION -----" [] ;;
     firstname <- optTrim "req.body.firstname" (bodyField (body req) "firstname") ;;
     lastname <- optTrim "req.body.lastname" (bodyField (body req) "lastname") ;;
     email <- optTrim "req.body.email" (bodyField (body req) "email") ;;
     location' <- optTrim "req.body.location" (bodyField (body req) "location") ;;
     let location := jsOr location' Null in
     activity' <- optTrim "req.body.activity" (bodyField (body req) "activity") ;;
     let activity := jsOr activity' Null in
     if missingRequired firstname lastname email then
       console_log "Validation failed: missing firstname, lastname, or email" [] ;;
       ret {| status := 400;
              payload := errorBody (lit "Missing firstname, lastname, or email") |}
     else
       console_log "Incoming Neighbor:"
         [Object [("firstname", Val firstname); ("lastname", Val lastname);
                  ("email", Val email); ("location", Val location);
                  ("activity", Val activity)]] ;;
       set_imageUrl Null ;;
       set_originalImageUrl Null ;;
       match file req with
       | Some f =>
           console_log "Image received:"
             [Object [("filename", Val (Str (originalname f)));
                      fileType f; fileSize f]] ;;
           try_catch
             (imageProcessing w f firstname lastname activity)
             (fun imageError =>
                console_error "Image processing failed:"
                  [Val (Str (message imageError))] ;;
                set_imageUrl Null)
       | None => console_log "No image uploaded" []
       end ;;
       console_log "Saving user to database" [] ;;
       imageUrl <- get_imageUrl ;;
       originalImageUrl <- get_originalImageUrl ;;
       dbError <- db_insert w "community_members"
                    [[("firstname", firstname); ("lastname", lastname);
                      ("email", email); ("location", location);
                      ("activity", activity); ("image_url", imageUrl);
                      ("original_image_url", originalImageUrl)]] ;;
       match dbError with
       | Some e => throw e
       | None =>
           console_log "User saved successfully" [] ;;
           ret {| status := 200; payload := Object [("ok", Flag true)] |}
       end)
    (fun err =>
       console_error "Request failed:" [errorObject err] ;;
       ret {| status := 500;
              payload := errorBody (lit "server error while processing submission") |}).

Definition communityQuery : Query :=
  {| q_table := "community_members";
     q_columns :=
       "firstname,lastname,email,location,activity,image_url,original_image_url,created_at";
     q_orderBy := "created_at";
     q_ascending := false |}.

(** GET /community *)
Definition community (w : World) : M Response :=
  reply <- db_select w communityQuery ;;
  match reply with
  | SelectError error =>
      console_error "Failed to fetch community:" [errorObject error] ;;
      ret {| status := 500; payload := errorBody (message error) |}
  | SelectData data => ret {| status := 200; payload := Array data |}
  end.

End Part001.

(* ================================================================= *)
(** ** src/unnamed/part_002 *)

Module Part002.

(** The template literal opens and closes with a line break and quotes
    Peanuts in double quotes (code unit 34). *)
Definition PIXEL_PROMPT : jsstring :=
  [10]
  ++ lit "Using the provided photo as reference, create an original baby character"
  ++ [10] ++ lit "for the comic strip " ++ [34] ++ lit "Peanuts" ++ [34]
  ++ lit ". They are standing up, the background is white,"
  ++ [10] ++ lit "and they should not have facial hair." ++ [10].

(** [result.data[0].b64_json] followed by [Buffer.from(base64, "base64")]:
    without optional chaining every missing level raises a TypeError. *)
Definition decodeFirst (r : EditResult) : M Bytes :=
  match r with
  | NoData => throw (TypeError "Cannot read properties of undefined (reading '0')")
  | NoEntry =>
      throw (TypeError "Cannot read properties of undefined (reading 'b64_json')")
  | Entry None =>
      throw (TypeError "The first argument must be of type string or an instance of Buffer, ArrayBuffer, or Array or an Array-like Object. Received undefined")
  | Entry (Some base64) => ret (FromBase64 base64)
  end.

Definition filePath (now : N) (slug : jsstring) : jsstring :=
  lit "community/" ++ numberToString now ++ lit "-" ++ slug ++ lit ".png".

(** The [if (req.file)] block: nothing in it is caught locally. *)
Definition imageProcessing (w : World) (f : UploadedFile) (name : jsval)
  : M unit :=
  to_file w (filenameOf f) (mimetype f) ;;
  result <- images_edit w PIXEL_PROMPT "1024x1024" "transparent" ;;
  buffer <- decodeFirst result ;;
  now <- date_now w ;;
  lower <- toLowerCase w name ;;
  let path := filePath now (replaceNonAlnum lower) in
  uploadError <- storage_upload w "neighbors" path buffer (lit "image/png") ;;
  match uploadError with
  | Some e => throw (mkError (message e))
  | None =>
      publicUrl <- get_public_url w "neighbors" path ;;
      set_imageUrl (Str publicUrl)
  end.

(** The validation test [!name || !email]. *)
Definition missingRequired (name email : jsval) : bool :=
  jsNot name || jsNot email.

(** POST /submitMember *)
Definition submitMember (w : World) (req : Request) : M Response :=
  try_catch
    (name <- optTrim "req.body.name" (bodyField (body req) "name") ;;
     email <- optTrim "req.body.email" (bodyField (body req) "email") ;;
     if missingRequired name email then
       ret {| status := 400; payload := errorBody (lit "Missing name or email") |}
     else
       set_imageUrl Null ;;
       match file req with
       | Some f => imageProcessing w f name
       | None => ret tt
       end ;;
       imageUrl <- get_imageUrl ;;
       dbError <- db_insert w "community_members"
                    [[("name", name); ("email", email); ("image_url", imageUrl)]] ;;
       match dbError with
       | Some e => throw (mkError (message e))
       | None => ret {| status := 200; payload := Object [("ok", Flag true)] |}
       end)
    (fun err =>
       emit (ConsoleError [errorObject err]) ;;
       ret {| status := 500; payload := errorBody (message err) |}).

Definition communityQuery : Query :=
  {| q_table := "community_members";
     q_columns := "name,email,image_url,created_at";
     q_orderBy := "created_at";
     q_ascending := false |}.

(** GET /community *)
Definition community (w : World) : M Response :=
  reply <- db_select w communityQuery ;;
  match reply with
  | SelectError error =>
      ret {| status := 500; payload := errorBody (message error) |}
  | SelectData data => ret {| status := 200; payload := Array data |}
  end.

End Part002.

(* ================================================================= *)
(** ** The relational data service *)

Module RecordStore.

(** Modelled from the spec: a stored MemberRecord of section 3, its text
    columns and the server-assigned [created_at]. *)
Record Member := {
  columns : list (string * jsval);
  created_at : N
}.

Fixpoint column (cols : list (string * jsval)) (k : string) : jsval :=
  match cols with
  | [] => Null
  | (k', v) :: cols' => if String.eqb k k' then v else column cols' k
  end.

(** Splitting a comma-separated column list. *)
Fixpoint splitCommas (acc : string) (s : string) : list string :=
  match s with
  | EmptyString => [acc]
  | String c s' =>
      if Ascii.eqb c "," then acc :: splitCommas EmptyString s'
      else splitCommas (acc ++ String c EmptyString) s'
  end.

(** Modelled from the spec: one member restricted to the requested
    columns (the column projection of section 6). *)
Definition project (cols : list string) (m : Member) : jsdata :=
  Object (map (fun k => (k, if String.eqb k "created_at"
                            then Number (created_at m)
                            else Val (column (columns m) k))) cols).

(** Modelled from the spec: ordering, as a stable insertion sort. *)
Fixpoint insertBy (before : Member -> Member -> bool) (m : Member)
  (l : list Member) : list Member :=
  match l with
  | [] => [m]
  | x :: l' => if before m x then m :: l else x :: insertBy before m l'
  end.

Fixpoint sortBy (before : Member -> Member -> bool) (l : list Member)
  : list Member :=
  match l with
  | [] => []
  | m :: l' => insertBy before m (sortBy before l')
  end.

Definition byCreatedAt (ascending : bool) (a b : Member) : bool :=
  if ascending then created_at a <=? created_at b
  else created_at b <=? created_at a.

(** Modelled from the spec: the relational data service is an external
    collaborator whose code is not in the repository.  Section 6 gives its
    interface (table name, column projection and ordering in, row set out)
    and section 3 names [created_at] as the sole sort key: every row of the
    table is returned, restricted to the requested columns, ordered by
    [created_at] in the requested direction. *)
Definition select (table : list Member) (q : Query) : list jsdata :=
  map (project (splitCommas EmptyString (q_columns q)))
      (if String.eqb (q_orderBy q) "created_at"
       then sortBy (byCreatedAt (q_ascending q)) table
       else table).

(** The [created_at] field of a returned row. *)
Fixpoint createdAtField (fields : list (string * jsdata)) : option N :=
  match fields with
  | [] => None
  | (k, Number n) :: fields' =>
      if String.eqb k "created_at" then Some n else createdAtField fields'
  | _ :: fields' => createdAtField fields'
  end.

Definition createdAtOf (row : jsdata) : option N :=
  match row with
  | Object fields => createdAtField fields
  | _ => None
  end.

Definition keysOf (row : jsdata) : list string :=
  match row with
  | Object fields => map fst fields
  | _ => []
  end.

End RecordStore.

(* ================================================================= *)
(** ** Reading a trace *)

(** The row lists handed to [insert], in call order. *)
Fixpoint inserts (t : list Event) : list (list Row) :=
  match t with
  | [] => []
  | DbInsert _ rows :: t' => rows :: inserts t'
  | _ :: t' => inserts t'
  end.

(** The storage paths written to, in call order. *)
Fixpoint uploads (t : list Event) : list jsstring :=
  match t with
  | [] => []
  | StorageUpload _ path _ _ :: t' => path :: uploads t'
  | _ :: t' => uploads t'
  end.

(** The prompts sent to the image model, in call order. *)
Fixpoint prompts (t : list Event) : list jsstring :=
  match t with
  | [] => []
  | ImagesEdit prompt _ _ :: t' => prompt :: prompts t'
  | _ :: t' => prompts t'
  end.

(** [row.k] *)
Fixpoint rowField (r : Row) (k : string) : jsval :=
  match r with
  | [] => Undefined
  | (k', v) :: r' => if String.eqb k k' then v else rowField r' k
  end.

(** The row each revision hands to [insert]. *)
Definition serverJsRow (req : Request) (imageUrl : jsval) : Row :=
  [("name", trimmed (bodyField (body req) "name"));
   ("email", trimmed (bodyField (body req) "email"));
   ("image_url", imageUrl)].

Definition part001Row (req : Request) (imageUrl originalImageUrl : jsval) : Row :=
  [("firstname", trimmed (bodyField (body req) "firstname"));
   ("lastname", trimmed (bodyField (body req) "lastname"));
   ("email", trimmed (bodyField (body req) "email"));
   ("location", jsOr (trimmed (bodyField (body req) "location")) Null);
   ("activity", jsOr (trimmed (bodyField (body req) "activity")) Null);
   ("image_url", imageUrl);
   ("original_image_url", originalImageUrl)].

(** Every field the handler reads before its image steps can be read:
    none of the [?.trim()] calls at the top of the handler throws. *)
Definition serverJsReadable (req : Request) : bool :=
  readable (bodyField (body req) "name")
  && readable (bodyField (body req) "email")
  && readable (bodyField (body req) "location").

(** With a photo attached server.js also reads the activity, inside its
    image steps. *)
Definition serverJsFieldsReadable (req : Request) : bool :=
  serverJsReadable req && readable (bodyField (body req) "activity").

Definition part001Readable (req : Request) : bool :=
  readable (bodyField (body req) "firstname")
  && readable (bodyField (body req) "lastname")
  && readable (bodyField (body req) "email")
  && readable (bodyField (body req) "location")
  && readable (bodyField (body req) "activity").

Definition part002Readable (req : Request) : bool :=
  readable (bodyField (body req) "name")
  && readable (bodyField (body req) "email").

(** The submission gets past the revision's validation step: its fields
    are read without error and the validation test lets it through. *)
Definition part001Valid (req : Request) : Prop :=
  part001Readable req = true
  /\ Part001.missingRequired (trimmed (bodyField (body req) "firstname"))
       (trimmed (bodyField (body req) "lastname"))
       (trimmed (bodyField (body req) "email")) = false.

Definition part002Valid (req : Request) : Prop :=
  part002Readable req = true
  /\ Part002.missingRequired (trimmed (bodyField (body req) "name"))
       (trimmed (bodyField (body req) "email")) = false.

(** The response bodies. *)
Definition okBody : jsdata := Object [("ok", Flag true)].

Definition okImageBody (imageStatus : string) (url : jsval) : jsdata :=
  Object [("ok", Flag true);
          ("image", Object [("status", Val (Str (lit imageStatus)));
                            ("url", Val url)])].

Definition serverJsFailure : Response :=
  {| status := 500; payload := errorBody (lit "Internal Server Error.") |}.

Definition part001Failure : Response :=
  {| status := 500;
     payload := errorBody (lit "server error while processing submission") |}.

(** The two storage paths of a part_001 submission with a photo. *)
Definition part001Slug (w : World) (req : Request) : jsstring :=
  Part001.safeNameSlug w (trimmed (bodyField (body req) "firstname"))
    (trimmed (bodyField (body req) "lastname")).

Definition part001OriginalPath (w : World) (req : Request) : jsstring :=
  Part001.originalFilePath (w_dateNow w 0%nat) (part001Slug w req).

Definition part001GeneratedPath (w : World) (req : Request) : jsstring :=
  Part001.filePath (w_dateNow w 1%nat) (part001Slug w req).

(** The console line of a catch block: a fixed text, then the message. *)
Definition errorLine (text : string) (msg : jsstring) : Event :=
  ConsoleError [Val (Str (lit text)); Val (Str msg)].

(** The image-generation collaborator fails: the call rejects, or what it
    resolves to holds no usable [b64_json]. *)
Definition generationFails (w : World) : Prop :=
  forall prompt,
    match w_imagesEdit w prompt with
    | EditRejected _ => True
    | EditResolved r => truthy (b64_json_optional r) = false
    end.

(** What makes the unguarded reads of part_002 throw: the call rejects, or
    what it resolves to has no string at [data[0].b64_json]. *)
Definition generationAborts (w : World) : Prop :=
  forall prompt,
    match w_imagesEdit w prompt with
    | EditRejected _ => True
    | EditResolved (Entry (Some _)) => False
    | EditResolved _ => True
    end.

(** Only a-z, 0-9 and the hyphen. *)
Definition urlSafe (c : N) : bool := isLowerAlnum c || (c =? 45).

Fixpoint doubleHyphen (s : jsstring) : bool :=
  match s with
  | 45 :: ((45 :: _) as s') => true
  | _ :: s' => doubleHyphen s'
  | [] => false
  end.

(** [activity] as part_001 holds it: [req.body.activity?.trim() || null]. *)
Definition part001Activity (req : Request) : jsval :=
  jsOr (trimmed (bodyField (body req) "activity")) Null.

(** The storage path of the generated image in server.js and in
    part_002, for a submitted name. *)
Definition serverJsPath (w : World) (name : jsstring) : jsstring :=
  ServerJs.filePath (replaceNonAlnum (w_toLowerCase w name))
    (slice 2 6 (w_random36 w)).

Definition part002Path (w : World) (name : jsstring) : jsstring :=
  Part002.filePath (w_dateNow w 0%nat) (replaceNonAlnum (w_toLowerCase w name)).

(** Console output, as opposed to a call to a collaborator. *)
Definition isConsole (e : Event) : bool :=
  match e with
  | ConsoleLog _ | ConsoleError _ => true
  | _ => false
  end.

(** What a handler still does once it has called [insert]. *)
Fixpoint afterInsert (t : list Event) : list Event :=
  match t with
  | [] => []
  | DbInsert _ _ :: t' => t'
  | _ :: t' => afterInsert t'
  end.

(** The storage writes and the image-model calls of a trace, in full. *)
Definition isUpload (e : Event) : bool :=
  match e with
  | StorageUpload _ _ _ _ => true
  | _ => false
  end.

Definition isEdit (e : Event) : bool :=
  match e with
  | ImagesEdit _ _ _ => true
  | _ => false
  end.

Definition uploadCalls (t : list Event) : list Event := filter isUpload t.
Definition editCalls (t : list Event) : list Event := filter isEdit t.

(** A non-empty string that neither starts nor ends with white space. *)
Definition cleanText (v : jsval) : bool :=
  match v with
  | Str (c :: s) => negb (isWhiteSpace c) && negb (isWhiteSpace (last s c))
  | _ => false
  end.

(** [null], or such a string. *)
Definition nullOrCleanText (v : jsval) : bool :=
  match v with
  | Null => true
  | _ => cleanText v
  end.

(** [{ok: true, image: {status, url}}] with the status as a value. *)
Definition imageReport (imageStatus : jsstring) (url : jsval) : jsdata :=
  Object [("ok", Flag true);
          ("image", Object [("status", Val (Str imageStatus)); ("url", Val url)])].

(** A string is a prefix of another. *)
Definition prefixOf (p s : jsstring) : Prop := exists rest, s = p ++ rest.

(* ================================================================= *)
(** ** Concrete worlds and requests *)

(** Lower-casing of the ASCII letters; what [toLowerCase] does on ASCII
    input. *)
Definition asciiLowerCase (s : jsstring) : jsstring :=
  map (fun c => if (65 <=? c) && (c <=? 90) then c + 32 else c) s.

Definition sampleUrl (path : jsstring) : jsstring :=
  lit "https://project.supabase.co/storage/v1/object/public/neighbors/" ++ path.

(** [s.startsWith(p)] *)
Fixpoint startsWith (p s : jsstring) : bool :=
  match p, s with
  | [], _ => true
  | a :: p', b :: s' => (a =? b) && startsWith p' s'
  | _ :: _, [] => false
  end.

(** Every collaborator succeeds; both clock readings fall in the same
    millisecond. *)
Definition calmWorld : World :=
  {| w_toLowerCase := asciiLowerCase;
     w_dateNow := fun _ => 1700000000000;
     w_random36 := lit "0.k3x9q2m7w1";
     w_toFile := None;
     w_imagesEdit := fun _ => EditResolved (Entry (Some (lit "iVBORw0KGgo=")));
     w_upload := fun _ => Accepted;
     w_publicUrl := sampleUrl;
     w_insert := fun _ => Accepted;
     w_select := fun _ => SelectData [] |}.

Definition withImagesEdit (w : World) (r : EditReply) : World :=
  {| w_toLowerCase := w_toLowerCase w; w_dateNow := w_dateNow w;
     w_random36 := w_random36 w; w_toFile := w_toFile w;
     w_imagesEdit := fun _ => r;
     w_upload := w_upload w; w_publicUrl := w_publicUrl w;
     w_insert := w_insert w; w_select := w_select w |}.

Definition withUpload (w : World) (u : jsstring -> Reply) : World :=
  {| w_toLowerCase := w_toLowerCase w; w_dateNow := w_dateNow w;
     w_random36 := w_random36 w; w_toFile := w_toFile w;
     w_imagesEdit := w_imagesEdit w;
     w_upload := u; w_publicUrl := w_publicUrl w;
     w_insert := w_insert w; w_select := w_select w |}.

Definition withInsert (w : World) (r : Reply) : World :=
  {| w_toLowerCase := w_toLowerCase w; w_dateNow := w_dateNow w;
     w_random36 := w_random36 w; w_toFile := w_toFile w;
     w_imagesEdit := w_imagesEdit w;
     w_upload := w_upload w; w_publicUrl := w_publicUrl w;
     w_insert := fun _ => r; w_select := w_select w |}.

Definition withSelect (w : World) (f : Query -> SelectReply) : World :=
  {| w_toLowerCase := w_toLowerCase w; w_dateNow := w_dateNow w;
     w_random36 := w_random36 w; w_toFile := w_toFile w;
     w_imagesEdit := w_imagesEdit w;
     w_upload := w_upload w; w_publicUrl := w_publicUrl w;
     w_insert := w_insert w; w_select := f |}.

(** Storage refuses whatever goes under [original_image_url/]. *)
Definition originalsRefused : World :=
  withUpload calmWorld
    (fun path => if startsWith (lit "original_image_url/") path
                 then Refused (Error "Bucket quota exceeded")
                 else Accepted).

(** The upload call itself rejects for whatever goes under
    [original_image_url/]. *)
Definition originalsRejected : World :=
  withUpload calmWorld
    (fun path => if startsWith (lit "original_image_url/") path
                 then Rejected (Error "fetch failed")
                 else Accepted).

Definition photo : UploadedFile :=
  {| originalname := lit "ada.png"; mimetype := lit "image/png"; size := 20480 |}.

(** A table of three members, not stored in order of creation. *)
Definition threeMembers : list RecordStore.Member :=
  [ {| RecordStore.columns := [("name", Str (lit "Ada Lovelace"));
                               ("email", Str (lit "ada@example.com"));
                               ("image_url", Null)];
       RecordStore.created_at := 1700000000000 |};
    {| RecordStore.columns := [("name", Str (lit "Grace Hopper"));
                               ("email", Str (lit "grace@example.com"));
                               ("image_url", Null)];
       RecordStore.created_at := 1700000500000 |};
    {| RecordStore.columns := [("name", Str (lit "Alan Turing"));
                               ("email", Str (lit "alan@example.com"));
                               ("image_url", Null)];
       RecordStore.created_at := 1700000200000 |} ].

(** A world whose database is the modelled store holding [table]. *)
Definition storeWorld (table : list RecordStore.Member) : World :=
  withSelect calmWorld (fun q => SelectData (RecordStore.select table q)).

(** The column lists GET /community asks for. *)
Definition fourColumns : list string :=
  ["name"; "email"; "image_url"; "created_at"].

Definition eightColumns : list string :=
  ["firstname"; "lastname"; "email"; "location"; "activity"; "image_url";
   "original_image_url"; "created_at"].

(** Newest first. *)
Definition newerFirst (a b : RecordStore.Member) : Prop :=
  RecordStore.created_at b <= RecordStore.created_at a.

(** [{name: "Ada Lovelace", email: "ada@example.com"}], no file. *)
Definition adaByNameBody : Body :=
  {| b_name := Text (lit "Ada Lovelace"); b_firstname := Absent;
     b_lastname := Absent; b_email := Text (lit "ada@example.com");
     b_location := Absent; b_activity := Absent |}.

Definition adaByName : Request :=
  {| body := adaByNameBody; file := None |}.

Definition adaByNameWithPhoto : Request :=
  {| body := adaByNameBody; file := Some photo |}.

Definition adaFull : Request :=
  {| body := {| b_name := Absent; b_firstname := Text (lit "Ada");
                b_lastname := Text (lit "Lovelace");
                b_email := Text (lit "ada@example.com");
                b_location := Absent; b_activity := Absent |};
     file := None |}.

Definition adaFullWithPhoto : Request :=
  {| body := {| b_name := Absent; b_firstname := Text (lit "Ada");
                b_lastname := Text (lit "Lovelace");
                b_email := Text (lit "ada@example.com");
                b_location := Absent; b_activity := Text (lit "  ") |};
     file := Some photo |}.

(** A second Ada Lovelace, another person with another address. *)
Definition otherAdaWithPhoto : Request :=
  {| body := {| b_name := Absent; b_firstname := Text (lit "Ada");
                b_lastname := Text (lit "Lovelace");
                b_email := Text (lit "countess@example.org");
                b_location := Absent; b_activity := Absent |};
     file := Some photo |}.

(** A submission whose activity is padded with blanks. *)
Definition paintingWithPhoto : Request :=
  {| body := {| b_name := Text (lit "Ada Lovelace");
                b_firstname := Text (lit "Ada");
                b_lastname := Text (lit "Lovelace");
                b_email := Text (lit "ada@example.com");
                b_location := Absent;
                b_activity := Text (lit " painting ") |};
     file := Some photo |}.

(** Every field padded with blanks; the location is blanks only. *)
Definition paddedSubmission : Request :=
  {| body := {| b_name := Absent; b_firstname := Text (lit "  Ada ");
                b_lastname := Text (lit " Lovelace  ");
                b_email := Text (lit " ada@example.com ");
                b_location := Text (lit "   ");
                b_activity := Text (lit " painting ") |};
     file := None |}.

(** The last name is two blanks around a tab. *)
Definition blankLastName : Request :=
  {| body := {| b_name := Absent; b_firstname := Text (lit "Ada");
                b_lastname := Text [32; 9; 32];
                b_email := Text (lit "ada@example.com");
                b_location := Absent; b_activity := Absent |};
     file := Some photo |}.

(** The name field is missing altogether. *)
Definition emailOnlyBody : Body :=
  {| b_name := Absent; b_firstname := Absent; b_lastname := Absent;
     b_email := Text (lit "ada@example.com");
     b_location := Absent; b_activity := Absent |}.

Definition emailOnly : Request :=
  {| body := emailOnlyBody; file := None |}.

Definition emailOnlyWithPhoto : Request :=
  {| body := emailOnlyBody; file := Some photo |}.

(** The form carries the email field twice: multer leaves an array under
    [email]. *)
Definition emailTwice : Request :=
  {| body := {| b_name := Text (lit "Ada Lovelace");
                b_firstname := Text (lit "Ada");
                b_lastname := Text (lit "Lovelace");
                b_email := NotText;
                b_location := Absent; b_activity := Absent |};
     file := None |}.

(** The form carries the activity field twice, and a photo. *)
Definition activityTwiceWithPhoto : Request :=
  {| body := {| b_name := Text (lit "Ada Lovelace");
                b_firstname := Text (lit "Ada");
                b_lastname := Text (lit "Lovelace");
                b_email := Text (lit "ada@example.com");
                b_location := Absent; b_activity := NotText |};
     file := Some photo |}.

(* ================================================================= *)
(** ** Facts about the string primitives *)

Section StringFacts.

Lemma N_of_ascii_inj (a b : ascii) : N_of_ascii a = N_of_ascii b -> a = b.
Proof.
  intro H. rewrite <- (ascii_N_embedding a), <- (ascii_N_embedding b).
  now rewrite H.
Qed.

Lemma lit_inj (s t : string) : lit s = lit t -> s = t.
Proof.
  unfold lit. revert t.
  induction s as [|a s IH]; intros [|b t] H; simpl in H;
    try discriminate; auto.
  injection H as Hab Hst.
  f_equal; [now apply N_of_ascii_inj | now apply IH].
Qed.

Lemma lit_app (s t : string) : lit (s ++ t) = lit s ++ lit t.
Proof.
  unfold lit. induction s as [|a s IH]; simpl; [reflexivity|].
  now f_equal.
Qed.

(** Distinct numbers print differently. *)
Lemma numberToString_inj (n m : N) :
  numberToString n = numberToString m -> n = m.
Proof.
  unfold numberToString. intro H.
  apply lit_inj in H.
  apply DecimalN.Unsigned.to_uint_inj.
  assert (Hs : Some (N.to_uint n) = Some (N.to_uint m)).
  { rewrite <- (NilEmpty.usu (N.to_uint n)), <- (NilEmpty.usu (N.to_uint m)).
    now rewrite H. }
  now injection Hs.
Qed.

Lemma urlSafe_replaceRuns (s : jsstring) :
  forall inRun, forallb urlSafe (replaceRuns inRun s) = true.
Proof.
  induction s as [|c s IH]; intro inRun; simpl; [reflexivity|].
  destruct (isLowerAlnum c) eqn:Hc.
  - simpl. unfold urlSafe at 1. rewrite Hc. simpl. apply IH.
  - destruct inRun; [apply IH|]. simpl. apply IH.
Qed.

Lemma isLowerAlnum_not_hyphen (c : N) : isLowerAlnum c = true -> c <> 45.
Proof.
  unfold isLowerAlnum. intros H ->. vm_compute in H. discriminate.
Qed.

(** Inside a run no hyphen is produced first. *)
Lemma replaceRuns_inRun_head (s : jsstring) :
  forall r, replaceRuns true s <> 45 :: r.
Proof.
  induction s as [|c s IH]; intros r; simpl; [discriminate|].
  destruct (isLowerAlnum c) eqn:Hc.
  - intro H. injection H as H _. now apply isLowerAlnum_not_hyphen in Hc.
  - apply IH.
Qed.

Lemma doubleHyphen_cons_alnum (c : N) (s : jsstring) :
  c <> 45 -> doubleHyphen (c :: s) = doubleHyphen s.
Proof.
  intro Hc. simpl.
  destruct c as [|p]; [reflexivity|].
  do 6 (destruct p as [p|p|]; try reflexivity).
  all: try (exfalso; apply Hc; reflexivity).
  all: destruct s; reflexivity.
Qed.

Lemma doubleHyphen_replaceRuns (s : jsstring) :
  forall inRun, doubleHyphen (replaceRuns inRun s) = false.
Proof.
  induction s as [|c s IH]; intro inRun; simpl; [reflexivity|].
  destruct (isLowerAlnum c) eqn:Hc.
  - rewrite doubleHyphen_cons_alnum by now apply isLowerAlnum_not_hyphen.
    apply IH.
  - destruct inRun; [apply IH|].
    pose proof (replaceRuns_inRun_head s) as Hh.
    specialize (IH true).
    destruct (replaceRuns true s) as [|d r] eqn:E; [reflexivity|].
    assert (Hd : d <> 45) by (intros ->; now apply (Hh r)).
    change (doubleHyphen (45 :: d :: r)) with
      (match d with 45 => true | _ => doubleHyphen (d :: r) end).
    destruct d as [|p]; [exact IH|].
    do 6 (destruct p as [p|p|]; try exact IH).
    exfalso; apply Hd; reflexivity.
Qed.

(** The letters and digits of the input survive, in order. *)
Lemma replaceRuns_keeps_alnum (s : jsstring) :
  forall inRun,
    filter isLowerAlnum (replaceRuns inRun s) = filter isLowerAlnum s.
Proof.
  induction s as [|c s IH]; intro inRun; simpl; [reflexivity|].
  destruct (isLowerAlnum c) eqn:Hc.
  - simpl. rewrite Hc. now rewrite IH.
  - destruct inRun; [apply IH|]. simpl. apply IH.
Qed.

End StringFacts.

(* ================================================================= *)
(** ** Running the handlers symbolically *)

Lemma optTrim_readable (e : string) (x : FieldValue) :
  readable x = true -> optTrim e x = ret (trimmed x).
Proof. destruct x; [reflexivity | reflexivity | discriminate]. Qed.

Lemma trimmed_Str_readable (x : FieldValue) (s : jsstring) :
  trimmed x = Str s -> readable x = true.
Proof. destruct x; [reflexivity | reflexivity | discriminate]. Qed.

Ltac reduce :=
  cbv beta iota zeta delta
      [run bind try_catch ret throw console_log console_error emit
       set_imageStatus set_imageUrl set_originalImageUrl get_imageStatus
       get_imageUrl get_originalImageUrl date_now to_file images_edit
       storage_upload get_public_url db_insert db_select toLowerCase initial
       fst snd trace nowCalls imageStatus imageUrl originalImageUrl
       status payload];
  cbn [app fst snd inserts uploads prompts b64_json_optional truthy jsNot
       negb ToString optTrim trimmed].

Ltac split_on_world :=
  match goal with
  | H : readable ?x = true |- context [optTrim ?e ?x] =>
      rewrite (optTrim_readable e x H)
  | H : Part001.missingRequired ?a ?b ?c = _
    |- context [Part001.missingRequired ?a ?b ?c] => rewrite H
  | H : Part002.missingRequired ?a ?b = _
    |- context [Part002.missingRequired ?a ?b] => rewrite H
  | H : forall r, w_insert ?w r = _ |- context [w_insert ?w ?x] =>
      rewrite (H x)
  | H : w_insert ?w ?x = _ |- context [w_insert ?w ?x] => rewrite H
  | H : forall p, w_upload ?w p = _ |- context [w_upload ?w ?x] =>
      rewrite (H x)
  | H : w_upload ?w ?x = _ |- context [w_upload ?w ?x] => rewrite H
  | H : w_toFile ?w = _ |- context [w_toFile ?w] => rewrite H
  | H : forall p, w_imagesEdit ?w p = _ |- context [w_imagesEdit ?w ?x] =>
      rewrite (H x)
  | H : w_select ?w ?x = _ |- context [w_select ?w ?x] => rewrite H
  | |- context [optTrim ?e ?x] => destruct x eqn:?
  | |- context [match w_toFile ?w with _ => _ end] =>
      destruct (w_toFile w) eqn:?
  | |- context [match w_imagesEdit ?w ?p with _ => _ end] =>
      destruct (w_imagesEdit w p) as [?|[| |[[|? ?]|]]] eqn:?
  | |- context [match w_upload ?w ?p with _ => _ end] =>
      destruct (w_upload w p) eqn:?
  | |- context [match w_insert ?w ?r with _ => _ end] =>
      destruct (w_insert w r) eqn:?
  | |- context [match w_select ?w ?q with _ => _ end] =>
      destruct (w_select w q) eqn:?
  | |- context [if jsNot ?v then _ else _] => destruct (jsNot v) eqn:?
  | |- context [match trimmed ?x with _ => _ end] =>
      destruct (trimmed x) eqn:?
  end.

Ltac exec := reduce; repeat (split_on_world; reduce).

(** Turns [serverJsReadable req = true] and the like into one fact per
    field. *)
Ltac fields H :=
  unfold serverJsReadable, part001Readable, part002Readable in H;
  repeat (let H' := fresh "Hread" in
          apply andb_true_iff in H; destruct H as [H H']).

(** Reads every field known to be readable. *)
Ltac read_fields :=
  repeat match goal with
    | H : readable ?x = true |- context [optTrim ?e ?x] =>
        rewrite (optTrim_readable e x H)
    end.

(** A required field that validation let through is a non-empty string. *)
Ltac not_missing :=
  match goal with
  | Hv : Part001.missingRequired _ _ _ = false |- _ =>
      solve [unfold Part001.missingRequired in Hv; simpl in Hv; discriminate Hv]
  | Hv : Part002.missingRequired _ _ = false |- _ =>
      solve [unfold Part002.missingRequired in Hv; simpl in Hv; discriminate Hv]
  end.

(** A world whose image generation fails never yields usable data. *)
Ltac no_generation :=
  match goal with
  | Hg : generationFails ?w, He : w_imagesEdit ?w ?p = _ |- _ =>
      specialize (Hg p); rewrite He in Hg; discriminate Hg
  end.

(* ================================================================= *)
(** ** Fields that cannot be read *)

Section Unreadable.

(** server.js: the TypeError of the first unreadable field among name,
    email and location reaches the outer catch; nothing was called. *)
Lemma ServerJs_unreadable (w : World) (req : Request) :
  serverJsReadable req = false ->
  exists msg,
    run (ServerJs.submitMember w req)
    = (Some serverJsFailure,
       [ConsoleLog [Val (Str (lit "----- NEW SUBMISSION -----"))];
        errorLine "[/submitMember]" msg]).
Proof.
  unfold serverJsReadable, ServerJs.submitMember, serverJsFailure, errorLine.
  intro H.
  destruct (bodyField (body req) "name");
    destruct (bodyField (body req) "email");
    destruct (bodyField (body req) "location");
    try discriminate H; eexists; reflexivity.
Qed.

Lemma Part001_unreadable (w : World) (req : Request) :
  part001Readable req = false ->
  exists e,
    run (Part001.submitMember w req)
    = (Some part001Failure,
       [ConsoleLog [Val (Str (lit "----- NEW SUBMISSION -----"))];
        ConsoleError [Val (Str (lit "Request failed:")); errorObject e]]).
Proof.
  unfold part001Readable, Part001.submitMember, part001Failure.
  intro H.
  destruct (bodyField (body req) "firstname");
    destruct (bodyField (body req) "lastname");
    destruct (bodyField (body req) "email");
    destruct (bodyField (body req) "location");
    destruct (bodyField (body req) "activity");
    try discriminate H; eexists; reflexivity.
Qed.

(** part_002 hands the TypeError's own message to the caller. *)
Lemma Part002_unreadable (w : World) (req : Request) :
  part002Readable req = false ->
  exists e,
    run (Part002.submitMember w req)
    = (Some {| status := 500; payload := errorBody (message e) |},
       [ConsoleError [errorObject e]]).
Proof.
  unfold part002Readable, Part002.submitMember.
  intro H.
  destruct (bodyField (body req) "name");
    destruct (bodyField (body req) "email");
    try discriminate H; eexists; reflexivity.
Qed.

End Unreadable.

Section Validation.

Lemma jsNot_trimmed (x : FieldValue) :
  readable x = true ->
  (jsNot (trimmed x) = true
   <-> x = Absent \/ exists s, x = Text s /\ trim s = []).
Proof.
  destruct x as [|s|]; simpl; intro Hx; [| |discriminate Hx].
  - split; [now left | reflexivity].
  - unfold jsNot; simpl. destruct (trim s) eqn:E; simpl; split.
    + intros _. right. now exists s.
    + reflexivity.
    + discriminate.
    + intros [H|[s' [H H']]]; [discriminate|].
      injection H as <-. congruence.
Qed.

(** part_001 answers 400 at once when a required field is missing: two
    console lines, no collaborator is called. *)
Lemma Part001_rejects_missing_fields (w : World) (req : Request) :
  part001Readable req = true ->
  Part001.missingRequired (trimmed (bodyField (body req) "firstname"))
    (trimmed (bodyField (body req) "lastname"))
    (trimmed (bodyField (body req) "email")) = true ->
  run (Part001.submitMember w req) =
    (Some {| status := 400;
             payload := errorBody (lit "Missing firstname, lastname, or email") |},
     [ConsoleLog [Val (Str (lit "----- NEW SUBMISSION -----"))];
      ConsoleLog [Val (Str (lit "Validation failed: missing firstname, lastname, or email"))]]).
Proof.
  intros Hp H. fields Hp. unfold Part001.submitMember. exec. reflexivity.
Qed.

(** part_002 does the same, without any console line. *)
Lemma Part002_rejects_missing_fields (w : World) (req : Request) :
  part002Readable req = true ->
  Part002.missingRequired (trimmed (bodyField (body req) "name"))
    (trimmed (bodyField (body req) "email")) = true ->
  run (Part002.submitMember w req) =
    (Some {| status := 400; payload := errorBody (lit "Missing name or email") |},
     []).
Proof.
  intros Hp H. fields Hp. unfold Part002.submitMember. exec. reflexivity.
Qed.

(** The validation test of part_001 in words: a required field is absent
    or empty once trimmed. *)
Lemma Part001_missingRequired_iff (req : Request) :
  part001Readable req = true ->
  (Part001.missingRequired (trimmed (bodyField (body req) "firstname"))
     (trimmed (bodyField (body req) "lastname"))
     (trimmed (bodyField (body req) "email")) = true
   <-> exists k, In k ["firstname"; "lastname"; "email"]
                 /\ (bodyField (body req) k = Absent
                     \/ exists s, bodyField (body req) k = Text s /\ trim s = [])).
Proof.
  intro Hp. fields Hp.
  unfold Part001.missingRequired.
  rewrite !orb_true_iff, !jsNot_trimmed by assumption.
  split.
  - intros [[H|H]|H];
      [exists "firstname" | exists "lastname" | exists "email"];
      (split; [simpl; auto | exact H]).
  - intros (k & [<-|[<-|[<-|[]]]] & H); auto.
Qed.

Lemma Part002_missingRequired_iff (req : Request) :
  part002Readable req = true ->
  (Part002.missingRequired (trimmed (bodyField (body req) "name"))
     (trimmed (bodyField (body req) "email")) = true
   <-> exists k, In k ["name"; "email"]
                 /\ (bodyField (body req) k = Absent
                     \/ exists s, bodyField (body req) k = Text s /\ trim s = [])).
Proof.
  intro Hp. fields Hp.
  unfold Part002.missingRequired.
  rewrite !orb_true_iff, !jsNot_trimmed by assumption.
  split.
  - intros [H|H]; [exists "name" | exists "email"];
      (split; [simpl; auto | exact H]).
  - intros (k & [<-|[<-|[]]] & H); auto.
Qed.

(** server.js has no validation step: once name, email and location are
    read, exactly one row is handed to the record store, whatever the
    fields hold. *)
Lemma ServerJs_always_inserts (w : World) (req : Request) :
  serverJsReadable req = true ->
  exists imageUrl,
    inserts (snd (run (ServerJs.submitMember w req))) =
      [[[("name", trimmed (bodyField (body req) "name"));
         ("email", trimmed (bodyField (body req) "email"));
         ("image_url", imageUrl)]]].
Proof.
  intro Hp. fields Hp.
  unfold ServerJs.submitMember, ServerJs.imageRequests.
  destruct (file req) as [f|]; exec; eexists; reflexivity.
Qed.

End Validation.

(** C1, evaluated on src/server.js: a submission without a name, in a world
    where every collaborator succeeds, is answered 200 and a row without
    name is inserted. *)
Theorem C1_server_js_inserts_without_name :
  run (ServerJs.submitMember calmWorld emailOnly) =
    (Some {| status := 200;
             payload := Object [("ok", Flag true);
                                ("image", Object [("status", Val (Str (lit "none")));
                                                  ("url", Val Null)])] |},
     [ConsoleLog [Val (Str (lit "----- NEW SUBMISSION -----"))];
      ConsoleLog [Val (Str (lit "Incoming Neighbor:"));
                  Object [("name", Val Undefined);
                          ("email", Val (Str (lit "ada@example.com")));
                          ("location", Val Undefined)]];
      ConsoleLog [Val (Str (lit "No image uploaded."))];
      ConsoleLog [Val (Str (lit "Inserting neighbor in DB."))];
      DbInsert "community_members"
        [[("name", Undefined); ("email", Str (lit "ada@example.com"));
          ("image_url", Null)]];
      ConsoleLog [Val (Str (lit "User saved successfully"))]]).
Proof. vm_compute. reflexivity. Qed.

(* ================================================================= *)
(** ** Prompt construction *)

Section Prompt.

Lemma occursIn_middle (a s b : jsstring) : occursIn s (a ++ s ++ b).
Proof. now exists a, b. Qed.

Lemma ServerJs_getPrompt_falsy (a : jsval) :
  truthy a = false -> ServerJs.getPrompt a = ServerJs.baseline.
Proof. unfold ServerJs.getPrompt, jsNot. now intros ->. Qed.

Lemma ServerJs_getPrompt_string (c : N) (s : jsstring) :
  ServerJs.getPrompt (Str (c :: s)) = ServerJs.extended (c :: s).
Proof. reflexivity. Qed.

Lemma Part001_getPrompt_falsy (a : jsval) (st : State) :
  truthy a = false -> Part001.getPrompt a st = (Normal Part001.baseline, st).
Proof. unfold Part001.getPrompt, jsNot. now intros ->. Qed.

(** On a non-empty activity the only effect is one console line, itself
    made of the activity alone. *)
Lemma Part001_getPrompt_string (c : N) (s : jsstring) (st : State) :
  Part001.getPrompt (Str (c :: s)) st
  = (Normal (Part001.extended (c :: s)),
     snd (emit (ConsoleLog
                  [Val (Str ((c :: s) ++ lit "activity being played and fed to GPT"))])
            st)).
Proof. reflexivity. Qed.

(** The prompt part_001 returns does not depend on the state it runs in,
    and it never throws. *)
Lemma Part001_getPrompt_returns (a : jsval) (st : State) :
  exists p st',
    Part001.getPrompt a st = (Normal p, st') /\
    forall st2, fst (Part001.getPrompt a st2) = Normal p.
Proof.
  unfold Part001.getPrompt.
  destruct (jsNot a); do 2 eexists; split; reflexivity || (intro; reflexivity).
Qed.

(** The two templates of a revision part ways before the activity is
    spliced in, so no activity turns the extended template into the
    baseline. *)
Lemma ServerJs_extended_not_baseline (a : jsstring) :
  ServerJs.extended a <> ServerJs.baseline.
Proof.
  intro H. apply (f_equal (firstn 100)) in H. vm_compute in H. discriminate H.
Qed.

Lemma Part001_extended_not_baseline (a : jsstring) :
  Part001.extended a <> Part001.baseline.
Proof.
  intro H. apply (f_equal (firstn 100)) in H. vm_compute in H. discriminate H.
Qed.

End Prompt.

(** C3 as stated fails on src/unnamed/part_001: called on the activity
    "painting", [getPrompt] writes a line to the console, so it is not free
    of side effects. *)
Lemma C3_part001_getPrompt_writes_console :
  trace initial = []
  /\ trace (snd (Part001.getPrompt (Str (lit "painting")) initial))
     = [ConsoleLog [Val (Str (lit "paintingactivity being played and fed to GPT"))]].
Proof. split; reflexivity. Qed.

(** C3, amended: [getPrompt] of both revisions returns for every input (it
    never throws) and the string it returns depends on the activity alone.
    An absent activity ([undefined] or [null]) gives the revision's fixed
    baseline text and changes nothing; a non-empty activity gives the
    revision's extended text with the activity spliced in verbatim, which
    is never the baseline.  In server.js the function has no effect; in
    part_001 a non-empty activity also appends one console line, the
    activity followed by "activity being played and fed to GPT", and
    changes nothing else. *)
Theorem C3_getPrompt_pure_total :
  (ServerJs.baseline
   = lit "Using the provided photo as reference, create an original baby character for the comic strip   'Peanuts'. They are standing up, the background is white, and they should not have facial hair."
   /\ (forall a, ServerJs.extended a
                 = lit "Using the provided photo as reference, create an original baby character for the comic strip 'Peanuts'. They are   standing up, the background is white, and they should not have facial hair. They are doing the following activity: "
                   ++ a ++ lit ".")
   /\ (forall a, ServerJs.extended a <> ServerJs.baseline)
   /\ ServerJs.getPrompt Undefined = ServerJs.baseline
   /\ ServerJs.getPrompt Null = ServerJs.baseline
   /\ forall c s,
        ServerJs.getPrompt (Str (c :: s)) = ServerJs.extended (c :: s)
        /\ occursIn (c :: s) (ServerJs.getPrompt (Str (c :: s))))
  /\
  (Part001.baseline
   = lit "Using the provided photo as reference, create an original baby character for the comic strip   'Peanuts'. They are standing up (from hair to toe in frame), no background, and they should not have facial hair. Leave clear margin around the character's silhouette, with at least 20 pixels from the highest-point of their hair, and 20 below the lowest point of their feet. Make sure that their skin color is solid       COMPOSITION RULES (CRITICAL):- Full body visible with generous empty space around the character- Character appears small-to-medium scale in the canvas- Clear space above the head and below the feet- Do not zoom in- Do not crop any part of the character- Character centered with visible breathing room on all sidesSTYLE RULES:- Solid opaque skin color- Clean cartoon shading- No facial hair"
   /\ (forall a, Part001.extended a
                 = lit "Using the provided photo as reference, create an original baby character for the comic strip 'Peanuts'. They are   standing up (from head to toe in frame), with no background, and they should not have facial hair. They should clearly be doing the following activity: "
                   ++ a
                   ++ lit ". Leave clear margin around the character's silhouette (including top of hair and bottom of feet).")
   /\ (forall a, Part001.extended a <> Part001.baseline)
   /\ (forall a st, exists p st',
          Part001.getPrompt a st = (Normal p, st')
          /\ forall st2, fst (Part001.getPrompt a st2) = Normal p)
   /\ (forall st, Part001.getPrompt Undefined st = (Normal Part001.baseline, st))
   /\ (forall st, Part001.getPrompt Null st = (Normal Part001.baseline, st))
   /\ forall c s st,
        Part001.getPrompt (Str (c :: s)) st
        = (Normal (Part001.extended (c :: s)),
           {| trace := trace st
                       ++ [ConsoleLog
                             [Val (Str ((c :: s)
                                        ++ lit "activity being played and fed to GPT"))]];
              nowCalls := nowCalls st;
              imageStatus := imageStatus st;
              imageUrl := imageUrl st;
              originalImageUrl := originalImageUrl st |})
        /\ occursIn (c :: s) (Part001.extended (c :: s))).
Proof.
  split.
  - split; [reflexivity|]. split; [reflexivity|].
    split; [exact ServerJs_extended_not_baseline|].
    repeat split; try reflexivity.
    rewrite ServerJs_getPrompt_string. apply occursIn_middle.
  - split; [reflexivity|]. split; [reflexivity|].
    split; [exact Part001_extended_not_baseline|].
    split; [exact Part001_getPrompt_returns|].
    repeat split; try reflexivity.
    unfold Part001.extended. apply occursIn_middle.
Qed.

Section EmptyActivity.

Lemma trimmed_empty (x : FieldValue) (s : jsstring) :
  x = Text s -> trim s = [] -> trimmed x = Str [].
Proof. intros -> H. simpl. now rewrite H. Qed.

(** What server.js sends to the image model when the activity trims to
    nothing. *)
Lemma ServerJs_prompt_of_empty_activity (w : World) (req : Request) (s : jsstring) :
  bodyField (body req) "activity" = Text s -> trim s = [] ->
  prompts (snd (run (ServerJs.submitMember w req))) = []
  \/ prompts (snd (run (ServerJs.submitMember w req))) = [ServerJs.baseline].
Proof.
  intros Hf Ht.
  destruct (serverJsReadable req) eqn:Hp.
  - fields Hp.
    unfold ServerJs.submitMember, ServerJs.imageRequests.
    rewrite Hf. cbn [optTrim]. rewrite Ht.
    destruct (file req) as [f|]; exec; auto.
  - destruct (ServerJs_unreadable w req Hp) as (msg & ->). now left.
Qed.

Lemma Part001_prompt_of_empty_activity (w : World) (req : Request) (s : jsstring) :
  bodyField (body req) "activity" = Text s -> trim s = [] ->
  prompts (snd (run (Part001.submitMember w req))) = []
  \/ prompts (snd (run (Part001.submitMember w req))) = [Part001.baseline].
Proof.
  intros Hf Ht.
  destruct (part001Readable req) eqn:Hp.
  - destruct (Part001.missingRequired
                (trimmed (bodyField (body req) "firstname"))
                (trimmed (bodyField (body req) "lastname"))
                (trimmed (bodyField (body req) "email"))) eqn:Hv.
    + rewrite (Part001_rejects_missing_fields w req Hp Hv). now left.
    + fields Hp.
      unfold Part001.submitMember, Part001.imageProcessing.
      rewrite Hf in *. cbn [optTrim]. rewrite Ht.
      destruct (file req) as [f|]; exec; auto.
      all: change (jsOr (Str []) Null) with Null;
        change (Part001.getPrompt Null) with (@ret jsstring Part001.baseline);
        exec; auto.
  - destruct (Part001_unreadable w req Hp) as (e & ->). now left.
Qed.

End EmptyActivity.

(** C10: [getPrompt("")] is the baseline template in both revisions, and
    when the submitted activity is empty after trimming the only prompt a
    handler can send to the image model is the baseline. *)
Theorem C10_empty_activity_is_absent :
  ServerJs.getPrompt (Str []) = ServerJs.baseline
  /\ (forall st, Part001.getPrompt (Str []) st = (Normal Part001.baseline, st))
  /\ forall w req s,
       bodyField (body req) "activity" = Text s -> trim s = [] ->
       (prompts (snd (run (ServerJs.submitMember w req))) = []
        \/ prompts (snd (run (ServerJs.submitMember w req))) = [ServerJs.baseline])
       /\ (prompts (snd (run (Part001.submitMember w req))) = []
           \/ prompts (snd (run (Part001.submitMember w req))) = [Part001.baseline]).
Proof.
  split; [reflexivity|]. split; [reflexivity|].
  intros w req s Hf Ht. split.
  - now apply ServerJs_prompt_of_empty_activity with s.
  - now apply Part001_prompt_of_empty_activity with s.
Qed.

(** On a submission whose activity is two blanks, with a photo, part_001
    sends exactly the baseline prompt. *)
Lemma C10_empty_activity_witness :
  bodyField (body adaFullWithPhoto) "activity" = Text (lit "  ")
  /\ trim (lit "  ") = []
  /\ prompts (snd (run (Part001.submitMember calmWorld adaFullWithPhoto)))
     = [Part001.baseline]
  /\ (prompts (snd (run (ServerJs.submitMember calmWorld adaFullWithPhoto))) = []
      \/ prompts (snd (run (ServerJs.submitMember calmWorld adaFullWithPhoto)))
         = [ServerJs.baseline]).
Proof.
  split; [reflexivity|]. split; [reflexivity|].
  split; [vm_compute; reflexivity|].
  exact (proj1 (proj2 (proj2 C10_empty_activity_is_absent)
                  calmWorld adaFullWithPhoto (lit "  ") eq_refl eq_refl)).
Defined.

(* ================================================================= *)
(** ** The record write and the response *)

(** Closes a case in which what the store was assumed to answer differs
    from what it answered on this path. *)
Ltac store_mismatch :=
  match goal with
  | Hx : Refused _ = Accepted |- _ => discriminate Hx
  | Hx : Rejected _ = Accepted |- _ => discriminate Hx
  | Hx : ?a <> ?a |- _ => exfalso; apply Hx; reflexivity
  | Hx : ?a <> ?b, He : ?a = ?b |- _ => exfalso; exact (Hx He)
  | Hx : ?a = Accepted, He : ?a = Refused _ |- _ =>
      rewrite He in Hx; discriminate Hx
  | Hx : ?a = Accepted, He : ?a = Rejected _ |- _ =>
      rewrite He in Hx; discriminate Hx
  end.

Section RecordWrite.

(** server.js: one row is written; the answer is 200 when the store takes
    it and the fixed 500 otherwise, whatever the image steps did. *)
Lemma ServerJs_answer_follows_insert (w : World) (req : Request) :
  serverJsReadable req = true ->
  exists imageUrl r t,
    run (ServerJs.submitMember w req) = (Some r, t)
    /\ inserts t = [[serverJsRow req imageUrl]]
    /\ (w_insert w [serverJsRow req imageUrl] = Accepted -> status r = 200)
    /\ (w_insert w [serverJsRow req imageUrl] <> Accepted -> r = serverJsFailure).
Proof.
  intro Hp. fields Hp.
  unfold ServerJs.submitMember, ServerJs.imageRequests, serverJsRow.
  destruct (file req) as [f|]; exec.
  all: do 3 eexists; split; [reflexivity|]; split; [reflexivity|].
  all: split; intro Hx; try reflexivity; store_mismatch.
Qed.

Lemma Part001_answer_follows_insert (w : World) (req : Request) :
  part001Valid req ->
  exists imageUrl originalImageUrl r t,
    run (Part001.submitMember w req) = (Some r, t)
    /\ inserts t = [[part001Row req imageUrl originalImageUrl]]
    /\ (w_insert w [part001Row req imageUrl originalImageUrl] = Accepted ->
        r = {| status := 200; payload := okBody |})
    /\ (w_insert w [part001Row req imageUrl originalImageUrl] <> Accepted ->
        r = part001Failure).
Proof.
  unfold Part001.submitMember, Part001.imageProcessing,
    Part001.getPrompt, part001Row.
  intros (Hp & Hv). fields Hp.
  destruct (file req) as [f|]; exec.
  all: do 4 eexists; split; [reflexivity|]; split; [reflexivity|].
  all: split; intro Hx; try reflexivity; store_mismatch.
Qed.

End RecordWrite.

(** C5: in server.js and in part_001, a submission that got past the
    handler's first step (its fields were read; in part_001 the validation
    test let it through) writes one row; the request is answered with the
    500 failure exactly when the record store does not accept that row,
    and with 200 when it does, whatever the image steps did. *)
Theorem C5_insert_failure_is_fatal :
  (forall w req, serverJsReadable req = true -> exists imageUrl r t,
      run (ServerJs.submitMember w req) = (Some r, t)
      /\ inserts t = [[serverJsRow req imageUrl]]
      /\ (w_insert w [serverJsRow req imageUrl] = Accepted -> status r = 200)
      /\ (w_insert w [serverJsRow req imageUrl] <> Accepted ->
          r = {| status := 500; payload := errorBody (lit "Internal Server Error.") |}))
  /\
  (forall w req, part001Valid req -> exists imageUrl originalImageUrl r t,
      run (Part001.submitMember w req) = (Some r, t)
      /\ inserts t = [[part001Row req imageUrl originalImageUrl]]
      /\ (w_insert w [part001Row req imageUrl originalImageUrl] = Accepted ->
          status r = 200)
      /\ (w_insert w [part001Row req imageUrl originalImageUrl] <> Accepted ->
          r = {| status := 500;
                 payload := errorBody (lit "server error while processing submission") |})).
Proof.
  split.
  - exact ServerJs_answer_follows_insert.
  - intros w req Hv.
    destruct (Part001_answer_follows_insert w req Hv)
      as (u & o & r & t & Hr & Hi & Hok & Hko).
    exists u, o, r, t. repeat split; auto.
    intro Ha. now rewrite (Hok Ha).
Qed.

(** A submission with a photo whose every image step succeeds, in a world
    where the store refuses the row: both revisions answer with their 500
    failure. *)
Lemma C5_insert_failure_witness :
  (serverJsReadable adaByNameWithPhoto = true
   /\ fst (run (ServerJs.submitMember
                  (withInsert calmWorld (Refused (Error "duplicate key value")))
                  adaByNameWithPhoto))
      = Some serverJsFailure)
  /\ (part001Valid adaFullWithPhoto
      /\ fst (run (Part001.submitMember
                     (withInsert calmWorld (Refused (Error "duplicate key value")))
                     adaFullWithPhoto))
         = Some part001Failure).
Proof.
  split.
  - split; [reflexivity|].
    destruct (proj1 C5_insert_failure_is_fatal
                (withInsert calmWorld (Refused (Error "duplicate key value")))
                adaByNameWithPhoto eq_refl)
      as (u & r & t & Hr & _ & _ & Hko).
    rewrite Hr. simpl. f_equal. apply Hko. simpl. discriminate.
  - split; [split; reflexivity|].
    destruct (proj2 C5_insert_failure_is_fatal
                (withInsert calmWorld (Refused (Error "duplicate key value")))
                adaFullWithPhoto (conj eq_refl eq_refl))
      as (u & o & r & t & Hr & _ & _ & Hko).
    rewrite Hr. simpl. f_equal. apply Hko. simpl. discriminate.
Defined.

(* ================================================================= *)
(** ** Submissions without a file *)

Section NoFile.

Lemma ServerJs_no_file (w : World) (req : Request) :
  serverJsReadable req = true ->
  file req = None -> w_insert w [serverJsRow req Null] = Accepted ->
  exists t,
    run (ServerJs.submitMember w req)
      = (Some {| status := 200; payload := okImageBody "none" Null |}, t)
    /\ inserts t = [[serverJsRow req Null]]
    /\ uploads t = [] /\ prompts t = [].
Proof.
  unfold ServerJs.submitMember, serverJsRow. intros Hp -> Hi. fields Hp.
  exec. eexists. repeat split; reflexivity.
Qed.

Lemma Part001_no_file (w : World) (req : Request) :
  part001Valid req -> file req = None ->
  w_insert w [part001Row req Null Null] = Accepted ->
  exists t,
    run (Part001.submitMember w req)
      = (Some {| status := 200; payload := okBody |}, t)
    /\ inserts t = [[part001Row req Null Null]]
    /\ uploads t = [] /\ prompts t = [].
Proof.
  unfold Part001.submitMember, part001Row. intros (Hp & Hv) -> Hi.
  fields Hp. exec. eexists. repeat split; reflexivity.
Qed.

Lemma Part002_no_file (w : World) (req : Request) :
  part002Valid req -> file req = None ->
  w_insert w [serverJsRow req Null] = Accepted ->
  exists t,
    run (Part002.submitMember w req)
      = (Some {| status := 200; payload := okBody |}, t)
    /\ inserts t = [[serverJsRow req Null]]
    /\ uploads t = [] /\ prompts t = [].
Proof.
  unfold Part002.submitMember, serverJsRow. intros (Hp & Hv) -> Hi.
  fields Hp. exec. eexists. repeat split; reflexivity.
Qed.

End NoFile.

(** C8 as stated fails on src/server.js: the Ada Lovelace submission
    without a file is answered with an [image] object whose status is
    "none", not with the bare [{ok: true}]. *)
Lemma C8_server_js_reports_image_none :
  fst (run (ServerJs.submitMember calmWorld adaByName))
    = Some {| status := 200;
              payload := Object [("ok", Flag true);
                                 ("image", Object [("status", Val (Str (lit "none")));
                                                   ("url", Val Null)])] |}
  /\ fst (run (ServerJs.submitMember calmWorld adaByName))
     <> Some {| status := 200; payload := Object [("ok", Flag true)] |}.
Proof.
  split; [vm_compute; reflexivity|].
  vm_compute. intro H. discriminate H.
Qed.

(** C8, amended: a submission without a file that got past the handler's
    first step (its fields were read; in part_001 and part_002 the
    validation test let it through) and whose row the store accepts is
    answered 200 and the row written has [image_url] null; the body is
    [{ok: true}] in part_001 and part_002 and
    [{ok: true, image: {status: "none", url: null}}] in server.js. *)
Theorem C8_no_file_submission :
  (forall w req,
      serverJsReadable req = true ->
      file req = None -> w_insert w [serverJsRow req Null] = Accepted ->
      exists t,
        run (ServerJs.submitMember w req)
          = (Some {| status := 200;
                     payload := Object [("ok", Flag true);
                                        ("image", Object [("status", Val (Str (lit "none")));
                                                          ("url", Val Null)])] |}, t)
        /\ inserts t = [[serverJsRow req Null]]
        /\ rowField (serverJsRow req Null) "image_url" = Null)
  /\
  (forall w req,
      part001Valid req -> file req = None ->
      w_insert w [part001Row req Null Null] = Accepted ->
      exists t,
        run (Part001.submitMember w req)
          = (Some {| status := 200; payload := Object [("ok", Flag true)] |}, t)
        /\ inserts t = [[part001Row req Null Null]]
        /\ rowField (part001Row req Null Null) "image_url" = Null)
  /\
  (forall w req,
      part002Valid req -> file req = None ->
      w_insert w [serverJsRow req Null] = Accepted ->
      exists t,
        run (Part002.submitMember w req)
          = (Some {| status := 200; payload := Object [("ok", Flag true)] |}, t)
        /\ inserts t = [[serverJsRow req Null]]
        /\ rowField (serverJsRow req Null) "image_url" = Null).
Proof.
  split; [|split].
  - intros w req Hp Hf Hi.
    destruct (ServerJs_no_file w req Hp Hf Hi) as (t & Hr & Ht & _).
    exists t. repeat split; assumption || reflexivity.
  - intros w req Hv Hf Hi.
    destruct (Part001_no_file w req Hv Hf Hi) as (t & Hr & Ht & _).
    exists t. repeat split; assumption || reflexivity.
  - intros w req Hv Hf Hi.
    destruct (Part002_no_file w req Hv Hf Hi) as (t & Hr & Ht & _).
    exists t. repeat split; assumption || reflexivity.
Qed.

(** The end-to-end scenario of the specification, on each revision. *)
Lemma C8_no_file_witness :
  (serverJsReadable adaByName = true /\ file adaByName = None
   /\ w_insert calmWorld [serverJsRow adaByName Null] = Accepted
   /\ fst (run (ServerJs.submitMember calmWorld adaByName))
      = Some {| status := 200; payload := okImageBody "none" Null |}
   /\ inserts (snd (run (ServerJs.submitMember calmWorld adaByName)))
      = [[serverJsRow adaByName Null]])
  /\
  (part001Valid adaFull /\ file adaFull = None
   /\ w_insert calmWorld [part001Row adaFull Null Null] = Accepted
   /\ fst (run (Part001.submitMember calmWorld adaFull))
      = Some {| status := 200; payload := Object [("ok", Flag true)] |}
   /\ inserts (snd (run (Part001.submitMember calmWorld adaFull)))
      = [[part001Row adaFull Null Null]])
  /\
  (part002Valid adaByName /\ file adaByName = None
   /\ w_insert calmWorld [serverJsRow adaByName Null] = Accepted
   /\ fst (run (Part002.submitMember calmWorld adaByName))
      = Some {| status := 200; payload := Object [("ok", Flag true)] |}
   /\ inserts (snd (run (Part002.submitMember calmWorld adaByName)))
      = [[serverJsRow adaByName Null]]).
Proof.
  split; [|split].
  - do 3 (split; [reflexivity|]).
    destruct (proj1 C8_no_file_submission calmWorld adaByName
                eq_refl eq_refl eq_refl) as (t & Hr & Ht & _).
    rewrite Hr. split; [reflexivity | exact Ht].
  - split; [split; reflexivity|]. do 2 (split; [reflexivity|]).
    destruct (proj1 (proj2 C8_no_file_submission) calmWorld adaFull
                (conj eq_refl eq_refl) eq_refl eq_refl) as (t & Hr & Ht & _).
    rewrite Hr. split; [reflexivity | exact Ht].
  - split; [split; reflexivity|]. do 2 (split; [reflexivity|]).
    destruct (proj2 (proj2 C8_no_file_submission) calmWorld adaByName
                (conj eq_refl eq_refl) eq_refl eq_refl) as (t & Hr & Ht & _).
    rewrite Hr. split; [reflexivity | exact Ht].
Defined.

(* ================================================================= *)
(** ** What a 500 answer carries *)

Section FailureBodies.

Lemma ServerJs_500_body (w : World) (req : Request) (r : Response) :
  fst (run (ServerJs.submitMember w req)) = Some r -> status r = 500 ->
  payload r = errorBody (lit "Internal Server Error.").
Proof.
  destruct (serverJsReadable req) eqn:Hp.
  - destruct (ServerJs_answer_follows_insert w req Hp)
      as (u & r' & t & Hr & _ & Hok & Hko).
    rewrite Hr. simpl. intros [= <-] Hs.
    destruct (w_insert w [serverJsRow req u]) eqn:E.
    + rewrite (Hok eq_refl) in Hs. discriminate Hs.
    + rewrite Hko by discriminate. reflexivity.
    + rewrite Hko by discriminate. reflexivity.
  - destruct (ServerJs_unreadable w req Hp) as (msg & ->).
    simpl. intros [= <-] _. reflexivity.
Qed.

Lemma Part001_500_body (w : World) (req : Request) (r : Response) :
  fst (run (Part001.submitMember w req)) = Some r -> status r = 500 ->
  payload r = errorBody (lit "server error while processing submission").
Proof.
  destruct (part001Readable req) eqn:Hp.
  - destruct (Part001.missingRequired
                (trimmed (bodyField (body req) "firstname"))
                (trimmed (bodyField (body req) "lastname"))
                (trimmed (bodyField (body req) "email"))) eqn:Hv.
    + rewrite (Part001_rejects_missing_fields w req Hp Hv). simpl.
      intros [= <-] Hs. discriminate Hs.
    + destruct (Part001_answer_follows_insert w req (conj Hp Hv))
        as (u & o & r' & t & Hr & _ & Hok & Hko).
      rewrite Hr. simpl. intros [= <-] Hs.
      destruct (w_insert w [part001Row req u o]) eqn:E.
      * rewrite (Hok eq_refl) in Hs. discriminate Hs.
      * rewrite Hko by discriminate. reflexivity.
      * rewrite Hko by discriminate. reflexivity.
  - destruct (Part001_unreadable w req Hp) as (e & ->).
    simpl. intros [= <-] _. reflexivity.
Qed.

(** GET /community hands the store's own message to the caller. *)
Lemma community_500_body (w : World) (e : JsError) :
  (w_select w ServerJs.communityQuery = SelectError e ->
   fst (run (ServerJs.community w))
     = Some {| status := 500; payload := errorBody (message e) |})
  /\ (w_select w Part001.communityQuery = SelectError e ->
      fst (run (Part001.community w))
        = Some {| status := 500; payload := errorBody (message e) |})
  /\ (w_select w Part002.communityQuery = SelectError e ->
      fst (run (Part002.community w))
        = Some {| status := 500; payload := errorBody (message e) |}).
Proof.
  unfold ServerJs.community, Part001.community, Part002.community.
  repeat split; intro H; exec; reflexivity.
Qed.

(** part_002 answers with the message of whatever was thrown: the last
    console line shows the error whose message the body carries. *)
Lemma Part002_500_body (w : World) (req : Request) (r : Response) :
  fst (run (Part002.submitMember w req)) = Some r -> status r = 500 ->
  exists e,
    payload r = errorBody (message e)
    /\ In (ConsoleError [errorObject e])
         (snd (run (Part002.submitMember w req))).
Proof.
  destruct (part002Readable req) eqn:Hp.
  - destruct (Part002.missingRequired
                (trimmed (bodyField (body req) "name"))
                (trimmed (bodyField (body req) "email"))) eqn:Hv.
    + rewrite (Part002_rejects_missing_fields w req Hp Hv). simpl.
      intros [= <-] Hs. discriminate Hs.
    + fields Hp.
      unfold Part002.submitMember, Part002.imageProcessing, Part002.decodeFirst.
      destruct (file req) as [f|]; exec.
      all: cbn [fst snd]; intros [= <-] Hs; try discriminate Hs.
      all: eexists (mkError _); split; [reflexivity|].
      all: cbn [In]; repeat (first [left; reflexivity | right]).
  - destruct (Part002_unreadable w req Hp) as (e & ->).
    simpl. intros [= <-] _. exists e. split; [reflexivity|]. now left.
Qed.

(** The store does not take the row: its message is the body. *)
Lemma Part002_insert_failure (w : World) (req : Request) (e : JsError) :
  part002Valid req ->
  file req = None
  \/ (exists f b64,
         file req = Some f /\ w_toFile w = None
         /\ (forall p, w_imagesEdit w p = EditResolved (Entry (Some b64)))
         /\ (forall path, w_upload w path = Accepted)) ->
  (forall rows, w_insert w rows = Refused e)
  \/ (forall rows, w_insert w rows = Rejected e) ->
  fst (run (Part002.submitMember w req))
    = Some {| status := 500; payload := errorBody (message e) |}.
Proof.
  unfold Part002.submitMember, Part002.imageProcessing, Part002.decodeFirst.
  intros (Hp & Hv) Hfile Hi. fields Hp.
  destruct Hfile as [->|(f & b64 & -> & Hf & He & Hu)];
    destruct Hi as [Hi|Hi]; exec.
  all: try reflexivity.
  all: not_missing.
Qed.

(** An image step fails: the message of its error is the body. *)
Lemma Part002_image_failure (w : World) (req : Request) (f : UploadedFile)
  (e : JsError) :
  part002Valid req -> file req = Some f ->
  w_toFile w = Some e
  \/ (w_toFile w = None /\ forall p, w_imagesEdit w p = EditRejected e)
  \/ (w_toFile w = None
      /\ (exists b64, forall p, w_imagesEdit w p = EditResolved (Entry (Some b64)))
      /\ ((forall path, w_upload w path = Refused e)
          \/ (forall path, w_upload w path = Rejected e))) ->
  fst (run (Part002.submitMember w req))
    = Some {| status := 500; payload := errorBody (message e) |}.
Proof.
  unfold Part002.submitMember, Part002.imageProcessing, Part002.decodeFirst.
  intros (Hp & Hv) -> Hfail. fields Hp.
  destruct Hfail as [Hf|[(Hf & He)|(Hf & (b64 & He) & [Hu|Hu])]]; exec.
  all: try reflexivity.
  all: not_missing.
Qed.

End FailureBodies.

(** C7 as stated fails on src/server.js: when the query of GET /community
    fails, the 500 body is the store's own error message. *)
Lemma C7_query_error_message_is_returned :
  fst (run (ServerJs.community
              (withSelect calmWorld
                 (fun _ => SelectError
                             (Error "permission denied for table community_members")))))
    = Some {| status := 500;
              payload := Object [("error",
                                  Val (Str (lit "permission denied for table community_members")))] |}.
Proof. vm_compute. reflexivity. Qed.

(** C7, amended: every 500 answer of POST /submitMember in server.js and
    in part_001 carries one fixed message, whatever went wrong; the 500
    answer of GET /community (all revisions) carries the message of the
    store's error; every 500 answer of part_002's POST carries the message
    of the error its catch block received and printed, which is the record
    store's when the insert fails and the failing image step's (file
    conversion, image model, storage) when one of them fails. *)
Theorem C7_failure_bodies :
  (forall w req r,
      fst (run (ServerJs.submitMember w req)) = Some r -> status r = 500 ->
      payload r = errorBody (lit "Internal Server Error."))
  /\ (forall w req r,
         fst (run (Part001.submitMember w req)) = Some r -> status r = 500 ->
         payload r = errorBody (lit "server error while processing submission"))
  /\ (forall w e,
         w_select w ServerJs.communityQuery = SelectError e ->
         fst (run (ServerJs.community w))
           = Some {| status := 500; payload := errorBody (message e) |})
  /\ (forall w e,
         w_select w Part001.communityQuery = SelectError e ->
         fst (run (Part001.community w))
           = Some {| status := 500; payload := errorBody (message e) |})
  /\ (forall w e,
         w_select w Part002.communityQuery = SelectError e ->
         fst (run (Part002.community w))
           = Some {| status := 500; payload := errorBody (message e) |})
  /\ (forall w req r,
         fst (run (Part002.submitMember w req)) = Some r -> status r = 500 ->
         exists e,
           payload r = errorBody (message e)
           /\ In (ConsoleError [errorObject e])
                (snd (run (Part002.submitMember w req))))
  /\ (forall w req e,
         part002Valid req ->
         file req = None
         \/ (exists f b64,
                file req = Some f /\ w_toFile w = None
                /\ (forall p, w_imagesEdit w p = EditResolved (Entry (Some b64)))
                /\ (forall path, w_upload w path = Accepted)) ->
         (forall rows, w_insert w rows = Refused e)
         \/ (forall rows, w_insert w rows = Rejected e) ->
         fst (run (Part002.submitMember w req))
           = Some {| status := 500; payload := errorBody (message e) |})
  /\ (forall w req f e,
         part002Valid req -> file req = Some f ->
         w_toFile w = Some e
         \/ (w_toFile w = None /\ forall p, w_imagesEdit w p = EditRejected e)
         \/ (w_toFile w = None
             /\ (exists b64,
                    forall p, w_imagesEdit w p = EditResolved (Entry (Some b64)))
             /\ ((forall path, w_upload w path = Refused e)
                 \/ (forall path, w_upload w path = Rejected e))) ->
         fst (run (Part002.submitMember w req))
           = Some {| status := 500; payload := errorBody (message e) |}).
Proof.
  split; [exact ServerJs_500_body|].
  split; [exact Part001_500_body|].
  split; [intros w e; apply (community_500_body w e)|].
  split; [intros w e; apply (community_500_body w e)|].
  split; [intros w e; apply (community_500_body w e)|].
  split; [exact Part002_500_body|].
  split; [exact Part002_insert_failure|].
  exact Part002_image_failure.
Qed.

(** A refused insert with every image step successful: server.js answers
    with its fixed message and says nothing of the refusal, part_002 with
    the store's message; a storage refusal in part_002 reaches the caller
    the same way. *)
Lemma C7_failure_bodies_witness :
  (fst (run (ServerJs.submitMember
               (withInsert calmWorld (Refused (Error "duplicate key value")))
               adaByNameWithPhoto))
     = Some serverJsFailure
   /\ payload serverJsFailure = errorBody (lit "Internal Server Error."))
  /\ (part002Valid adaByNameWithPhoto
      /\ fst (run (Part002.submitMember
                     (withInsert calmWorld (Refused (Error "duplicate key value")))
                     adaByNameWithPhoto))
         = Some {| status := 500;
                   payload := errorBody (lit "duplicate key value") |})
  /\ (file adaByNameWithPhoto = Some photo
      /\ fst (run (Part002.submitMember
                     (withUpload calmWorld
                        (fun _ => Refused (Error "Bucket quota exceeded")))
                     adaByNameWithPhoto))
         = Some {| status := 500;
                   payload := errorBody (lit "Bucket quota exceeded") |}).
Proof.
  split; [|split].
  - split; [vm_compute; reflexivity|].
    exact (proj1 C7_failure_bodies
             (withInsert calmWorld (Refused (Error "duplicate key value")))
             adaByNameWithPhoto serverJsFailure
             ltac:(vm_compute; reflexivity) eq_refl).
  - split; [split; reflexivity|].
    refine (proj1 (proj2 (proj2 (proj2 (proj2 (proj2 (proj2 C7_failure_bodies))))))
              (withInsert calmWorld (Refused (Error "duplicate key value")))
              adaByNameWithPhoto (Error "duplicate key value")
              (conj eq_refl eq_refl) _ (or_introl (fun _ => eq_refl))).
    right. exists photo, (lit "iVBORw0KGgo=").
    repeat split; reflexivity.
  - split; [reflexivity|].
    refine (proj2 (proj2 (proj2 (proj2 (proj2 (proj2 (proj2 C7_failure_bodies))))))
              (withUpload calmWorld
                 (fun _ => Refused (Error "Bucket quota exceeded")))
              adaByNameWithPhoto photo (Error "Bucket quota exceeded")
              (conj eq_refl eq_refl) eq_refl _).
    right. right. split; [reflexivity|].
    split; [exists (lit "iVBORw0KGgo="); reflexivity|].
    left. reflexivity.
Defined.
(* ================================================================= *)
(** ** Failures of the image steps *)

Ltac in_trace := cbn [In]; repeat (first [left; reflexivity | right]).

Section ImageFailures.

(** server.js: when generation fails the inner catch runs, the row is
    written with a null [image_url], and the answer is a success. *)
Lemma ServerJs_generation_failure (w : World) (req : Request) (f : UploadedFile) :
  serverJsReadable req = true -> file req = Some f -> generationFails w ->
  exists r t msg,
    run (ServerJs.submitMember w req) = (Some r, t)
    /\ In (errorLine "Image processing failed:" msg) t
    /\ inserts t = [[serverJsRow req Null]]
    /\ uploads t = []
    /\ (w_insert w [serverJsRow req Null] = Accepted ->
        r = {| status := 200; payload := okImageBody "failed" Null |}).
Proof.
  unfold ServerJs.submitMember, ServerJs.imageRequests, serverJsRow, errorLine.
  intros Hp -> Hg. fields Hp. exec; try no_generation.
  all: do 3 eexists; split; [reflexivity|]; split; [in_trace|].
  all: split; [reflexivity|]; split; [reflexivity|].
  all: intro Hx; try reflexivity; store_mismatch.
Qed.

Lemma Part001_generation_failure (w : World) (req : Request) (f : UploadedFile) :
  part001Valid req -> file req = Some f -> generationFails w ->
  exists r t msg original,
    run (Part001.submitMember w req) = (Some r, t)
    /\ In (errorLine "Image processing failed:" msg) t
    /\ inserts t = [[part001Row req Null original]]
    /\ (w_insert w [part001Row req Null original] = Accepted ->
        r = {| status := 200; payload := okBody |}).
Proof.
  unfold Part001.submitMember, Part001.imageProcessing,
    Part001.getPrompt, part001Row, errorLine.
  intros (Hp & Hv) -> Hg. fields Hp. exec; try no_generation.
  all: do 4 eexists; split; [reflexivity|]; split; [in_trace|].
  all: split; [reflexivity|].
  all: intro Hx; try reflexivity; store_mismatch.
Qed.

(** part_002 has no inner catch: a failed generation reaches the outer
    handler before anything is stored or written. *)
Lemma Part002_generation_failure (w : World) (req : Request) (f : UploadedFile) :
  part002Valid req -> file req = Some f -> generationAborts w ->
  exists t msg,
    run (Part002.submitMember w req)
      = (Some {| status := 500; payload := errorBody msg |}, t)
    /\ inserts t = [] /\ uploads t = [].
Proof.
  unfold Part002.submitMember, Part002.imageProcessing, Part002.decodeFirst.
  intros (Hp & Hv) -> Hg. fields Hp. exec.
  all: try (specialize (Hg Part002.PIXEL_PROMPT);
            match goal with
            | He : w_imagesEdit _ _ = _ |- _ => rewrite He in Hg
            end; contradiction).
  all: do 2 eexists; repeat split; reflexivity.
Qed.

End ImageFailures.

(** C2 as stated fails on src/unnamed/part_002: with a photo attached and
    the image model rejecting the call, the request is answered 500 with
    the model's message and no row is written. *)
Lemma C2_part002_image_error_aborts :
  fst (run (Part002.submitMember
              (withImagesEdit calmWorld (EditRejected (Error "429 rate limit")))
              adaByNameWithPhoto))
    = Some {| status := 500;
              payload := Object [("error", Val (Str (lit "429 rate limit")))] |}
  /\ inserts (snd (run (Part002.submitMember
                          (withImagesEdit calmWorld (EditRejected (Error "429 rate limit")))
                          adaByNameWithPhoto)))
     = [].
Proof. split; vm_compute; reflexivity. Qed.

(** C2, amended: in server.js (once name, email and location are read)
    and in part_001 (after validation), for a submission with a photo whose
    image generation fails, the error is caught by the image stage's own
    catch (its console line is written), exactly one row is handed to the
    record store, with [image_url] null and the submitted fields as
    trimmed, and the request is answered 200 when the store accepts that
    row.  In part_002 there is no such catch: for a valid submission with
    a photo, a generation call that rejects or resolves without image data
    ends the request with a 500 answer, and nothing is stored or
    written. *)
Theorem C2_image_failure_degrades :
  (forall w req f,
      serverJsReadable req = true ->
      file req = Some f -> generationFails w ->
      exists r t msg,
        run (ServerJs.submitMember w req) = (Some r, t)
        /\ In (errorLine "Image processing failed:" msg) t
        /\ inserts t = [[serverJsRow req Null]]
        /\ (w_insert w [serverJsRow req Null] = Accepted ->
            r = {| status := 200; payload := okImageBody "failed" Null |}))
  /\
  (forall w req f,
      part001Valid req -> file req = Some f -> generationFails w ->
      exists r t msg original,
        run (Part001.submitMember w req) = (Some r, t)
        /\ In (errorLine "Image processing failed:" msg) t
        /\ inserts t = [[part001Row req Null original]]
        /\ (w_insert w [part001Row req Null original] = Accepted ->
            r = {| status := 200; payload := okBody |}))
  /\
  (forall w req f,
      part002Valid req -> file req = Some f -> generationAborts w ->
      exists t msg,
        run (Part002.submitMember w req)
          = (Some {| status := 500; payload := errorBody msg |}, t)
        /\ inserts t = [] /\ uploads t = []).
Proof.
  split; [|split].
  - intros w req f Hp Hf Hg.
    destruct (ServerJs_generation_failure w req f Hp Hf Hg)
      as (r & t & msg & Hr & Hl & Hi & _ & Ha).
    now exists r, t, msg.
  - exact Part001_generation_failure.
  - exact Part002_generation_failure.
Qed.

(** The image model rejects the call of a submission with a photo: in
    server.js and in part_001 the row is written with a null [image_url]
    and the answer is 200; in part_002 the answer is 500 and no row is
    written. *)
Lemma C2_image_failure_witness :
  generationFails (withImagesEdit calmWorld (EditRejected (Error "429 rate limit")))
  /\ generationAborts (withImagesEdit calmWorld (EditRejected (Error "429 rate limit")))
  /\ (serverJsReadable adaByNameWithPhoto = true
      /\ file adaByNameWithPhoto = Some photo
      /\ inserts (snd (run (ServerJs.submitMember
                              (withImagesEdit calmWorld
                                 (EditRejected (Error "429 rate limit")))
                              adaByNameWithPhoto)))
         = [[serverJsRow adaByNameWithPhoto Null]]
      /\ fst (run (ServerJs.submitMember
                     (withImagesEdit calmWorld (EditRejected (Error "429 rate limit")))
                     adaByNameWithPhoto))
         = Some {| status := 200; payload := okImageBody "failed" Null |})
  /\ (part001Valid adaFullWithPhoto
      /\ file adaFullWithPhoto = Some photo
      /\ exists original,
           inserts (snd (run (Part001.submitMember
                                (withImagesEdit calmWorld
                                   (EditRejected (Error "429 rate limit")))
                                adaFullWithPhoto)))
           = [[part001Row adaFullWithPhoto Null original]]
           /\ fst (run (Part001.submitMember
                          (withImagesEdit calmWorld
                             (EditRejected (Error "429 rate limit")))
                          adaFullWithPhoto))
              = Some {| status := 200; payload := okBody |})
  /\ (part002Valid adaByNameWithPhoto
      /\ exists msg,
           fst (run (Part002.submitMember
                       (withImagesEdit calmWorld
                          (EditRejected (Error "429 rate limit")))
                       adaByNameWithPhoto))
           = Some {| status := 500; payload := errorBody msg |}
           /\ inserts (snd (run (Part002.submitMember
                                   (withImagesEdit calmWorld
                                      (EditRejected (Error "429 rate limit")))
                                   adaByNameWithPhoto)))
              = []).
Proof.
  assert (Hg : generationFails
                 (withImagesEdit calmWorld (EditRejected (Error "429 rate limit"))))
    by (intro p; exact I).
  assert (Ha : generationAborts
                 (withImagesEdit calmWorld (EditRejected (Error "429 rate limit"))))
    by (intro p; exact I).
  split; [exact Hg|]. split; [exact Ha|]. split; [|split].
  - split; [reflexivity|]. split; [reflexivity|].
    destruct (proj1 C2_image_failure_degrades
                (withImagesEdit calmWorld (EditRejected (Error "429 rate limit")))
                adaByNameWithPhoto photo eq_refl eq_refl Hg)
      as (r & t & msg & Hr & _ & Hi & Hok).
    rewrite Hr. simpl. split; [exact Hi|].
    f_equal. apply Hok. reflexivity.
  - split; [split; reflexivity|]. split; [reflexivity|].
    destruct (proj1 (proj2 C2_image_failure_degrades)
                (withImagesEdit calmWorld (EditRejected (Error "429 rate limit")))
                adaFullWithPhoto photo (conj eq_refl eq_refl) eq_refl Hg)
      as (r & t & msg & original & Hr & _ & Hi & Hok).
    exists original. rewrite Hr. simpl. split; [exact Hi|].
    f_equal. apply Hok. reflexivity.
  - split; [split; reflexivity|].
    destruct (proj2 (proj2 C2_image_failure_degrades)
                (withImagesEdit calmWorld (EditRejected (Error "429 rate limit")))
                adaByNameWithPhoto photo (conj eq_refl eq_refl) eq_refl Ha)
      as (t & msg & Hr & Hi & _).
    exists msg. rewrite Hr. simpl. split; [reflexivity | exact Hi].
Defined.

(* ================================================================= *)
(** ** Original image and generated image (part_001) *)

Section OriginalAndGenerated.

(** The original upload is refused: the refusal is logged and generation
    goes on. *)
Lemma Part001_original_refused (w : World) (req : Request) (f : UploadedFile)
  (e : JsError) :
  part001Valid req -> file req = Some f ->
  w_upload w (part001OriginalPath w req) = Refused e ->
  exists r t image,
    run (Part001.submitMember w req) = (Some r, t)
    /\ In (errorLine "Original image upload failed:" (message e)) t
    /\ In (ToFile (filenameOf f) (mimetype f)) t
    /\ inserts t = [[part001Row req image Null]].
Proof.
  unfold part001OriginalPath, part001Slug, Part001.submitMember,
    Part001.imageProcessing, Part001.getPrompt, part001Row, errorLine.
  intros (Hp & Hv) -> Hu. fields Hp. exec.
  all: do 3 eexists; split; [reflexivity|]; split; [in_trace|].
  all: split; [in_trace | reflexivity].
Qed.

(** The original upload is refused and everything after it succeeds: the
    generated image is stored and its URL is written. *)
Lemma Part001_generated_without_original (w : World) (req : Request)
  (f : UploadedFile) (e : JsError) (c : N) (b64 : jsstring) :
  part001Valid req -> file req = Some f ->
  w_upload w (part001OriginalPath w req) = Refused e ->
  w_toFile w = None ->
  (forall p, w_imagesEdit w p = EditResolved (Entry (Some (c :: b64)))) ->
  w_upload w (part001GeneratedPath w req) = Accepted ->
  exists r t,
    run (Part001.submitMember w req) = (Some r, t)
    /\ inserts t
       = [[part001Row req (Str (w_publicUrl w (part001GeneratedPath w req))) Null]].
Proof.
  unfold part001OriginalPath, part001GeneratedPath, part001Slug,
    Part001.submitMember, Part001.imageProcessing, Part001.getPrompt, part001Row.
  intros (Hp & Hv) -> Hu Hf He Hg. fields Hp. exec.
  all: do 2 eexists; split; reflexivity.
Qed.

(** The original upload promise rejects: the inner catch takes it, so the
    image model is never called and nothing else is stored; the row is
    still written, both URLs null. *)
Lemma Part001_original_rejected (w : World) (req : Request) (f : UploadedFile)
  (e : JsError) :
  part001Valid req -> file req = Some f ->
  w_upload w (part001OriginalPath w req) = Rejected e ->
  exists r t,
    run (Part001.submitMember w req) = (Some r, t)
    /\ In (errorLine "Image processing failed:" (message e)) t
    /\ prompts t = []
    /\ uploads t = [part001OriginalPath w req]
    /\ inserts t = [[part001Row req Null Null]].
Proof.
  unfold part001OriginalPath, part001Slug, Part001.submitMember,
    Part001.imageProcessing, Part001.getPrompt, part001Row, errorLine.
  intros (Hp & Hv) -> Hu. fields Hp. exec.
  all: do 2 eexists; split; [reflexivity|]; split; [in_trace|].
  all: repeat split; reflexivity.
Qed.

(** The original image is stored; whatever fails afterwards, its URL stays
    in the row and only [image_url] is null. *)
Lemma Part001_original_kept (w : World) (req : Request) (f : UploadedFile) :
  part001Valid req -> file req = Some f ->
  w_upload w (part001OriginalPath w req) = Accepted ->
  w_toFile w <> None \/ generationFails w
  \/ w_upload w (part001GeneratedPath w req) <> Accepted ->
  exists r t,
    run (Part001.submitMember w req) = (Some r, t)
    /\ inserts t
       = [[part001Row req Null (Str (w_publicUrl w (part001OriginalPath w req)))]].
Proof.
  unfold part001OriginalPath, part001GeneratedPath, part001Slug,
    Part001.submitMember, Part001.imageProcessing, Part001.getPrompt, part001Row.
  intros (Hp & Hv) -> Hu [Hx|[Hg|Hx]]; fields Hp; exec.
  all: try no_generation; try store_mismatch.
  all: do 2 eexists; split; reflexivity.
Qed.

End OriginalAndGenerated.

(** C9 as stated fails on src/unnamed/part_001: when the call that stores
    the original image rejects, the image stage's catch takes the error and
    the image model is never asked, although it would have answered with an
    image; the row is written with both URLs null. *)
Lemma C9_rejected_original_skips_generation :
  w_imagesEdit originalsRejected Part001.baseline
    = EditResolved (Entry (Some (lit "iVBORw0KGgo=")))
  /\ prompts (snd (run (Part001.submitMember originalsRejected adaFullWithPhoto)))
     = []
  /\ inserts (snd (run (Part001.submitMember originalsRejected adaFullWithPhoto)))
     = [[part001Row adaFullWithPhoto Null Null]]
  /\ prompts (snd (run (Part001.submitMember calmWorld adaFullWithPhoto)))
     = [Part001.baseline].
Proof. repeat split; vm_compute; reflexivity. Qed.

(** C9, amended: in part_001, for a valid submission with a photo, (1) when
    the upload of the original image resolves with an error, the error is
    written to the console and the pipeline continues with the
    image-generation steps; one row is written with a null
    [original_image_url], and a generated image can still be stored and its
    URL written; (2) when the upload call of the original image rejects,
    the image stage's catch logs it, the image model is not called, nothing
    else is stored and the row is written with both URLs null; (3) when the
    original image was stored and a later step of generation or storage
    fails, the row written has [image_url] null and keeps the original
    image's URL. *)
Theorem C9_original_and_generated_independent :
  forall w req f,
    part001Valid req -> file req = Some f ->
    (forall e, w_upload w (part001OriginalPath w req) = Refused e ->
       exists r t image,
         run (Part001.submitMember w req) = (Some r, t)
         /\ In (errorLine "Original image upload failed:" (message e)) t
         /\ In (ToFile (filenameOf f) (mimetype f)) t
         /\ inserts t = [[part001Row req image Null]])
    /\ (forall e, w_upload w (part001OriginalPath w req) = Rejected e ->
          exists r t,
            run (Part001.submitMember w req) = (Some r, t)
            /\ In (errorLine "Image processing failed:" (message e)) t
            /\ prompts t = []
            /\ uploads t = [part001OriginalPath w req]
            /\ inserts t = [[part001Row req Null Null]])
    /\ (forall e c b64,
          w_upload w (part001OriginalPath w req) = Refused e ->
          w_toFile w = None ->
          (forall p, w_imagesEdit w p = EditResolved (Entry (Some (c :: b64)))) ->
          w_upload w (part001GeneratedPath w req) = Accepted ->
          exists r t,
            run (Part001.submitMember w req) = (Some r, t)
            /\ inserts t
               = [[part001Row req (Str (w_publicUrl w (part001GeneratedPath w req)))
                     Null]])
    /\ (w_upload w (part001OriginalPath w req) = Accepted ->
        w_toFile w <> None \/ generationFails w
        \/ w_upload w (part001GeneratedPath w req) <> Accepted ->
        exists r t,
          run (Part001.submitMember w req) = (Some r, t)
          /\ inserts t
             = [[part001Row req Null
                   (Str (w_publicUrl w (part001OriginalPath w req)))]]).
Proof.
  intros w req f Hv Hf. split; [|split; [|split]].
  - intros e. exact (Part001_original_refused w req f e Hv Hf).
  - intros e. exact (Part001_original_rejected w req f e Hv Hf).
  - intros e c b64. exact (Part001_generated_without_original w req f e c b64 Hv Hf).
  - exact (Part001_original_kept w req f Hv Hf).
Qed.

(** The original image is stored, then the image model rejects the call:
    the row keeps the original's URL beside a null [image_url].  The
    original is refused, the rest succeeds: the row holds the generated
    image's URL beside a null [original_image_url]. *)
Lemma C9_original_kept_witness :
  part001Valid adaFullWithPhoto
  /\ file adaFullWithPhoto = Some photo
  /\ inserts (snd (run (Part001.submitMember
                          (withImagesEdit calmWorld (EditRejected (Error "429 rate limit")))
                          adaFullWithPhoto)))
     = [[part001Row adaFullWithPhoto Null
           (Str (sampleUrl (lit "original_image_url/1700000000000-ada-lovelace.png")))]]
  /\ inserts (snd (run (Part001.submitMember originalsRefused adaFullWithPhoto)))
     = [[part001Row adaFullWithPhoto
           (Str (sampleUrl (lit "community/1700000000000-ada-lovelace.png")))
           Null]].
Proof.
  split; [split; reflexivity|]. split; [reflexivity|]. split.
  - destruct (proj2 (proj2 (proj2
                (C9_original_and_generated_independent
                   (withImagesEdit calmWorld (EditRejected (Error "429 rate limit")))
                   adaFullWithPhoto photo (conj eq_refl eq_refl) eq_refl)))
                eq_refl (or_intror (or_introl (fun p => I))))
      as (r & t & Hr & Hi).
    rewrite Hr. simpl. rewrite Hi. vm_compute. reflexivity.
  - destruct (proj1 (proj2 (proj2
                (C9_original_and_generated_independent
                   originalsRefused adaFullWithPhoto photo
                   (conj eq_refl eq_refl) eq_refl)))
                (Error "Bucket quota exceeded") 105 (lit "VBORw0KGgo=")
                eq_refl eq_refl (fun p => eq_refl) eq_refl)
      as (r & t & Hr & Hi).
    rewrite Hr. simpl. rewrite Hi. vm_compute. reflexivity.
Defined.
(* ================================================================= *)
(** ** Storage paths *)

Section StoragePaths.

Lemma slug_shape (s : jsstring) :
  forallb urlSafe (replaceNonAlnum s) = true
  /\ doubleHyphen (replaceNonAlnum s) = false
  /\ filter isLowerAlnum (replaceNonAlnum s) = filter isLowerAlnum s.
Proof.
  unfold replaceNonAlnum. split; [|split].
  - apply urlSafe_replaceRuns.
  - apply doubleHyphen_replaceRuns.
  - apply replaceRuns_keeps_alnum.
Qed.

(** With one slug, a timestamped path tells the timestamp. *)
Lemma timestamped_path_inj (prefix slug : jsstring) (n m : N) :
  prefix ++ numberToString n ++ lit "-" ++ slug ++ lit ".png"
  = prefix ++ numberToString m ++ lit "-" ++ slug ++ lit ".png"
  -> n = m.
Proof.
  intro H. apply app_inv_head in H. apply app_inv_tail in H.
  now apply numberToString_inj.
Qed.

Lemma suffixed_path_inj (slug i j : jsstring) :
  ServerJs.filePath slug i = ServerJs.filePath slug j -> i = j.
Proof.
  unfold ServerJs.filePath. intro H.
  do 3 apply app_inv_head in H. now apply app_inv_tail in H.
Qed.

Lemma ServerJs_uploads (w : World) (req : Request) :
  exists r t,
    run (ServerJs.submitMember w req) = (r, t)
    /\ (uploads t = []
        \/ exists name,
             trimmed (bodyField (body req) "name") = Str name
             /\ uploads t
                = [ServerJs.filePath (replaceNonAlnum (w_toLowerCase w name))
                     (slice 2 6 (w_random36 w))]).
Proof.
  destruct (serverJsReadable req) eqn:Hp.
  - fields Hp.
    unfold ServerJs.submitMember, ServerJs.imageRequests.
    destruct (file req) as [f|]; exec.
    all: do 2 eexists; split; [reflexivity|].
    all: first [left; reflexivity | right; eexists; split; reflexivity].
  - destruct (ServerJs_unreadable w req Hp) as (msg & ->).
    do 2 eexists; split; [reflexivity|]. now left.
Qed.

Lemma Part001_uploads (w : World) (req : Request) :
  exists r t,
    run (Part001.submitMember w req) = (r, t)
    /\ (uploads t = []
        \/ uploads t = [part001OriginalPath w req]
        \/ uploads t = [part001OriginalPath w req; part001GeneratedPath w req]).
Proof.
  destruct (part001Readable req) eqn:Hp;
    [|destruct (Part001_unreadable w req Hp) as (e & ->);
      do 2 eexists; split; [reflexivity|]; now left].
  destruct (Part001.missingRequired
              (trimmed (bodyField (body req) "firstname"))
              (trimmed (bodyField (body req) "lastname"))
              (trimmed (bodyField (body req) "email"))) eqn:Hv.
  - rewrite (Part001_rejects_missing_fields w req Hp Hv).
    do 2 eexists; split; [reflexivity|]. now left.
  - fields Hp.
    unfold part001OriginalPath, part001GeneratedPath, part001Slug,
      Part001.submitMember, Part001.imageProcessing, Part001.getPrompt.
    destruct (file req) as [f|]; exec.
    all: do 2 eexists; split; [reflexivity|].
    all: first [left; reflexivity | right; left; reflexivity
               | right; right; reflexivity].
Qed.

Lemma Part002_uploads (w : World) (req : Request) :
  exists r t,
    run (Part002.submitMember w req) = (r, t)
    /\ (uploads t = []
        \/ exists name,
             trimmed (bodyField (body req) "name") = Str name
             /\ uploads t
                = [Part002.filePath (w_dateNow w 0%nat)
                     (replaceNonAlnum (w_toLowerCase w name))]).
Proof.
  destruct (part002Readable req) eqn:Hp;
    [|destruct (Part002_unreadable w req Hp) as (e & ->);
      do 2 eexists; split; [reflexivity|]; now left].
  destruct (Part002.missingRequired
              (trimmed (bodyField (body req) "name"))
              (trimmed (bodyField (body req) "email"))) eqn:Hv.
  - rewrite (Part002_rejects_missing_fields w req Hp Hv).
    do 2 eexists; split; [reflexivity|]. now left.
  - fields Hp.
    unfold Part002.submitMember, Part002.imageProcessing, Part002.decodeFirst.
    destruct (file req) as [f|]; exec.
    all: do 2 eexists; split; [reflexivity|].
    all: first [left; reflexivity | right; eexists; split; reflexivity].
Qed.

End StoragePaths.

(** C4 as stated fails: two different submissions by people of the same
    name, processed by part_001 while the clock shows the same millisecond,
    write to the very same two storage paths. *)
Lemma C4_same_millisecond_same_path :
  body adaFullWithPhoto <> body otherAdaWithPhoto
  /\ uploads (snd (run (Part001.submitMember calmWorld adaFullWithPhoto)))
     = [lit "original_image_url/1700000000000-ada-lovelace.png";
        lit "community/1700000000000-ada-lovelace.png"]
  /\ uploads (snd (run (Part001.submitMember calmWorld otherAdaWithPhoto)))
     = [lit "original_image_url/1700000000000-ada-lovelace.png";
        lit "community/1700000000000-ada-lovelace.png"].
Proof.
  split; [intro H; vm_compute in H; discriminate H|].
  split; vm_compute; reflexivity.
Qed.

(** C4, amended: the slug is the lower-cased name with every run of code
    units outside a-z and 0-9 replaced by one hyphen (only a-z, 0-9 and
    hyphens, never two hyphens in a row, letters and digits kept in
    order); every storage write of a handler goes to
    [community/<slug>-<characters 2 to 5 of a random string>.png]
    (server.js),
    to [community/<timestamp>-<slug>.png] (part_001, part_002) or to
    [original_image_url/<timestamp>-<slug>.png] (the original, part_001);
    and two paths built from one slug are equal exactly when their tokens
    (random characters, or clock reading) are equal. *)
Theorem C4_storage_paths :
  (forall s,
      forallb urlSafe (replaceNonAlnum s) = true
      /\ doubleHyphen (replaceNonAlnum s) = false
      /\ filter isLowerAlnum (replaceNonAlnum s) = filter isLowerAlnum s)
  /\ (forall w req, exists r t,
         run (ServerJs.submitMember w req) = (r, t)
         /\ (uploads t = []
             \/ exists name,
                  trimmed (bodyField (body req) "name") = Str name
                  /\ uploads t
                     = [lit "community/" ++ replaceNonAlnum (w_toLowerCase w name)
                        ++ lit "-" ++ slice 2 6 (w_random36 w) ++ lit ".png"]))
  /\ (forall w req, exists r t,
         run (Part001.submitMember w req) = (r, t)
         /\ let slug :=
              replaceNonAlnum
                (w_toLowerCase w
                   (ToString (trimmed (bodyField (body req) "firstname"))
                    ++ lit "-"
                    ++ ToString (trimmed (bodyField (body req) "lastname")))) in
            let original :=
              lit "original_image_url/" ++ numberToString (w_dateNow w 0%nat)
              ++ lit "-" ++ slug ++ lit ".png" in
            let generated :=
              lit "community/" ++ numberToString (w_dateNow w 1%nat)
              ++ lit "-" ++ slug ++ lit ".png" in
            uploads t = [] \/ uploads t = [original]
            \/ uploads t = [original; generated])
  /\ (forall w req, exists r t,
         run (Part002.submitMember w req) = (r, t)
         /\ (uploads t = []
             \/ exists name,
                  trimmed (bodyField (body req) "name") = Str name
                  /\ uploads t
                     = [lit "community/" ++ numberToString (w_dateNow w 0%nat)
                        ++ lit "-" ++ replaceNonAlnum (w_toLowerCase w name)
                        ++ lit ".png"]))
  /\ (forall slug i j,
         ServerJs.filePath slug i = ServerJs.filePath slug j <-> i = j)
  /\ (forall slug n m,
         (Part001.filePath n slug = Part001.filePath m slug <-> n = m)
         /\ (Part001.originalFilePath n slug = Part001.originalFilePath m slug
             <-> n = m)
         /\ (Part002.filePath n slug = Part002.filePath m slug <-> n = m)).
Proof.
  split; [exact slug_shape|].
  split; [exact ServerJs_uploads|].
  split; [exact Part001_uploads|].
  split; [exact Part002_uploads|].
  split.
  - intros slug i j. split; [apply suffixed_path_inj | now intros ->].
  - intros slug n m. repeat split; try (now intros ->).
    all: apply timestamped_path_inj.
Qed.

(** One millisecond later the generated image of the same name goes to
    another path. *)
Lemma C4_storage_paths_witness :
  Part001.filePath 1700000000000 (lit "ada-lovelace")
  <> Part001.filePath 1700000000001 (lit "ada-lovelace").
Proof.
  intro H.
  apply (proj1 (proj1 (proj2 (proj2 (proj2 (proj2 (proj2 C4_storage_paths))))
                         (lit "ada-lovelace") 1700000000000 1700000000001))) in H.
  discriminate H.
Defined.

(* ================================================================= *)
(** ** Listing *)

Section Listing.

Import RecordStore.

Lemma insertBy_perm (before : Member -> Member -> bool) (m : Member) (l : list Member) :
  Permutation (insertBy before m l) (m :: l).
Proof.
  induction l as [|x l IH]; simpl; [apply Permutation_refl|].
  destruct (before m x); [apply Permutation_refl|].
  eapply Permutation_trans; [apply perm_skip, IH | apply perm_swap].
Qed.

Lemma sortBy_perm (before : Member -> Member -> bool) (l : list Member) :
  Permutation (sortBy before l) l.
Proof.
  induction l as [|m l IH]; simpl; [apply Permutation_refl|].
  eapply Permutation_trans; [apply insertBy_perm | now apply perm_skip].
Qed.

Lemma newerFirst_trans (a b c : Member) :
  newerFirst a b -> newerFirst b c -> newerFirst a c.
Proof. unfold newerFirst. lia. Qed.

Lemma insertBy_HdRel (x m : Member) (l : list Member) :
  HdRel newerFirst x l -> newerFirst x m ->
  HdRel newerFirst x (insertBy (byCreatedAt false) m l).
Proof.
  intros Hl Hm. destruct l as [|y l]; cbn [insertBy]; [now constructor|].
  destruct (byCreatedAt false m y); constructor; auto.
  now inversion Hl.
Qed.

Lemma insertBy_sorted (m : Member) (l : list Member) :
  Sorted newerFirst l -> Sorted newerFirst (insertBy (byCreatedAt false) m l).
Proof.
  induction l as [|x l IH]; intro Hs; cbn [insertBy].
  - repeat constructor.
  - destruct (byCreatedAt false m x) eqn:E.
    + constructor; [exact Hs|]. constructor.
      unfold byCreatedAt in E. unfold newerFirst. now apply N.leb_le.
    + inversion Hs as [|? ? Hs' Hh]; subst.
      constructor; [now apply IH|].
      apply insertBy_HdRel; [exact Hh|].
      unfold byCreatedAt in E. unfold newerFirst.
      apply N.leb_gt in E. lia.
Qed.

Lemma sortBy_sorted (l : list Member) :
  StronglySorted newerFirst (sortBy (byCreatedAt false) l).
Proof.
  apply Sorted_StronglySorted; [exact newerFirst_trans|].
  induction l as [|m l IH]; cbn [sortBy]; [constructor|].
  now apply insertBy_sorted.
Qed.

Lemma select_four (table : list Member) :
  select table ServerJs.communityQuery
  = map (project fourColumns) (sortBy (byCreatedAt false) table).
Proof. reflexivity. Qed.

Lemma select_eight (table : list Member) :
  select table Part001.communityQuery
  = map (project eightColumns) (sortBy (byCreatedAt false) table).
Proof. reflexivity. Qed.

Lemma projected_rows (cols : list string) (l : list Member) :
  In "created_at" cols ->
  Forall (fun row => keysOf row = cols) (map (project cols) l)
  /\ map createdAtOf (map (project cols) l)
     = map (fun m => Some (created_at m)) l.
Proof.
  intro Hc. split.
  - apply Forall_forall. intros row Hin. apply in_map_iff in Hin.
    destruct Hin as (m & <- & _). unfold project, keysOf.
    rewrite map_map. simpl. apply map_id.
  - rewrite map_map. apply map_ext. intro m.
    unfold project, createdAtOf.
    induction cols as [|k cols IH]; [destruct Hc|].
    simpl. destruct (String.eqb k "created_at") eqn:E; [reflexivity|].
    destruct Hc as [->|Hc]; [vm_compute in E; discriminate E|]. now apply IH.
Qed.

End Listing.

(** C6: against a record store that answers a query as the specification
    describes (every row, restricted to the requested columns, ordered by
    [created_at] as asked), GET /community of server.js and of part_001
    makes one query and answers 200 with an array holding every member
    exactly once (no filtering, no pagination), newest first, each row
    restricted to the revision's fixed columns; on an empty table the
    array is empty. *)
Theorem C6_listing_newest_first :
  forall table w,
    (forall q, w_select w q = SelectData (RecordStore.select table q)) ->
    exists sorted,
      Permutation sorted table
      /\ StronglySorted newerFirst sorted
      /\ run (ServerJs.community w)
         = (Some {| status := 200;
                    payload := Array (map (RecordStore.project fourColumns) sorted) |},
            [DbSelect ServerJs.communityQuery])
      /\ run (Part001.community w)
         = (Some {| status := 200;
                    payload := Array (map (RecordStore.project eightColumns) sorted) |},
            [DbSelect Part001.communityQuery])
      /\ Forall (fun row => RecordStore.keysOf row = fourColumns)
           (map (RecordStore.project fourColumns) sorted)
      /\ Forall (fun row => RecordStore.keysOf row = eightColumns)
           (map (RecordStore.project eightColumns) sorted)
      /\ map RecordStore.createdAtOf (map (RecordStore.project fourColumns) sorted)
         = map (fun m => Some (RecordStore.created_at m)) sorted
      /\ map RecordStore.createdAtOf (map (RecordStore.project eightColumns) sorted)
         = map (fun m => Some (RecordStore.created_at m)) sorted
      /\ (table = [] -> sorted = []).
Proof.
  intros table w Hs.
  exists (RecordStore.sortBy (RecordStore.byCreatedAt false) table).
  split; [apply sortBy_perm|].
  split; [apply sortBy_sorted|].
  split.
  { unfold ServerJs.community. reduce. rewrite (Hs ServerJs.communityQuery).
    reduce. now rewrite select_four. }
  split.
  { unfold Part001.community. reduce. rewrite (Hs Part001.communityQuery).
    reduce. now rewrite select_eight. }
  assert (H4 : In "created_at" fourColumns) by (simpl; auto).
  assert (H8 : In "created_at" eightColumns) by (simpl; auto 10).
  split; [apply (projected_rows fourColumns _ H4)|].
  split; [apply (projected_rows eightColumns _ H8)|].
  split; [apply (projected_rows fourColumns _ H4)|].
  split; [apply (projected_rows eightColumns _ H8)|].
  now intros ->.
Qed.

(** Three members stored out of order come back newest first. *)
Lemma C6_listing_witness :
  (forall q, w_select (storeWorld threeMembers) q
             = SelectData (RecordStore.select threeMembers q))
  /\ (exists sorted,
         Permutation sorted threeMembers
         /\ StronglySorted newerFirst sorted
         /\ run (ServerJs.community (storeWorld threeMembers))
            = (Some {| status := 200;
                       payload := Array (map (RecordStore.project fourColumns) sorted) |},
               [DbSelect ServerJs.communityQuery]))
  /\ map RecordStore.createdAtOf
       (match fst (run (ServerJs.community (storeWorld threeMembers))) with
        | Some {| status := 200; payload := Array rows |} => rows
        | _ => []
        end)
     = [Some 1700000500000; Some 1700000200000; Some 1700000000000].
Proof.
  split; [intro q; reflexivity|].
  split; [|vm_compute; reflexivity].
  destruct (C6_listing_newest_first threeMembers (storeWorld threeMembers)
              (fun q => eq_refl)) as (sorted & Hp & Hs & Hr & _).
  now exists sorted.
Defined.

(* ================================================================= *)
(** ** Trimming *)

Section Trimming.

Lemma trimStart_head (s : jsstring) (c : N) (r : jsstring) :
  trimStart s = c :: r -> isWhiteSpace c = false.
Proof.
  induction s as [|a s IH]; simpl; [discriminate|].
  destruct (isWhiteSpace a) eqn:E; [exact IH|].
  intros [= <- _]. exact E.
Qed.

Lemma trimStart_nil_iff (s : jsstring) :
  trimStart s = [] <-> forallb isWhiteSpace s = true.
Proof.
  induction s as [|a s IH]; simpl; [tauto|].
  destruct (isWhiteSpace a); simpl; [exact IH|].
  split; discriminate.
Qed.

Lemma trimStart_keeps_last (l : jsstring) (c : N) :
  isWhiteSpace c = false -> exists u, trimStart (l ++ [c]) = u ++ [c].
Proof.
  intro Hc. induction l as [|a l IH]; simpl.
  - rewrite Hc. now exists [].
  - destruct (isWhiteSpace a); [exact IH|]. now exists (a :: l).
Qed.

Lemma trimStart_fixed (c : N) (s : jsstring) :
  isWhiteSpace c = false -> trimStart (c :: s) = c :: s.
Proof. intro H. simpl. now rewrite H. Qed.

Lemma forallb_rev (f : N -> bool) (l : jsstring) :
  forallb f (rev l) = forallb f l.
Proof.
  induction l as [|a l IH]; simpl; [reflexivity|].
  rewrite forallb_app, IH. simpl. rewrite andb_true_r. apply andb_comm.
Qed.

(** What [trim] leaves starts with no white space. *)
Lemma trim_head (s : jsstring) (c : N) (r : jsstring) :
  trim s = c :: r -> isWhiteSpace c = false.
Proof.
  unfold trim, trimEnd.
  destruct (trimStart s) as [|a t] eqn:E; [discriminate|].
  pose proof (trimStart_head _ _ _ E) as Ha.
  simpl rev at 2.
  destruct (trimStart_keeps_last (rev t) a Ha) as (u & ->).
  rewrite rev_app_distr. simpl. now intros [= <- _].
Qed.

(** ... and ends with none. *)
Lemma trim_last (s : jsstring) (c : N) (r : jsstring) :
  trim s = r ++ [c] -> isWhiteSpace c = false.
Proof.
  unfold trim, trimEnd. intro H.
  apply (f_equal (@rev N)) in H.
  rewrite rev_involutive, rev_app_distr in H. simpl in H.
  exact (trimStart_head _ _ _ H).
Qed.

(** [trim] leaves nothing exactly of the strings made of white space. *)
Lemma trim_nil_iff (s : jsstring) :
  trim s = [] <-> forallb isWhiteSpace s = true.
Proof.
  unfold trim, trimEnd. split.
  - intro H. apply (f_equal (@rev N)) in H. rewrite rev_involutive in H.
    simpl in H. apply trimStart_nil_iff in H. rewrite forallb_rev in H.
    destruct (trimStart s) as [|a t] eqn:E; [now apply trimStart_nil_iff|].
    apply trimStart_head in E. simpl in H. rewrite E in H. discriminate H.
  - intro H. apply trimStart_nil_iff in H. now rewrite H.
Qed.

Lemma last_app_one (l : jsstring) (c d : N) : last (l ++ [c]) d = c.
Proof.
  induction l as [|a l IH]; [reflexivity|].
  simpl. destruct (l ++ [c]) eqn:E; [now destruct l|exact IH].
Qed.

Lemma trim_clean (s : jsstring) :
  trim s = [] \/ cleanText (Str (trim s)) = true.
Proof.
  destruct (trim s) as [|c r] eqn:E; [now left|right].
  simpl. rewrite (trim_head _ _ _ E). simpl.
  destruct (@exists_last _ (c :: r)) as (r' & d & Hd); [discriminate|].
  assert (Hl : last r c = d).
  { destruct r as [|b r0].
    - destruct r' as [|x r'']; [now injection Hd|].
      injection Hd as _ Hd. now destruct r''.
    - replace (last (b :: r0) c) with (last (c :: b :: r0) c) by reflexivity.
      rewrite Hd. apply last_app_one. }
  rewrite Hl. rewrite <- E in Hd. now rewrite (trim_last _ _ _ Hd).
Qed.

(** Trimming twice is trimming once. *)
Lemma trim_idempotent (s : jsstring) : trim (trim s) = trim s.
Proof.
  destruct (trim s) as [|c r] eqn:E; [reflexivity|].
  pose proof (trim_head _ _ _ E) as Hc.
  destruct (@exists_last _ (c :: r)) as (r' & d & Hd); [discriminate|].
  assert (Hdw : isWhiteSpace d = false).
  { rewrite <- E in Hd. exact (trim_last _ _ _ Hd). }
  unfold trim, trimEnd. rewrite (trimStart_fixed c r Hc).
  rewrite Hd, rev_app_distr. simpl rev at 2. simpl app.
  rewrite (trimStart_fixed d (rev r') Hdw).
  simpl. now rewrite rev_involutive.
Qed.

End Trimming.

(* ================================================================= *)
(** ** The shape of a run of POST /submitMember *)

Ltac finish := repeat split; reflexivity.

(** Storage paths are compared as names, never by their text. *)
Ltac hide_original :=
  repeat match goal with
    | |- context [Part001.originalFilePath ?a ?b] =>
        let p := fresh "original" in
        let Hp := fresh in
        remember (Part001.originalFilePath a b) as p eqn:Hp in *; clear Hp
    end.

Ltac hide_generated :=
  repeat match goal with
    | |- context [Part001.filePath ?a ?b] =>
        let p := fresh "generated" in
        let Hp := fresh in
        remember (Part001.filePath a b) as p eqn:Hp in *; clear Hp
    end.

Ltac refusal :=
  first [ discriminate
        | match goal with
          | H : w_upload ?w ?p = _ |- w_upload ?w ?p <> _ =>
              rewrite H; discriminate
          end ].

(** Once the trace is known, read it. *)
Ltac read_trace :=
  cbn [uploadCalls editCalls filter isUpload isEdit afterInsert forallb
       isConsole andb inserts uploads prompts].

Ltac accepted := first [reflexivity | eassumption].

Section RunShape.

Lemma prefixOf_app (p s : jsstring) : prefixOf p (p ++ s).
Proof. now exists s. Qed.

(** server.js, every world and every submission whose name, email and
    location can be read. *)
Lemma ServerJs_shape (w : World) (req : Request) :
  serverJsReadable req = true ->
  exists r t st url,
    run (ServerJs.submitMember w req) = (Some r, t)
    /\ inserts t = [[serverJsRow req url]]
    /\ forallb isConsole (afterInsert t) = true
    /\ (editCalls t = []
        \/ editCalls t
           = [ImagesEdit (ServerJs.getPrompt (trimmed (bodyField (body req) "activity")))
                "1024x1024" "transparent"])
    /\ (status r = 200 -> payload r = imageReport st url)
    /\ ((file req = None /\ st = lit "none" /\ url = Null
         /\ uploadCalls t = [] /\ editCalls t = [])
        \/ (file req <> None /\ st = lit "failed" /\ url = Null
            /\ (uploadCalls t = []
                \/ exists path data,
                     uploadCalls t
                     = [StorageUpload "neighbors" path data (lit "image/png")]
                     /\ w_upload w path <> Accepted))
        \/ (file req <> None /\ st = lit "ready"
            /\ exists name c b64,
                 trimmed (bodyField (body req) "name") = Str name
                 /\ url = Str (w_publicUrl w
                                 (ServerJs.filePath
                                    (replaceNonAlnum (w_toLowerCase w name))
                                    (slice 2 6 (w_random36 w))))
                 /\ uploadCalls t
                    = [StorageUpload "neighbors"
                         (ServerJs.filePath
                            (replaceNonAlnum (w_toLowerCase w name))
                            (slice 2 6 (w_random36 w)))
                         (FromBase64 (c :: b64)) (lit "image/png")]
                 /\ w_upload w
                      (ServerJs.filePath
                         (replaceNonAlnum (w_toLowerCase w name))
                         (slice 2 6 (w_random36 w)))
                    = Accepted)).
Proof.
  intro Hp. fields Hp.
  unfold ServerJs.submitMember, ServerJs.imageRequests, serverJsRow.
  destruct (file req) as [f|]; exec.
  all: do 4 eexists; split; [reflexivity|]; read_trace.
  all: split; [reflexivity|].
  all: split; [reflexivity|].
  all: split; [first [left; reflexivity | right; reflexivity]|].
  all: split; [first [reflexivity | intro Hs; discriminate Hs]|].
  all: try (left; solve [finish]).
  all: first
         [ right; left; split; [discriminate|]; split; [reflexivity|];
           split; [reflexivity|];
           first [ left; reflexivity
                 | right; do 2 eexists; split; [reflexivity|];
                   refusal ]
         | right; right; split; [discriminate|]; split; [reflexivity|];
           do 3 eexists; split; [reflexivity|]; split; [reflexivity|];
           split; [reflexivity | eassumption] ].
Qed.

(** part_001, every world and every submission that passed validation. *)
Lemma Part001_shape (w : World) (req : Request) :
  part001Valid req ->
  exists r t url original,
    run (Part001.submitMember w req) = (Some r, t)
    /\ inserts t = [[part001Row req url original]]
    /\ forallb isConsole (afterInsert t) = true
    /\ (editCalls t = []
        \/ editCalls t
           = [ImagesEdit
                (if jsNot (part001Activity req) then Part001.baseline
                 else Part001.extended (ToString (part001Activity req)))
                "1024x1024" "transparent"])
    /\ ((file req = None /\ url = Null /\ original = Null
         /\ uploadCalls t = [] /\ editCalls t = [])
        \/ exists f rest,
             file req = Some f
             /\ uploadCalls t
                = StorageUpload "neighbors" (part001OriginalPath w req)
                    FileBuffer (mimetype f) :: rest
             /\ ((original = Null
                  /\ w_upload w (part001OriginalPath w req) <> Accepted)
                 \/ (original = Str (w_publicUrl w (part001OriginalPath w req))
                     /\ w_upload w (part001OriginalPath w req) = Accepted))
             /\ ((url = Null /\ rest = [])
                 \/ (url = Null
                     /\ exists data,
                          rest = [StorageUpload "neighbors"
                                    (part001GeneratedPath w req) data
                                    (lit "image/png")]
                          /\ w_upload w (part001GeneratedPath w req) <> Accepted)
                 \/ (url = Str (w_publicUrl w (part001GeneratedPath w req))
                     /\ w_upload w (part001GeneratedPath w req) = Accepted
                     /\ exists c b64,
                          rest = [StorageUpload "neighbors"
                                    (part001GeneratedPath w req)
                                    (FromBase64 (c :: b64)) (lit "image/png")]))).
Proof.
  unfold part001Activity, part001OriginalPath,
    part001GeneratedPath, part001Slug, Part001.submitMember,
    Part001.imageProcessing, Part001.getPrompt, part001Row.
  intros (Hp & Hv). fields Hp. read_fields.
  destruct (file req) as [f|]; reduce; rewrite Hv; reduce; hide_original; exec.
  all: hide_generated.
  all: do 4 eexists; split; [reflexivity|]; read_trace.
  all: split; [reflexivity|].
  all: split; [reflexivity|].
  all: split; [first [left; reflexivity | right; reflexivity]|].
  all: try (left; solve [finish]).
  all: first
         [ right; do 2 eexists; split; [reflexivity|]; split; [reflexivity|];
           split;
           [ first [ left; split; [reflexivity | refusal]
                   | right; split; [reflexivity | accepted] ]
           | first [ left; split; reflexivity
                   | right; left; split; [reflexivity|]; eexists;
                     split; [reflexivity | refusal]
                   | right; right; split; [reflexivity|];
                     split; [accepted|]; do 2 eexists; reflexivity ] ] ].
Qed.

(** part_002, every world and every submission that passed validation. *)
Lemma Part002_shape (w : World) (req : Request) :
  part002Valid req ->
  exists r t,
    run (Part002.submitMember w req) = (Some r, t)
    /\ forallb isConsole (afterInsert t) = true
    /\ (editCalls t = []
        \/ editCalls t = [ImagesEdit Part002.PIXEL_PROMPT "1024x1024" "transparent"])
    /\ (status r = 200 \/ status r = 500)
    /\ ((file req = None /\ inserts t = [[serverJsRow req Null]]
         /\ uploadCalls t = [] /\ editCalls t = [])
        \/ (file req <> None /\ inserts t = [] /\ status r = 500
            /\ (uploadCalls t = []
                \/ exists path data,
                     uploadCalls t
                     = [StorageUpload "neighbors" path data (lit "image/png")]
                     /\ w_upload w path <> Accepted))
        \/ (file req <> None
            /\ exists name b64,
                 trimmed (bodyField (body req) "name") = Str name
                 /\ inserts t
                    = [[serverJsRow req
                          (Str (w_publicUrl w
                                  (Part002.filePath (w_dateNow w 0%nat)
                                     (replaceNonAlnum (w_toLowerCase w name)))))]]
                 /\ uploadCalls t
                    = [StorageUpload "neighbors"
                         (Part002.filePath (w_dateNow w 0%nat)
                            (replaceNonAlnum (w_toLowerCase w name)))
                         (FromBase64 b64) (lit "image/png")]
                 /\ w_upload w
                      (Part002.filePath (w_dateNow w 0%nat)
                         (replaceNonAlnum (w_toLowerCase w name)))
                    = Accepted)).
Proof.
  unfold Part002.submitMember, Part002.imageProcessing,
    Part002.decodeFirst, serverJsRow.
  intros (Hp & Hv). fields Hp.
  destruct (file req) as [f|]; exec.
  all: do 2 eexists; split; [reflexivity|]; read_trace.
  all: split; [reflexivity|].
  all: split; [first [left; reflexivity | right; reflexivity]|].
  all: split; [first [left; reflexivity | right; reflexivity]|].
  all: try (left; solve [finish]).
  all: first
         [ right; left; split; [discriminate|]; split; [reflexivity|];
           split; [reflexivity|];
           first [ left; reflexivity
                 | right; do 2 eexists; split; [reflexivity | refusal] ]
         | right; right; split; [discriminate|];
           do 2 eexists; split; [reflexivity|]; split; [reflexivity|];
           split; [reflexivity | eassumption] ].
Qed.

(** How a request gets past the handler's first step, or does not. *)
Lemma ServerJs_run_cases (w : World) (req : Request) :
  (exists msg,
      run (ServerJs.submitMember w req)
      = (Some serverJsFailure,
         [ConsoleLog [Val (Str (lit "----- NEW SUBMISSION -----"))];
          errorLine "[/submitMember]" msg]))
  \/ serverJsReadable req = true.
Proof.
  destruct (serverJsReadable req) eqn:Hp; [now right|].
  left. exact (ServerJs_unreadable w req Hp).
Qed.

Lemma Part001_run_cases (w : World) (req : Request) :
  (exists e,
      run (Part001.submitMember w req)
      = (Some part001Failure,
         [ConsoleLog [Val (Str (lit "----- NEW SUBMISSION -----"))];
          ConsoleError [Val (Str (lit "Request failed:")); errorObject e]]))
  \/ run (Part001.submitMember w req)
     = (Some {| status := 400;
                payload := errorBody (lit "Missing firstname, lastname, or email") |},
        [ConsoleLog [Val (Str (lit "----- NEW SUBMISSION -----"))];
         ConsoleLog [Val (Str (lit "Validation failed: missing firstname, lastname, or email"))]])
  \/ part001Valid req.
Proof.
  destruct (part001Readable req) eqn:Hp;
    [|left; exact (Part001_unreadable w req Hp)].
  destruct (Part001.missingRequired
              (trimmed (bodyField (body req) "firstname"))
              (trimmed (bodyField (body req) "lastname"))
              (trimmed (bodyField (body req) "email"))) eqn:Hv.
  - right. left. exact (Part001_rejects_missing_fields w req Hp Hv).
  - right. right. now split.
Qed.

Lemma Part002_run_cases (w : World) (req : Request) :
  (exists e,
      run (Part002.submitMember w req)
      = (Some {| status := 500; payload := errorBody (message e) |},
         [ConsoleError [errorObject e]]))
  \/ run (Part002.submitMember w req)
     = (Some {| status := 400; payload := errorBody (lit "Missing name or email") |},
        [])
  \/ part002Valid req.
Proof.
  destruct (part002Readable req) eqn:Hp;
    [|left; exact (Part002_unreadable w req Hp)].
  destruct (Part002.missingRequired
              (trimmed (bodyField (body req) "name"))
              (trimmed (bodyField (body req) "email"))) eqn:Hv.
  - right. left. exact (Part002_rejects_missing_fields w req Hp Hv).
  - right. right. now split.
Qed.

End RunShape.

(* ================================================================= *)
(** ** What every run keeps *)

(** X1 (src/server.js, POST /submitMember): every submission is answered,
    with 200 or with 500; a 200 answer reports
    [{ok: true, image: {status, url}}] where [url] is the very [image_url]
    written in the one row of the request and [status] is "none" exactly
    without a file (url null), "failed" with a file and a null url, or
    "ready" with a file and a url; "processing" is never reported. *)
Theorem X1_server_js_image_report :
  forall w req, exists r t,
    run (ServerJs.submitMember w req) = (Some r, t)
    /\ (status r = 200 \/ status r = 500)
    /\ (status r = 200 ->
        exists st url,
          payload r = imageReport st url
          /\ inserts t = [[serverJsRow req url]]
          /\ ((file req = None /\ st = lit "none" /\ url = Null)
              \/ (file req <> None /\ st = lit "failed" /\ url = Null)
              \/ (file req <> None /\ st = lit "ready" /\ exists u, url = Str u))).
Proof.
  intros w req.
  destruct (ServerJs_run_cases w req) as [(msg & Hr)|Hp].
  - do 2 eexists. split; [exact Hr|]. split; [now right|].
    intro Hs. discriminate Hs.
  - destruct (ServerJs_shape w req Hp)
      as (r & t & st & url & Hr & Hi & _ & _ & Hb & Hc).
    destruct (ServerJs_answer_follows_insert w req Hp)
      as (u & r' & t' & Hr' & _ & Hok & Hko).
    rewrite Hr in Hr'. injection Hr' as <- <-.
    exists r, t. split; [exact Hr|]. split.
    + destruct (w_insert w [serverJsRow req u]) eqn:E.
      * left. now apply Hok.
      * right. rewrite Hko by discriminate. reflexivity.
      * right. rewrite Hko by discriminate. reflexivity.
    + intro Hs. exists st, url. split; [now apply Hb|]. split; [exact Hi|].
      destruct Hc as [(Hf & Hst & Hu & _)|[(Hf & Hst & Hu & _)|(Hf & Hst & Hx)]].
      * left. repeat split; assumption.
      * right. left. repeat split; assumption.
      * right. right. destruct Hx as (name & c & b64 & _ & Hu & _).
        repeat split; auto. rewrite Hu. eexists. reflexivity.
Qed.

(** With a photo and every collaborator succeeding, the answer is 200
    and its report says "ready". *)
Lemma X1_server_js_image_report_witness :
  exists r t st url,
    run (ServerJs.submitMember calmWorld adaByNameWithPhoto) = (Some r, t)
    /\ status r = 200
    /\ payload r = imageReport st url
    /\ inserts t = [[serverJsRow adaByNameWithPhoto url]]
    /\ ((file adaByNameWithPhoto = None /\ st = lit "none" /\ url = Null)
        \/ (file adaByNameWithPhoto <> None /\ st = lit "failed" /\ url = Null)
        \/ (file adaByNameWithPhoto <> None /\ st = lit "ready"
            /\ exists u, url = Str u)).
Proof.
  destruct (X1_server_js_image_report calmWorld adaByNameWithPhoto)
    as (r & t & Hr & _ & Hb).
  assert (Hs : status r = 200).
  { assert (E : option_map status
                  (fst (run (ServerJs.submitMember calmWorld adaByNameWithPhoto)))
                = Some 200) by (vm_compute; reflexivity).
    rewrite Hr in E. simpl in E. now injection E. }
  destruct (Hb Hs) as (st & url & Hp & Hi & Hc).
  exists r, t, st, url. repeat split; auto.
Defined.

Section Provenance.

Lemma ServerJs_filePath_prefix (slug id : jsstring) :
  prefixOf (lit "community/") (ServerJs.filePath slug id).
Proof. unfold ServerJs.filePath. apply prefixOf_app. Qed.

Lemma Part001_filePath_prefix (n : N) (slug : jsstring) :
  prefixOf (lit "community/") (Part001.filePath n slug).
Proof. unfold Part001.filePath. apply prefixOf_app. Qed.

Lemma Part001_originalFilePath_prefix (n : N) (slug : jsstring) :
  prefixOf (lit "original_image_url/") (Part001.originalFilePath n slug).
Proof. unfold Part001.originalFilePath. apply prefixOf_app. Qed.

Lemma Part002_filePath_prefix (n : N) (slug : jsstring) :
  prefixOf (lit "community/") (Part002.filePath n slug).
Proof. unfold Part002.filePath. apply prefixOf_app. Qed.

End Provenance.

(** X2 (POST /submitMember, all revisions): a URL written to a row is
    never made up.  Whatever is submitted, a request writes no row or one
    row; in a row written, a non-null [image_url] is the public URL of a
    path under [community/] that this very request uploaded a PNG to, in
    bucket "neighbors", and that storage accepted; in part_001 a non-null
    [original_image_url] is likewise the public URL of the accepted upload
    of the received buffer under [original_image_url/]. *)
Theorem X2_urls_point_at_accepted_uploads :
  (forall w req, exists r t,
      run (ServerJs.submitMember w req) = (Some r, t)
      /\ (inserts t = []
          \/ exists url,
               inserts t = [[serverJsRow req url]]
               /\ (url = Null
                   \/ exists path data,
                        url = Str (w_publicUrl w path)
                        /\ prefixOf (lit "community/") path
                        /\ uploadCalls t
                           = [StorageUpload "neighbors" path data (lit "image/png")]
                        /\ w_upload w path = Accepted)))
  /\ (forall w req, exists r t,
         run (Part001.submitMember w req) = (Some r, t)
         /\ (inserts t = []
             \/ exists url original,
                  inserts t = [[part001Row req url original]]
                  /\ (url = Null
                      \/ exists path data,
                           url = Str (w_publicUrl w path)
                           /\ prefixOf (lit "community/") path
                           /\ In (StorageUpload "neighbors" path data (lit "image/png"))
                                (uploadCalls t)
                           /\ w_upload w path = Accepted)
                  /\ (original = Null
                      \/ exists path contentType,
                           original = Str (w_publicUrl w path)
                           /\ prefixOf (lit "original_image_url/") path
                           /\ In (StorageUpload "neighbors" path FileBuffer contentType)
                                (uploadCalls t)
                           /\ w_upload w path = Accepted)))
  /\ (forall w req, exists r t,
         run (Part002.submitMember w req) = (Some r, t)
         /\ (inserts t = []
             \/ exists url,
                  inserts t = [[serverJsRow req url]]
                  /\ (url = Null
                      \/ exists path data,
                           url = Str (w_publicUrl w path)
                           /\ prefixOf (lit "community/") path
                           /\ uploadCalls t
                              = [StorageUpload "neighbors" path data (lit "image/png")]
                           /\ w_upload w path = Accepted))).
Proof.
  split; [|split].
  - intros w req.
    destruct (ServerJs_run_cases w req) as [(msg & Hr)|Hp];
      [do 2 eexists; split; [exact Hr | now left]|].
    destruct (ServerJs_shape w req Hp)
      as (r & t & st & url & Hr & Hi & _ & _ & _ & Hc).
    exists r, t. split; [exact Hr|]. right. exists url. split; [exact Hi|].
    destruct Hc as [(_ & _ & Hu & _)|[(_ & _ & Hu & _)|(_ & _ & Hx)]];
      [now left | now left |].
    destruct Hx as (name & c & b64 & _ & Hu & Hup & Ha).
    right. do 2 eexists. repeat split; eauto.
    apply ServerJs_filePath_prefix.
  - intros w req.
    destruct (Part001_run_cases w req) as [(e & Hr)|[Hr|Hv]];
      [do 2 eexists; split; [exact Hr | now left]
      |do 2 eexists; split; [exact Hr | now left]|].
    destruct (Part001_shape w req Hv)
      as (r & t & url & original & Hr & Hi & _ & _ & Hc).
    exists r, t. split; [exact Hr|]. right. exists url, original.
    split; [exact Hi|].
    destruct Hc as [(_ & Hu & Ho & _)|(f & rest & _ & Hup & Ho & Hu)].
    + split; now left.
    + split.
      * destruct Hu as [(Hu & _)|[(Hu & _)|(Hu & Ha & c & b64 & Hrest)]];
          [now left | now left |].
        right. do 2 eexists. split; [exact Hu|].
        split; [apply Part001_filePath_prefix|].
        split; [|exact Ha].
        rewrite Hup, Hrest. right. now left.
      * destruct Ho as [(Ho & _)|(Ho & Ha)]; [now left|].
        right. do 2 eexists. split; [exact Ho|].
        split; [apply Part001_originalFilePath_prefix|].
        split; [|exact Ha].
        rewrite Hup. now left.
  - intros w req.
    destruct (Part002_run_cases w req) as [(e & Hr)|[Hr|Hv]];
      [do 2 eexists; split; [exact Hr | now left]
      |do 2 eexists; split; [exact Hr | now left]|].
    destruct (Part002_shape w req Hv) as (r & t & Hr & _ & _ & _ & Hc).
    exists r, t. split; [exact Hr|].
    destruct Hc as [(_ & Hi & _)|[(_ & Hi & _)|(_ & name & b64 & _ & Hi & Hup & Ha)]].
    + right. eexists. split; [exact Hi|]. now left.
    + now left.
    + right. eexists. split; [exact Hi|].
      right. do 2 eexists. repeat split; eauto.
      apply Part002_filePath_prefix.
Qed.

(** A part_001 submission with a photo, every collaborator succeeding:
    the row written holds the two public URLs of the two accepted
    uploads. *)
Lemma X2_urls_witness :
  exists r t,
    run (Part001.submitMember calmWorld adaFullWithPhoto) = (Some r, t)
    /\ inserts t
       = [[part001Row adaFullWithPhoto
             (Str (sampleUrl (lit "community/1700000000000-ada-lovelace.png")))
             (Str (sampleUrl
                     (lit "original_image_url/1700000000000-ada-lovelace.png")))]]
    /\ (inserts t = []
        \/ exists url original,
             inserts t = [[part001Row adaFullWithPhoto url original]]
             /\ (url = Null
                 \/ exists path data,
                      url = Str (w_publicUrl calmWorld path)
                      /\ prefixOf (lit "community/") path
                      /\ In (StorageUpload "neighbors" path data (lit "image/png"))
                           (uploadCalls t)
                      /\ w_upload calmWorld path = Accepted)
             /\ (original = Null
                 \/ exists path contentType,
                      original = Str (w_publicUrl calmWorld path)
                      /\ prefixOf (lit "original_image_url/") path
                      /\ In (StorageUpload "neighbors" path FileBuffer contentType)
                           (uploadCalls t)
                      /\ w_upload calmWorld path = Accepted)).
Proof.
  destruct (proj1 (proj2 X2_urls_point_at_accepted_uploads)
              calmWorld adaFullWithPhoto) as (r & t & Hr & Hc).
  exists r, t. split; [exact Hr|]. split; [|exact Hc].
  assert (E : inserts (snd (run (Part001.submitMember calmWorld adaFullWithPhoto)))
              = [[part001Row adaFullWithPhoto
                    (Str (sampleUrl (lit "community/1700000000000-ada-lovelace.png")))
                    (Str (sampleUrl
                            (lit "original_image_url/1700000000000-ada-lovelace.png")))]])
    by (vm_compute; reflexivity).
  rewrite Hr in E. exact E.
Defined.

(** X3 (POST /submitMember, all revisions): whatever is submitted and
    whatever the collaborators answer, a request calls [insert] at most
    once and the image model at most once, writes to storage at most
    twice, and after [insert] it calls no collaborator any more: only
    console lines follow. *)
Theorem X3_insert_is_the_last_call :
  (forall w req, exists r t,
      run (ServerJs.submitMember w req) = (r, t)
      /\ (List.length (inserts t) <= 1)%nat
      /\ (List.length (editCalls t) <= 1)%nat
      /\ (List.length (uploadCalls t) <= 1)%nat
      /\ forallb isConsole (afterInsert t) = true)
  /\ (forall w req, exists r t,
         run (Part001.submitMember w req) = (r, t)
         /\ (List.length (inserts t) <= 1)%nat
         /\ (List.length (editCalls t) <= 1)%nat
         /\ (List.length (uploadCalls t) <= 2)%nat
         /\ forallb isConsole (afterInsert t) = true)
  /\ (forall w req, exists r t,
         run (Part002.submitMember w req) = (r, t)
         /\ (List.length (inserts t) <= 1)%nat
         /\ (List.length (editCalls t) <= 1)%nat
         /\ (List.length (uploadCalls t) <= 1)%nat
         /\ forallb isConsole (afterInsert t) = true).
Proof.
  split; [|split].
  - intros w req.
    destruct (ServerJs_run_cases w req) as [(msg & Hr)|Hp].
    { do 2 eexists. split; [exact Hr|]. repeat split; simpl; lia. }
    destruct (ServerJs_shape w req Hp)
      as (r & t & st & url & Hr & Hi & Ha & He & _ & Hc).
    exists (Some r), t. split; [exact Hr|]. rewrite Hi.
    split; [simpl; lia|].
    split; [destruct He as [-> | ->]; simpl; lia|].
    split; [|exact Ha].
    destruct Hc as [(_ & _ & _ & -> & _)|[(_ & _ & _ & [-> | (p & d & -> & _)])
                                         |(_ & _ & n & c & b & _ & _ & -> & _)]];
      simpl; lia.
  - intros w req.
    destruct (Part001_run_cases w req) as [(e & Hr)|[Hr|Hv]].
    + do 2 eexists. split; [exact Hr|]. repeat split; simpl; lia.
    + do 2 eexists. split; [exact Hr|]. repeat split; simpl; lia.
    + destruct (Part001_shape w req Hv)
        as (r & t & url & original & Hr & Hi & Ha & He & Hc).
      exists (Some r), t. split; [exact Hr|]. rewrite Hi.
      split; [simpl; lia|].
      split; [destruct He as [-> | ->]; simpl; lia|].
      split; [|exact Ha].
      destruct Hc as [(_ & _ & _ & -> & _)|(f & rest & _ & -> & _ & Hu)];
        [simpl; lia|].
      destruct Hu as [(_ & ->)|[(_ & d & -> & _)|(_ & _ & c & b & ->)]];
        simpl; lia.
  - intros w req.
    destruct (Part002_run_cases w req) as [(e & Hr)|[Hr|Hv]].
    + do 2 eexists. split; [exact Hr|]. repeat split; simpl; lia.
    + do 2 eexists. split; [exact Hr|]. repeat split; simpl; lia.
    + destruct (Part002_shape w req Hv) as (r & t & Hr & Ha & He & _ & Hc).
      exists (Some r), t. split; [exact Hr|].
      assert (Hei : (List.length (editCalls t) <= 1)%nat)
        by (destruct He as [-> | ->]; simpl; lia).
      destruct Hc as [(_ & -> & -> & _)
                     |[(_ & -> & _ & [-> | (p & d & -> & _)])
                      |(_ & n & b & _ & -> & -> & _)]];
        repeat split; auto; simpl; lia.
Qed.

(** X4 (POST /submitMember, all revisions): every call to the image model
    asks for size "1024x1024" and a transparent background; the prompt is
    [getPrompt] of the trimmed activity in server.js, of the trimmed
    activity or [null] in part_001, and the fixed [PIXEL_PROMPT] in
    part_002, which never reads the activity.  When the submitted activity
    has text left after trimming, that trimmed text is what the extended
    template carries. *)
Theorem X4_image_model_call :
  (forall w req, exists r t,
      run (ServerJs.submitMember w req) = (r, t)
      /\ (editCalls t = []
          \/ editCalls t
             = [ImagesEdit
                  (ServerJs.getPrompt (trimmed (bodyField (body req) "activity")))
                  "1024x1024" "transparent"]))
  /\ (forall w req, exists r t,
         run (Part001.submitMember w req) = (r, t)
         /\ (editCalls t = []
             \/ editCalls t
                = [ImagesEdit
                     (if jsNot (part001Activity req) then Part001.baseline
                      else Part001.extended (ToString (part001Activity req)))
                     "1024x1024" "transparent"]))
  /\ (forall w req, exists r t,
         run (Part002.submitMember w req) = (r, t)
         /\ (editCalls t = []
             \/ editCalls t
                = [ImagesEdit Part002.PIXEL_PROMPT "1024x1024" "transparent"]))
  /\ (forall req s c a,
         bodyField (body req) "activity" = Text s -> trim s = c :: a ->
         ServerJs.getPrompt (trimmed (bodyField (body req) "activity"))
         = ServerJs.extended (c :: a)
         /\ (if jsNot (part001Activity req) then Part001.baseline
             else Part001.extended (ToString (part001Activity req)))
            = Part001.extended (c :: a)).
Proof.
  split; [|split; [|split]].
  - intros w req.
    destruct (ServerJs_run_cases w req) as [(msg & Hr)|Hp].
    { do 2 eexists. split; [exact Hr|]. now left. }
    destruct (ServerJs_shape w req Hp) as (r & t & st & url & Hr & _ & _ & He & _).
    now exists (Some r), t.
  - intros w req.
    destruct (Part001_run_cases w req) as [(e & Hr)|[Hr|Hv]].
    + do 2 eexists. split; [exact Hr|]. now left.
    + do 2 eexists. split; [exact Hr|]. now left.
    + destruct (Part001_shape w req Hv)
        as (r & t & url & original & Hr & _ & _ & He & _).
      now exists (Some r), t.
  - intros w req.
    destruct (Part002_run_cases w req) as [(e & Hr)|[Hr|Hv]].
    + do 2 eexists. split; [exact Hr|]. now left.
    + do 2 eexists. split; [exact Hr|]. now left.
    + destruct (Part002_shape w req Hv) as (r & t & Hr & _ & He & _).
      now exists (Some r), t.
  - intros req s c a Hf Ht. unfold part001Activity.
    rewrite Hf. simpl. rewrite Ht. split; reflexivity.
Qed.

(** The activity " painting " reaches the model as "painting". *)
Lemma X4_image_model_call_witness :
  bodyField (body paintingWithPhoto) "activity" = Text (lit " painting ")
  /\ trim (lit " painting ") = lit "painting"
  /\ ServerJs.getPrompt (trimmed (bodyField (body paintingWithPhoto) "activity"))
     = ServerJs.extended (lit "painting")
  /\ (if jsNot (part001Activity paintingWithPhoto) then Part001.baseline
      else Part001.extended (ToString (part001Activity paintingWithPhoto)))
     = Part001.extended (lit "painting").
Proof.
  split; [reflexivity|]. split; [reflexivity|].
  exact (proj2 (proj2 (proj2 X4_image_model_call))
           paintingWithPhoto (lit " painting ") 112 (lit "ainting")
           eq_refl eq_refl).
Defined.

(** X5 (src/unnamed/part_002, POST /submitMember): with a photo attached
    the request is all or nothing, whatever is submitted.  Either every
    image step succeeded and the one row written carries the URL of the
    image storage accepted, or no row is written and the answer is 400 or
    500; a row with a null [image_url] is written only when no file was
    sent. *)
Theorem X5_part002_photo_all_or_nothing :
  forall w req,
    exists r t,
      run (Part002.submitMember w req) = (Some r, t)
      /\ ((file req = None
           /\ (inserts t = [] \/ inserts t = [[serverJsRow req Null]]))
          \/ (file req <> None /\ inserts t = []
              /\ (status r = 400 \/ status r = 500))
          \/ (file req <> None
              /\ exists path,
                   inserts t = [[serverJsRow req (Str (w_publicUrl w path))]]
                   /\ w_upload w path = Accepted)).
Proof.
  intros w req.
  destruct (Part002_run_cases w req) as [(e & Hr)|[Hr|Hv]].
  - do 2 eexists. split; [exact Hr|].
    destruct (file req); [right; left | left]; repeat split; auto; discriminate.
  - do 2 eexists. split; [exact Hr|].
    destruct (file req); [right; left | left]; repeat split; auto; discriminate.
  - destruct (Part002_shape w req Hv) as (r & t & Hr & _ & _ & _ & Hc).
    exists r, t. split; [exact Hr|].
    destruct Hc as [(Hf & Hi & _)|[(Hf & Hi & Hs & _)
                                  |(Hf & name & b64 & _ & Hi & _ & Ha)]].
    + left. split; [exact Hf | now right].
    + right. left. repeat split; auto.
    + right. right. split; [exact Hf|]. eexists. split; [exact Hi | exact Ha].
Qed.

(** Storage refuses the generated image of a part_002 submission: 500, and
    no row. *)
Lemma X5_part002_witness :
  exists r t,
    run (Part002.submitMember
           (withUpload calmWorld (fun _ => Refused (Error "Bucket quota exceeded")))
           adaByNameWithPhoto) = (Some r, t)
    /\ status r = 500 /\ inserts t = [].
Proof.
  destruct (X5_part002_photo_all_or_nothing
              (withUpload calmWorld (fun _ => Refused (Error "Bucket quota exceeded")))
              adaByNameWithPhoto) as (r & t & Hr & Hc).
  exists r, t. split; [exact Hr|].
  assert (E : option_map status
                (fst (run (Part002.submitMember
                             (withUpload calmWorld
                                (fun _ => Refused (Error "Bucket quota exceeded")))
                             adaByNameWithPhoto)))
              = Some 500) by (vm_compute; reflexivity).
  rewrite Hr in E. simpl in E. injection E as Hs. split; [exact Hs|].
  destruct Hc as [(Hf & _)|[(_ & Hi & _)|(_ & path & _ & Ha)]].
  - discriminate Hf.
  - exact Hi.
  - discriminate Ha.
Defined.
(* ================================================================= *)
(** ** A photo whose generation succeeds *)

Section PhotoPipeline.

(** server.js, storage accepting the generated image. *)
Lemma ServerJs_photo_stored (w : World) (req : Request) (f : UploadedFile)
  (name : jsstring) (c : N) (b64 : jsstring) :
  serverJsFieldsReadable req = true ->
  file req = Some f ->
  trimmed (bodyField (body req) "name") = Str name ->
  w_toFile w = None ->
  (forall p, w_imagesEdit w p = EditResolved (Entry (Some (c :: b64)))) ->
  w_upload w (serverJsPath w name) = Accepted ->
  exists r t,
    run (ServerJs.submitMember w req) = (Some r, t)
    /\ editCalls t
       = [ImagesEdit (ServerJs.getPrompt (trimmed (bodyField (body req) "activity")))
            "1024x1024" "transparent"]
    /\ uploadCalls t
       = [StorageUpload "neighbors" (serverJsPath w name)
            (FromBase64 (c :: b64)) (lit "image/png")]
    /\ inserts t
       = [[[("name", Str name);
            ("email", trimmed (bodyField (body req) "email"));
            ("image_url", Str (w_publicUrl w (serverJsPath w name)))]]]
    /\ (w_insert w [[("name", Str name);
                     ("email", trimmed (bodyField (body req) "email"));
                     ("image_url", Str (w_publicUrl w (serverJsPath w name)))]]
        = Accepted ->
        r = {| status := 200;
               payload := imageReport (lit "ready")
                            (Str (w_publicUrl w (serverJsPath w name))) |})
    /\ (w_insert w [[("name", Str name);
                     ("email", trimmed (bodyField (body req) "email"));
                     ("image_url", Str (w_publicUrl w (serverJsPath w name)))]]
        <> Accepted ->
        r = serverJsFailure).
Proof.
  unfold ServerJs.submitMember, ServerJs.imageRequests, serverJsPath.
  intros Hp -> Hn Hf He Hu. fields Hp. read_fields. rewrite Hn. exec.
  all: do 2 eexists; split; [reflexivity|]; read_trace.
  all: do 3 (split; [reflexivity|]).
  all: split; intro Hx; try reflexivity; store_mismatch.
Qed.

(** server.js, storage not accepting the generated image. *)
Lemma ServerJs_photo_not_stored (w : World) (req : Request) (f : UploadedFile)
  (name : jsstring) (c : N) (b64 : jsstring) (e : JsError) :
  serverJsFieldsReadable req = true ->
  file req = Some f ->
  trimmed (bodyField (body req) "name") = Str name ->
  w_toFile w = None ->
  (forall p, w_imagesEdit w p = EditResolved (Entry (Some (c :: b64)))) ->
  w_upload w (serverJsPath w name) = Refused e
  \/ w_upload w (serverJsPath w name) = Rejected e ->
  exists r t,
    run (ServerJs.submitMember w req) = (Some r, t)
    /\ uploadCalls t
       = [StorageUpload "neighbors" (serverJsPath w name)
            (FromBase64 (c :: b64)) (lit "image/png")]
    /\ In (errorLine "Image processing failed:" (message e)) t
    /\ inserts t
       = [[[("name", Str name);
            ("email", trimmed (bodyField (body req) "email"));
            ("image_url", Null)]]]
    /\ (w_insert w [[("name", Str name);
                     ("email", trimmed (bodyField (body req) "email"));
                     ("image_url", Null)]] = Accepted ->
        r = {| status := 200; payload := imageReport (lit "failed") Null |}).
Proof.
  unfold ServerJs.submitMember, ServerJs.imageRequests, serverJsPath, errorLine.
  intros Hp -> Hn Hf He [Hu|Hu]; fields Hp; read_fields; rewrite Hn; exec.
  all: do 2 eexists; split; [reflexivity|]; read_trace.
  all: split; [reflexivity|]; split; [in_trace|]; split; [reflexivity|].
  all: intro Hx; try reflexivity; store_mismatch.
Qed.

(** server.js, no name submitted. *)
Lemma ServerJs_photo_without_name (w : World) (req : Request) (f : UploadedFile)
  (c : N) (b64 : jsstring) :
  serverJsFieldsReadable req = true ->
  file req = Some f ->
  bodyField (body req) "name" = Absent ->
  w_toFile w = None ->
  (forall p, w_imagesEdit w p = EditResolved (Entry (Some (c :: b64)))) ->
  exists r t,
    run (ServerJs.submitMember w req) = (Some r, t)
    /\ editCalls t
       = [ImagesEdit (ServerJs.getPrompt (trimmed (bodyField (body req) "activity")))
            "1024x1024" "transparent"]
    /\ uploadCalls t = []
    /\ In (errorLine "Image processing failed:"
             (lit "Cannot read properties of undefined (reading 'toLowerCase')")) t
    /\ inserts t
       = [[[("name", Undefined);
            ("email", trimmed (bodyField (body req) "email"));
            ("image_url", Null)]]]
    /\ (w_insert w [[("name", Undefined);
                     ("email", trimmed (bodyField (body req) "email"));
                     ("image_url", Null)]] = Accepted ->
        r = {| status := 200; payload := imageReport (lit "failed") Null |}).
Proof.
  unfold ServerJs.submitMember, ServerJs.imageRequests, errorLine.
  intros Hp -> Hn Hf He. fields Hp. read_fields. rewrite Hn. cbn [trimmed]. exec.
  all: do 2 eexists; split; [reflexivity|]; read_trace.
  all: do 2 (split; [reflexivity|]); split; [in_trace|]; split; [reflexivity|].
  all: intro Hx; try reflexivity; store_mismatch.
Qed.

(** part_001, storage accepting both images. *)
Lemma Part001_photo_stored (w : World) (req : Request) (f : UploadedFile)
  (c : N) (b64 : jsstring) :
  part001Valid req -> file req = Some f ->
  w_upload w (part001OriginalPath w req) = Accepted ->
  w_toFile w = None ->
  (forall p, w_imagesEdit w p = EditResolved (Entry (Some (c :: b64)))) ->
  w_upload w (part001GeneratedPath w req) = Accepted ->
  exists r t,
    run (Part001.submitMember w req) = (Some r, t)
    /\ uploadCalls t
       = [StorageUpload "neighbors" (part001OriginalPath w req) FileBuffer
            (mimetype f);
          StorageUpload "neighbors" (part001GeneratedPath w req)
            (FromBase64 (c :: b64)) (lit "image/png")]
    /\ inserts t
       = [[part001Row req (Str (w_publicUrl w (part001GeneratedPath w req)))
             (Str (w_publicUrl w (part001OriginalPath w req)))]]
    /\ (w_insert w
          [part001Row req (Str (w_publicUrl w (part001GeneratedPath w req)))
             (Str (w_publicUrl w (part001OriginalPath w req)))] = Accepted ->
        r = {| status := 200; payload := okBody |})
    /\ (w_insert w
          [part001Row req (Str (w_publicUrl w (part001GeneratedPath w req)))
             (Str (w_publicUrl w (part001OriginalPath w req)))] <> Accepted ->
        r = part001Failure).
Proof.
  unfold part001OriginalPath, part001GeneratedPath, part001Slug,
    Part001.submitMember, Part001.imageProcessing, Part001.getPrompt, part001Row.
  intros (Hp & Hv) -> Ho Hf He Hg. fields Hp. exec.
  all: do 2 eexists; split; [reflexivity|]; read_trace.
  all: do 2 (split; [reflexivity|]).
  all: split; intro Hx; try reflexivity; store_mismatch.
Qed.

(** part_002, storage accepting the generated image. *)
Lemma Part002_photo_stored (w : World) (req : Request) (f : UploadedFile)
  (name b64 : jsstring) :
  part002Valid req -> file req = Some f ->
  trimmed (bodyField (body req) "name") = Str name ->
  w_toFile w = None ->
  (forall p, w_imagesEdit w p = EditResolved (Entry (Some b64))) ->
  w_upload w (part002Path w name) = Accepted ->
  exists r t,
    run (Part002.submitMember w req) = (Some r, t)
    /\ uploadCalls t
       = [StorageUpload "neighbors" (part002Path w name) (FromBase64 b64)
            (lit "image/png")]
    /\ inserts t
       = [[[("name", Str name);
            ("email", trimmed (bodyField (body req) "email"));
            ("image_url", Str (w_publicUrl w (part002Path w name)))]]]
    /\ (w_insert w [[("name", Str name);
                     ("email", trimmed (bodyField (body req) "email"));
                     ("image_url", Str (w_publicUrl w (part002Path w name)))]]
        = Accepted ->
        r = {| status := 200; payload := okBody |})
    /\ (forall e,
          w_insert w [[("name", Str name);
                       ("email", trimmed (bodyField (body req) "email"));
                       ("image_url", Str (w_publicUrl w (part002Path w name)))]]
          = Refused e
          \/ w_insert w [[("name", Str name);
                       ("email", trimmed (bodyField (body req) "email"));
                       ("image_url", Str (w_publicUrl w (part002Path w name)))]]
             = Rejected e ->
          r = {| status := 500; payload := errorBody (message e) |}).
Proof.
  unfold part002Path, Part002.submitMember,
    Part002.imageProcessing, Part002.decodeFirst.
  intros (Hp & Hv) -> Hn Hf He Hu. fields Hp. read_fields.
  rewrite Hn in *. exec.
  all: do 2 eexists; split; [reflexivity|]; read_trace.
  all: do 2 (split; [reflexivity|]).
  all: split; [intro Hx; try reflexivity; store_mismatch|].
  all: intros e' [Hx|Hx]; try discriminate Hx; injection Hx as <-; reflexivity.
Qed.

End PhotoPipeline.

(** X6 (POST /submitMember, all revisions): a photo whose every step
    succeeds, on a submission whose fields are read without error (in
    part_001 and part_002: that passes validation).  The image model is called once, the decoded image is
    uploaded as "image/png" to bucket "neighbors" under the request's
    [community/] path (in part_001 after the received buffer, uploaded
    under its own media type), the row written carries the public URL of
    what was stored, and the answer is 200: [{ok: true, image: {status:
    "ready", url}}] in server.js, [{ok: true}] in part_001 and part_002. *)
Theorem X6_photo_stored :
  (forall w req f name c b64,
      serverJsFieldsReadable req = true ->
      file req = Some f ->
      trimmed (bodyField (body req) "name") = Str name ->
      w_toFile w = None ->
      (forall p, w_imagesEdit w p = EditResolved (Entry (Some (c :: b64)))) ->
      w_upload w (serverJsPath w name) = Accepted ->
      (forall rows, w_insert w rows = Accepted) ->
      exists t,
        run (ServerJs.submitMember w req)
        = (Some {| status := 200;
                   payload := imageReport (lit "ready")
                                (Str (w_publicUrl w (serverJsPath w name))) |}, t)
        /\ editCalls t
           = [ImagesEdit
                (ServerJs.getPrompt (trimmed (bodyField (body req) "activity")))
                "1024x1024" "transparent"]
        /\ uploadCalls t
           = [StorageUpload "neighbors" (serverJsPath w name)
                (FromBase64 (c :: b64)) (lit "image/png")]
        /\ inserts t
           = [[[("name", Str name);
                ("email", trimmed (bodyField (body req) "email"));
                ("image_url", Str (w_publicUrl w (serverJsPath w name)))]]])
  /\ (forall w req f c b64,
         part001Valid req -> file req = Some f ->
         w_upload w (part001OriginalPath w req) = Accepted ->
         w_toFile w = None ->
         (forall p, w_imagesEdit w p = EditResolved (Entry (Some (c :: b64)))) ->
         w_upload w (part001GeneratedPath w req) = Accepted ->
         (forall rows, w_insert w rows = Accepted) ->
         exists t,
           run (Part001.submitMember w req)
           = (Some {| status := 200; payload := okBody |}, t)
           /\ uploadCalls t
              = [StorageUpload "neighbors" (part001OriginalPath w req)
                   FileBuffer (mimetype f);
                 StorageUpload "neighbors" (part001GeneratedPath w req)
                   (FromBase64 (c :: b64)) (lit "image/png")]
           /\ inserts t
              = [[part001Row req
                    (Str (w_publicUrl w (part001GeneratedPath w req)))
                    (Str (w_publicUrl w (part001OriginalPath w req)))]])
  /\ (forall w req f name b64,
         part002Valid req -> file req = Some f ->
         trimmed (bodyField (body req) "name") = Str name ->
         w_toFile w = None ->
         (forall p, w_imagesEdit w p = EditResolved (Entry (Some b64))) ->
         w_upload w (part002Path w name) = Accepted ->
         (forall rows, w_insert w rows = Accepted) ->
         exists t,
           run (Part002.submitMember w req)
           = (Some {| status := 200; payload := okBody |}, t)
           /\ uploadCalls t
              = [StorageUpload "neighbors" (part002Path w name)
                   (FromBase64 b64) (lit "image/png")]
           /\ inserts t
              = [[[("name", Str name);
                   ("email", trimmed (bodyField (body req) "email"));
                   ("image_url", Str (w_publicUrl w (part002Path w name)))]]]).
Proof.
  split; [|split].
  - intros w req f name c b64 Hp Hf Hn Ht He Hu Hi.
    destruct (ServerJs_photo_stored w req f name c b64 Hp Hf Hn Ht He Hu)
      as (r & t & Hr & Hed & Hup & Hin & Hok & _).
    exists t. rewrite Hr, (Hok (Hi _)). repeat split; assumption.
  - intros w req f c b64 Hv Hf Ho Ht He Hg Hi.
    destruct (Part001_photo_stored w req f c b64 Hv Hf Ho Ht He Hg)
      as (r & t & Hr & Hup & Hin & Hok & _).
    exists t. rewrite Hr, (Hok (Hi _)). repeat split; assumption.
  - intros w req f name b64 Hv Hf Hn Ht He Hu Hi.
    destruct (Part002_photo_stored w req f name b64 Hv Hf Hn Ht He Hu)
      as (r & t & Hr & Hup & Hin & Hok & _).
    exists t. rewrite Hr, (Hok (Hi _)). repeat split; assumption.
Qed.

(** The Ada Lovelace submission with a photo, on server.js. *)
Lemma X6_photo_stored_witness :
  exists t,
    run (ServerJs.submitMember calmWorld adaByNameWithPhoto)
    = (Some {| status := 200;
               payload := imageReport (lit "ready")
                            (Str (w_publicUrl calmWorld
                                    (serverJsPath calmWorld (lit "Ada Lovelace")))) |},
       t)
    /\ editCalls t
       = [ImagesEdit
            (ServerJs.getPrompt
               (trimmed (bodyField (body adaByNameWithPhoto) "activity")))
            "1024x1024" "transparent"]
    /\ uploadCalls t
       = [StorageUpload "neighbors" (serverJsPath calmWorld (lit "Ada Lovelace"))
            (FromBase64 (105 :: lit "VBORw0KGgo=")) (lit "image/png")]
    /\ inserts t
       = [[[("name", Str (lit "Ada Lovelace"));
            ("email", trimmed (bodyField (body adaByNameWithPhoto) "email"));
            ("image_url",
             Str (w_publicUrl calmWorld
                    (serverJsPath calmWorld (lit "Ada Lovelace"))))]]].
Proof.
  exact (proj1 X6_photo_stored calmWorld adaByNameWithPhoto photo
           (lit "Ada Lovelace") 105 (lit "VBORw0KGgo=")
           eq_refl eq_refl eq_refl eq_refl (fun _ => eq_refl) eq_refl
           (fun _ => eq_refl)).
Defined.

(** X7 (POST /submitMember, all revisions): on a submission whose fields
    are read without error, when the generated image has been stored and the record store then does not accept the row, the
    request is answered 500 although the upload has been made: the stored
    object is left without a row, and nothing removes it (no collaborator
    is called after [insert]). *)
Theorem X7_stored_image_without_row :
  (forall w req f name c b64,
      serverJsFieldsReadable req = true ->
      file req = Some f ->
      trimmed (bodyField (body req) "name") = Str name ->
      w_toFile w = None ->
      (forall p, w_imagesEdit w p = EditResolved (Entry (Some (c :: b64)))) ->
      w_upload w (serverJsPath w name) = Accepted ->
      (forall rows, w_insert w rows <> Accepted) ->
      exists t,
        run (ServerJs.submitMember w req) = (Some serverJsFailure, t)
        /\ uploadCalls t
           = [StorageUpload "neighbors" (serverJsPath w name)
                (FromBase64 (c :: b64)) (lit "image/png")]
        /\ forallb isConsole (afterInsert t) = true)
  /\ (forall w req f c b64,
         part001Valid req -> file req = Some f ->
         w_upload w (part001OriginalPath w req) = Accepted ->
         w_toFile w = None ->
         (forall p, w_imagesEdit w p = EditResolved (Entry (Some (c :: b64)))) ->
         w_upload w (part001GeneratedPath w req) = Accepted ->
         (forall rows, w_insert w rows <> Accepted) ->
         exists t,
           run (Part001.submitMember w req) = (Some part001Failure, t)
           /\ uploadCalls t
              = [StorageUpload "neighbors" (part001OriginalPath w req)
                   FileBuffer (mimetype f);
                 StorageUpload "neighbors" (part001GeneratedPath w req)
                   (FromBase64 (c :: b64)) (lit "image/png")]
           /\ forallb isConsole (afterInsert t) = true)
  /\ (forall w req f name b64 e,
         part002Valid req -> file req = Some f ->
         trimmed (bodyField (body req) "name") = Str name ->
         w_toFile w = None ->
         (forall p, w_imagesEdit w p = EditResolved (Entry (Some b64))) ->
         w_upload w (part002Path w name) = Accepted ->
         (forall rows, w_insert w rows = Refused e)
         \/ (forall rows, w_insert w rows = Rejected e) ->
         exists t,
           run (Part002.submitMember w req)
           = (Some {| status := 500; payload := errorBody (message e) |}, t)
           /\ uploadCalls t
              = [StorageUpload "neighbors" (part002Path w name)
                   (FromBase64 b64) (lit "image/png")]
           /\ forallb isConsole (afterInsert t) = true).
Proof.
  split; [|split].
  - intros w req f name c b64 Hp Hf Hn Ht He Hu Hi.
    destruct (ServerJs_photo_stored w req f name c b64 Hp Hf Hn Ht He Hu)
      as (r & t & Hr & _ & Hup & _ & _ & Hko).
    exists t. rewrite Hr, (Hko (Hi _)). split; [reflexivity|].
    split; [exact Hup|].
    apply andb_true_iff in Hp. destruct Hp as (Hp & _).
    destruct (ServerJs_shape w req Hp)
      as (r' & t' & st & url & Hr' & _ & Ha & _).
    rewrite Hr in Hr'. injection Hr' as _ <-. exact Ha.
  - intros w req f c b64 Hv Hf Ho Ht He Hg Hi.
    destruct (Part001_photo_stored w req f c b64 Hv Hf Ho Ht He Hg)
      as (r & t & Hr & Hup & _ & _ & Hko).
    exists t. rewrite Hr, (Hko (Hi _)). split; [reflexivity|].
    split; [exact Hup|].
    destruct (Part001_shape w req Hv) as (r' & t' & u & o & Hr' & _ & Ha & _).
    rewrite Hr in Hr'. injection Hr' as _ <-. exact Ha.
  - intros w req f name b64 e Hv Hf Hn Ht He Hu Hi.
    destruct (Part002_photo_stored w req f name b64 Hv Hf Hn Ht He Hu)
      as (r & t & Hr & Hup & _ & _ & Hko).
    exists t.
    assert (Hx : r = {| status := 500; payload := errorBody (message e) |})
      by (destruct Hi as [Hi|Hi]; apply Hko; [left | right]; apply Hi).
    rewrite Hr, Hx. split; [reflexivity|].
    split; [exact Hup|].
    destruct (Part002_shape w req Hv) as (r' & t' & Hr' & Ha & _).
    rewrite Hr in Hr'. injection Hr' as _ <-. exact Ha.
Qed.

(** The store refuses the row of a part_001 submission whose two uploads
    were accepted. *)
Lemma X7_stored_image_without_row_witness :
  exists t,
    run (Part001.submitMember
           (withInsert calmWorld (Refused (Error "duplicate key value")))
           adaFullWithPhoto)
    = (Some part001Failure, t)
    /\ uploadCalls t
       = [StorageUpload "neighbors"
            (part001OriginalPath
               (withInsert calmWorld (Refused (Error "duplicate key value")))
               adaFullWithPhoto)
            FileBuffer (mimetype photo);
          StorageUpload "neighbors"
            (part001GeneratedPath
               (withInsert calmWorld (Refused (Error "duplicate key value")))
               adaFullWithPhoto)
            (FromBase64 (105 :: lit "VBORw0KGgo=")) (lit "image/png")]
    /\ forallb isConsole (afterInsert t) = true.
Proof.
  refine (proj1 (proj2 X7_stored_image_without_row)
            (withInsert calmWorld (Refused (Error "duplicate key value")))
            adaFullWithPhoto photo 105 (lit "VBORw0KGgo=")
            (conj eq_refl eq_refl) eq_refl eq_refl eq_refl (fun _ => eq_refl)
            eq_refl _).
  intros rows H. discriminate H.
Defined.

(** X8 (src/server.js, POST /submitMember): on a submission whose fields
    are read without error, when storage does not accept the generated
    image (the upload resolves to an error, or its promise
    rejects) the request is not aborted: the attempt was made on the
    request's path, the error's message is written to the console by the
    image catch, the row is written with a null [image_url], and the
    answer is 200 with status "failed". *)
Theorem X8_server_js_storage_refusal_degrades :
  forall w req f name c b64 e,
    serverJsFieldsReadable req = true ->
    file req = Some f ->
    trimmed (bodyField (body req) "name") = Str name ->
    w_toFile w = None ->
    (forall p, w_imagesEdit w p = EditResolved (Entry (Some (c :: b64)))) ->
    w_upload w (serverJsPath w name) = Refused e
    \/ w_upload w (serverJsPath w name) = Rejected e ->
    (forall rows, w_insert w rows = Accepted) ->
    exists t,
      run (ServerJs.submitMember w req)
      = (Some {| status := 200; payload := imageReport (lit "failed") Null |}, t)
      /\ uploadCalls t
         = [StorageUpload "neighbors" (serverJsPath w name)
              (FromBase64 (c :: b64)) (lit "image/png")]
      /\ In (errorLine "Image processing failed:" (message e)) t
      /\ inserts t
         = [[[("name", Str name);
              ("email", trimmed (bodyField (body req) "email"));
              ("image_url", Null)]]].
Proof.
  intros w req f name c b64 e Hp Hf Hn Ht He Hu Hi.
  destruct (ServerJs_photo_not_stored w req f name c b64 e Hp Hf Hn Ht He Hu)
    as (r & t & Hr & Hup & Hl & Hin & Hok).
  exists t. rewrite Hr, (Hok (Hi _)). repeat split; assumption.
Qed.

Lemma X8_server_js_storage_refusal_witness :
  exists t,
    run (ServerJs.submitMember
           (withUpload calmWorld (fun _ => Refused (Error "Bucket quota exceeded")))
           adaByNameWithPhoto)
    = (Some {| status := 200; payload := imageReport (lit "failed") Null |}, t)
    /\ uploadCalls t
       = [StorageUpload "neighbors"
            (serverJsPath
               (withUpload calmWorld (fun _ => Refused (Error "Bucket quota exceeded")))
               (lit "Ada Lovelace"))
            (FromBase64 (105 :: lit "VBORw0KGgo=")) (lit "image/png")]
    /\ In (errorLine "Image processing failed:"
             (message (Error "Bucket quota exceeded"))) t
    /\ inserts t
       = [[[("name", Str (lit "Ada Lovelace"));
            ("email", trimmed (bodyField (body adaByNameWithPhoto) "email"));
            ("image_url", Null)]]].
Proof.
  exact (X8_server_js_storage_refusal_degrades
           (withUpload calmWorld (fun _ => Refused (Error "Bucket quota exceeded")))
           adaByNameWithPhoto photo (lit "Ada Lovelace") 105 (lit "VBORw0KGgo=")
           (Error "Bucket quota exceeded")
           eq_refl eq_refl eq_refl eq_refl (fun _ => eq_refl) (or_introl eq_refl)
           (fun _ => eq_refl)).
Defined.

(** X9 (src/server.js, POST /submitMember): a photo sent without a name,
    the other fields being read without error.  Nothing stops the request before the image model is called; only
    then does [name.toLowerCase()] raise a TypeError, which the image
    catch takes for an image failure: nothing is uploaded, the row is
    written without a name and with a null [image_url], and the answer is
    200 with status "failed". *)
Theorem X9_server_js_photo_without_name :
  forall w req f c b64,
    serverJsFieldsReadable req = true ->
    file req = Some f ->
    bodyField (body req) "name" = Absent ->
    w_toFile w = None ->
    (forall p, w_imagesEdit w p = EditResolved (Entry (Some (c :: b64)))) ->
    (forall rows, w_insert w rows = Accepted) ->
    exists t,
      run (ServerJs.submitMember w req)
      = (Some {| status := 200; payload := imageReport (lit "failed") Null |}, t)
      /\ editCalls t
         = [ImagesEdit
              (ServerJs.getPrompt (trimmed (bodyField (body req) "activity")))
              "1024x1024" "transparent"]
      /\ uploadCalls t = []
      /\ In (errorLine "Image processing failed:"
               (lit "Cannot read properties of undefined (reading 'toLowerCase')"))
           t
      /\ inserts t
         = [[[("name", Undefined);
              ("email", trimmed (bodyField (body req) "email"));
              ("image_url", Null)]]].
Proof.
  intros w req f c b64 Hp Hf Hn Ht He Hi.
  destruct (ServerJs_photo_without_name w req f c b64 Hp Hf Hn Ht He)
    as (r & t & Hr & Hed & Hup & Hl & Hin & Hok).
  exists t. rewrite Hr, (Hok (Hi _)). repeat split; assumption.
Qed.

Lemma X9_server_js_photo_without_name_witness :
  exists t,
    run (ServerJs.submitMember calmWorld emailOnlyWithPhoto)
    = (Some {| status := 200; payload := imageReport (lit "failed") Null |}, t)
    /\ editCalls t
       = [ImagesEdit
            (ServerJs.getPrompt
               (trimmed (bodyField (body emailOnlyWithPhoto) "activity")))
            "1024x1024" "transparent"]
    /\ uploadCalls t = []
    /\ In (errorLine "Image processing failed:"
             (lit "Cannot read properties of undefined (reading 'toLowerCase')"))
         t
    /\ inserts t
       = [[[("name", Undefined);
            ("email", trimmed (bodyField (body emailOnlyWithPhoto) "email"));
            ("image_url", Null)]]].
Proof.
  exact (X9_server_js_photo_without_name calmWorld emailOnlyWithPhoto photo
           105 (lit "VBORw0KGgo=") eq_refl eq_refl eq_refl eq_refl
           (fun _ => eq_refl) (fun _ => eq_refl)).
Defined.

(* ================================================================= *)
(** ** What validation lets through *)

Section ValidatedFields.

Lemma cleanText_required (x : FieldValue) :
  jsNot (trimmed x) = false -> cleanText (trimmed x) = true.
Proof.
  destruct x as [|s|]; [discriminate| |discriminate].
  unfold jsNot. cbn [trimmed truthy].
  destruct (trim_clean s) as [H|H]; [rewrite H; discriminate|].
  intros _. exact H.
Qed.

Lemma nullOrCleanText_optional (x : FieldValue) :
  nullOrCleanText (jsOr (trimmed x) Null) = true.
Proof.
  destruct x as [|s|]; [reflexivity| |reflexivity].
  unfold jsOr. cbn [trimmed truthy].
  destruct (trim_clean s) as [H|H].
  - rewrite H. reflexivity.
  - destruct (trim s) as [|c r]; [discriminate H|]. exact H.
Qed.

Lemma blank_iff (b : Body) (k : string) :
  (bodyField b k = Absent \/ exists s, bodyField b k = Text s /\ trim s = [])
  <-> (bodyField b k = Absent
       \/ exists s, bodyField b k = Text s /\ forallb isWhiteSpace s = true).
Proof.
  split; (intros [H|(s & H & Hs)]; [now left|]); right; exists s;
    (split; [exact H|]); now apply trim_nil_iff.
Qed.

(** The rows of the two validating revisions, once validation has
    passed. *)
Lemma part001Row_clean (req : Request) (url original : jsval) :
  part001Valid req ->
  cleanText (rowField (part001Row req url original) "firstname") = true
  /\ cleanText (rowField (part001Row req url original) "lastname") = true
  /\ cleanText (rowField (part001Row req url original) "email") = true
  /\ nullOrCleanText (rowField (part001Row req url original) "location") = true
  /\ nullOrCleanText (rowField (part001Row req url original) "activity") = true.
Proof.
  intros (_ & Hv). unfold Part001.missingRequired in Hv.
  apply orb_false_iff in Hv. destruct Hv as (Hv & He).
  apply orb_false_iff in Hv. destruct Hv as (Hf & Hl).
  cbn [rowField part001Row String.eqb Ascii.eqb Bool.eqb].
  repeat split;
    first [ now apply cleanText_required | apply nullOrCleanText_optional ].
Qed.

Lemma part002Row_clean (req : Request) (url : jsval) :
  part002Valid req ->
  cleanText (rowField (serverJsRow req url) "name") = true
  /\ cleanText (rowField (serverJsRow req url) "email") = true.
Proof.
  intros (_ & Hv). unfold Part002.missingRequired in Hv.
  apply orb_false_iff in Hv. destruct Hv as (Hn & He).
  cbn [rowField serverJsRow String.eqb Ascii.eqb Bool.eqb].
  split; now apply cleanText_required.
Qed.

End ValidatedFields.

(** X10 (part_001 and part_002, POST /submitMember): what reaches the
    record store is clean, whatever is submitted.  Every call to [insert]
    hands over one row, whose required fields (firstname, lastname, email;
    name, email in part_002) are non-empty strings that neither start nor
    end with white space; in part_001 location and activity are [null] or
    such a string, never [undefined] and never empty. *)
Theorem X10_rows_hold_clean_text :
  (forall w req, exists r t,
      run (Part001.submitMember w req) = (Some r, t)
      /\ forall rows, In rows (inserts t) ->
           exists row,
             rows = [row]
             /\ cleanText (rowField row "firstname") = true
             /\ cleanText (rowField row "lastname") = true
             /\ cleanText (rowField row "email") = true
             /\ nullOrCleanText (rowField row "location") = true
             /\ nullOrCleanText (rowField row "activity") = true)
  /\ (forall w req, exists r t,
         run (Part002.submitMember w req) = (Some r, t)
         /\ forall rows, In rows (inserts t) ->
              exists row,
                rows = [row]
                /\ cleanText (rowField row "name") = true
                /\ cleanText (rowField row "email") = true).
Proof.
  split.
  - intros w req.
    destruct (Part001_run_cases w req) as [(e & Hr)|[Hr|Hv]].
    + do 2 eexists. split; [exact Hr|]. intros rows [].
    + do 2 eexists. split; [exact Hr|]. intros rows [].
    + destruct (Part001_answer_follows_insert w req Hv)
        as (u & o & r & t & Hr & Hi & _).
      exists r, t. split; [exact Hr|].
      intros rows Hin. rewrite Hi in Hin. destruct Hin as [<-|[]].
      eexists. split; [reflexivity|]. now apply part001Row_clean.
  - intros w req.
    destruct (Part002_run_cases w req) as [(e & Hr)|[Hr|Hv]].
    + do 2 eexists. split; [exact Hr|]. intros rows [].
    + do 2 eexists. split; [exact Hr|]. intros rows [].
    + destruct (Part002_shape w req Hv) as (r & t & Hr & _ & _ & _ & Hc).
      exists r, t. split; [exact Hr|].
      intros rows Hin.
      destruct Hc as [(_ & Hi & _)|[(_ & Hi & _)|(_ & n & b & _ & Hi & _)]];
        rewrite Hi in Hin; simpl in Hin.
      * destruct Hin as [<-|[]].
        eexists. split; [reflexivity|]. now apply part002Row_clean.
      * destruct Hin.
      * destruct Hin as [<-|[]].
        eexists. split; [reflexivity|]. now apply part002Row_clean.
Qed.

(** The fields of the padded submission are stored without their
    padding. *)
Lemma X10_rows_hold_clean_text_witness :
  exists r t,
    run (Part001.submitMember calmWorld paddedSubmission) = (Some r, t)
    /\ inserts t
       = [[[("firstname", Str (lit "Ada")); ("lastname", Str (lit "Lovelace"));
            ("email", Str (lit "ada@example.com")); ("location", Null);
            ("activity", Str (lit "painting")); ("image_url", Null);
            ("original_image_url", Null)]]]
    /\ forall rows, In rows (inserts t) ->
         exists row,
           rows = [row]
           /\ cleanText (rowField row "firstname") = true
           /\ cleanText (rowField row "lastname") = true
           /\ cleanText (rowField row "email") = true
           /\ nullOrCleanText (rowField row "location") = true
           /\ nullOrCleanText (rowField row "activity") = true.
Proof.
  destruct (proj1 X10_rows_hold_clean_text calmWorld paddedSubmission)
    as (r & t & Hr & Hc).
  exists r, t. split; [exact Hr|]. split; [|exact Hc].
  assert (E : inserts (snd (run (Part001.submitMember calmWorld paddedSubmission)))
              = [[[("firstname", Str (lit "Ada")); ("lastname", Str (lit "Lovelace"));
                   ("email", Str (lit "ada@example.com")); ("location", Null);
                   ("activity", Str (lit "painting")); ("image_url", Null);
                   ("original_image_url", Null)]]])
    by (vm_compute; reflexivity).
  rewrite Hr in E. exact E.
Defined.

(** X11 (part_001 and part_002, POST /submitMember): the request is
    answered 400 exactly when the fields the handler reads can all be read
    (none is an array or another value that is not a string) and a
    required field is absent from the body or consists of white space
    only; and a request answered 400 has called no collaborator at
    all. *)
Theorem X11_bad_request_iff_missing_or_blank :
  (forall w req, exists r t,
      run (Part001.submitMember w req) = (Some r, t)
      /\ (status r = 400
          <-> part001Readable req = true
              /\ exists k, In k ["firstname"; "lastname"; "email"]
                           /\ (bodyField (body req) k = Absent
                               \/ exists s, bodyField (body req) k = Text s
                                            /\ forallb isWhiteSpace s = true))
      /\ (status r = 400 -> forallb isConsole t = true))
  /\ (forall w req, exists r t,
         run (Part002.submitMember w req) = (Some r, t)
         /\ (status r = 400
             <-> part002Readable req = true
                 /\ exists k, In k ["name"; "email"]
                              /\ (bodyField (body req) k = Absent
                                  \/ exists s, bodyField (body req) k = Text s
                                               /\ forallb isWhiteSpace s = true))
         /\ (status r = 400 -> t = [])).
Proof.
  split.
  - intros w req.
    destruct (part001Readable req) eqn:Hp.
    2:{ destruct (Part001_unreadable w req Hp) as (e & Hr).
        do 2 eexists. split; [exact Hr|]. split.
        - split; [intro H; discriminate H | intros (H & _); discriminate H].
        - intro H; discriminate H. }
    assert (Hiff : Part001.missingRequired
                     (trimmed (bodyField (body req) "firstname"))
                     (trimmed (bodyField (body req) "lastname"))
                     (trimmed (bodyField (body req) "email")) = true
                   <-> exists k, In k ["firstname"; "lastname"; "email"]
                        /\ (bodyField (body req) k = Absent
                            \/ exists s, bodyField (body req) k = Text s
                                         /\ forallb isWhiteSpace s = true)).
    { rewrite (Part001_missingRequired_iff req Hp).
      split; intros (k & Hk & H); exists k; (split; [exact Hk|]);
        now apply blank_iff. }
    destruct (Part001.missingRequired
                (trimmed (bodyField (body req) "firstname"))
                (trimmed (bodyField (body req) "lastname"))
                (trimmed (bodyField (body req) "email"))) eqn:Hv.
    + rewrite (Part001_rejects_missing_fields w req Hp Hv).
      do 2 eexists. split; [reflexivity|]. split.
      * split; [intros _; split; [reflexivity | now apply Hiff] | reflexivity].
      * reflexivity.
    + destruct (Part001_answer_follows_insert w req (conj Hp Hv))
        as (u & o & r & t & Hr & _ & Hok & Hko).
      exists r, t. split; [exact Hr|].
      assert (Hs : status r <> 400).
      { destruct (w_insert w [part001Row req u o]) eqn:E.
        - rewrite (Hok eq_refl). discriminate.
        - rewrite Hko by discriminate. discriminate.
        - rewrite Hko by discriminate. discriminate. }
      split; [|intro H; now destruct Hs].
      split; [intro H; now destruct Hs|].
      intros (_ & H). apply Hiff in H. discriminate H.
  - intros w req.
    destruct (part002Readable req) eqn:Hp.
    2:{ destruct (Part002_unreadable w req Hp) as (e & Hr).
        do 2 eexists. split; [exact Hr|]. split.
        - split; [intro H; discriminate H | intros (H & _); discriminate H].
        - intro H; discriminate H. }
    assert (Hiff : Part002.missingRequired
                     (trimmed (bodyField (body req) "name"))
                     (trimmed (bodyField (body req) "email")) = true
                   <-> exists k, In k ["name"; "email"]
                        /\ (bodyField (body req) k = Absent
                            \/ exists s, bodyField (body req) k = Text s
                                         /\ forallb isWhiteSpace s = true)).
    { rewrite (Part002_missingRequired_iff req Hp).
      split; intros (k & Hk & H); exists k; (split; [exact Hk|]);
        now apply blank_iff. }
    destruct (Part002.missingRequired
                (trimmed (bodyField (body req) "name"))
                (trimmed (bodyField (body req) "email"))) eqn:Hv.
    + rewrite (Part002_rejects_missing_fields w req Hp Hv).
      do 2 eexists. split; [reflexivity|]. split.
      * split; [intros _; split; [reflexivity | now apply Hiff] | reflexivity].
      * reflexivity.
    + destruct (Part002_shape w req (conj Hp Hv))
        as (r & t & Hr & _ & _ & Hst & _).
      exists r, t. split; [exact Hr|].
      assert (Hs : status r <> 400)
        by (destruct Hst as [-> | ->]; discriminate).
      split; [|intro H; now destruct Hs].
      split; [intro H; now destruct Hs|].
      intros (_ & H). apply Hiff in H. discriminate H.
Qed.

(** A last name of blanks and a tab: 400, and only console lines.  The
    email field sent twice: not 400. *)
Lemma X11_bad_request_witness :
  (exists r t,
      run (Part001.submitMember calmWorld blankLastName) = (Some r, t)
      /\ status r = 400 /\ forallb isConsole t = true)
  /\ (exists r t,
         run (Part001.submitMember calmWorld emailTwice) = (Some r, t)
         /\ status r <> 400).
Proof.
  split.
  - destruct (proj1 X11_bad_request_iff_missing_or_blank calmWorld blankLastName)
      as (r & t & Hr & Hiff & Hc).
    assert (Hs : status r = 400).
    { apply Hiff. split; [reflexivity|].
      exists "lastname". split; [simpl; auto|].
      right. exists (32 :: 9 :: 32 :: nil). split; reflexivity. }
    exists r, t. repeat split; auto.
  - destruct (proj1 X11_bad_request_iff_missing_or_blank calmWorld emailTwice)
      as (r & t & Hr & Hiff & _).
    exists r, t. split; [exact Hr|].
    intro Hs. apply Hiff in Hs. destruct Hs as (Hp & _). discriminate Hp.
Defined.

(* ================================================================= *)
(** ** Slugs of slugs, and names without letters *)

Section SlugFixedPoints.

Lemma replaceRuns_alnum_only (s : jsstring) :
  forallb isLowerAlnum s = true -> forall inRun, replaceRuns inRun s = s.
Proof.
  induction s as [|c s IH]; intros H inRun; [reflexivity|].
  simpl in H. apply andb_true_iff in H. destruct H as (Hc & Hs).
  simpl. rewrite Hc. now rewrite IH.
Qed.

Lemma replaceRuns_no_alnum (s : jsstring) :
  forallb (fun c => negb (isLowerAlnum c)) s = true -> replaceRuns true s = [].
Proof.
  induction s as [|c s IH]; intro H; [reflexivity|].
  simpl in H. apply andb_true_iff in H. destruct H as (Hc & Hs).
  simpl. apply negb_true_iff in Hc. rewrite Hc. now apply IH.
Qed.

Lemma doubleHyphen_after_hyphen (d : N) (r : jsstring) :
  doubleHyphen (45 :: d :: r) = false -> d <> 45 /\ doubleHyphen (d :: r) = false.
Proof.
  intro H. split.
  - intros ->. discriminate H.
  - change (doubleHyphen (45 :: d :: r)) with
      (match d with 45 => true | _ => doubleHyphen (d :: r) end) in H.
    destruct d as [|p]; [exact H|].
    do 6 (destruct p as [p|p|]; try exact H).
    discriminate H.
Qed.

Lemma urlSafe_cases (c : N) :
  urlSafe c = true -> isLowerAlnum c = true \/ (isLowerAlnum c = false /\ c = 45).
Proof.
  unfold urlSafe. destruct (isLowerAlnum c); [now left|].
  simpl. intro H. right. split; [reflexivity|]. now apply N.eqb_eq.
Qed.

(** A string that already has the shape of a slug is left as it is. *)
Lemma replaceRuns_fixed (t : jsstring) :
  forallb urlSafe t = true -> doubleHyphen t = false ->
  replaceRuns false t = t
  /\ ((forall r, t <> 45 :: r) -> replaceRuns true t = t).
Proof.
  induction t as [|c t IH]; intros Hu Hd; [split; reflexivity|].
  cbn [forallb] in Hu. apply andb_true_iff in Hu. destruct Hu as (Hc & Hu).
  destruct (urlSafe_cases c Hc) as [Ha|(Ha & ->)].
  - rewrite doubleHyphen_cons_alnum in Hd
      by now apply isLowerAlnum_not_hyphen.
    destruct (IH Hu Hd) as (IH1 & _).
    cbn [replaceRuns]. rewrite Ha, IH1. split; reflexivity.
  - split; [|intro H; now destruct (H t)].
    cbn [replaceRuns]. rewrite Ha. f_equal.
    destruct t as [|d r]; [reflexivity|].
    destruct (doubleHyphen_after_hyphen d r Hd) as (Hd45 & Hd').
    destruct (IH Hu Hd') as (_ & IH2).
    apply IH2. intros r' [= E _]. now apply Hd45.
Qed.

End SlugFixedPoints.

(** X12 (the slug of all revisions,
    [.toLowerCase().replace(/[^a-z0-9]+/g, "-")]): replacing again changes
    nothing; a string of a-z and 0-9 only is its own slug; and a non-empty
    string without any a-z or 0-9 (a name written in another script, once
    lower-cased) has the slug "-", whatever it was, so in part_001 all
    such names share one slug. *)
Theorem X12_slug_fixed_points :
  (forall s, replaceNonAlnum (replaceNonAlnum s) = replaceNonAlnum s)
  /\ (forall s, forallb isLowerAlnum s = true -> replaceNonAlnum s = s)
  /\ (forall s,
         s <> [] -> forallb (fun c => negb (isLowerAlnum c)) s = true ->
         replaceNonAlnum s = [45])
  /\ (forall w firstname lastname,
         forallb (fun c => negb (isLowerAlnum c))
           (w_toLowerCase w (ToString firstname ++ lit "-" ++ ToString lastname))
         = true ->
         w_toLowerCase w (ToString firstname ++ lit "-" ++ ToString lastname) <> [] ->
         Part001.safeNameSlug w firstname lastname = [45]).
Proof.
  assert (H3 : forall s,
             s <> [] -> forallb (fun c => negb (isLowerAlnum c)) s = true ->
             replaceNonAlnum s = [45]).
  { intros [|c s] Hne H; [now destruct Hne|].
    simpl in H. apply andb_true_iff in H. destruct H as (Hc & Hs).
    apply negb_true_iff in Hc.
    unfold replaceNonAlnum. cbn [replaceRuns]. rewrite Hc.
    now rewrite replaceRuns_no_alnum. }
  split; [|split; [|split]].
  - intro s. destruct (slug_shape s) as (Hu & Hd & _).
    unfold replaceNonAlnum at 1. now apply replaceRuns_fixed.
  - intros s H. unfold replaceNonAlnum. now apply replaceRuns_alnum_only.
  - exact H3.
  - intros w fn ln H Hne. unfold Part001.safeNameSlug. now apply H3.
Qed.

(** Two names in Chinese characters, U+674E U+767D and U+675C U+752B:
    the same slug. *)
Lemma X12_slug_fixed_points_witness :
  replaceNonAlnum [26446; 32; 30333] = [45]
  /\ replaceNonAlnum [26460; 32; 29995] = [45]
  /\ replaceNonAlnum (lit "ada-lovelace") = lit "ada-lovelace".
Proof.
  split; [|split].
  - apply (proj1 (proj2 (proj2 X12_slug_fixed_points)));
      [discriminate | reflexivity].
  - apply (proj1 (proj2 (proj2 X12_slug_fixed_points)));
      [discriminate | reflexivity].
  - change (lit "ada-lovelace") with (replaceNonAlnum (lit "ada lovelace")).
    apply (proj1 X12_slug_fixed_points).
Defined.

(* ================================================================= *)
(** ** Fields that are not strings *)

Section NotAString.

(** server.js reads the activity inside its image steps: an unreadable
    activity is one more image failure. *)
Lemma ServerJs_unreadable_activity (w : World) (req : Request) (f : UploadedFile) :
  serverJsReadable req = true -> file req = Some f ->
  bodyField (body req) "activity" = NotText ->
  w_toFile w = None ->
  exists r t msg,
    run (ServerJs.submitMember w req) = (Some r, t)
    /\ In (errorLine "Image processing failed:" msg) t
    /\ editCalls t = [] /\ uploadCalls t = []
    /\ inserts t = [[serverJsRow req Null]]
    /\ (w_insert w [serverJsRow req Null] = Accepted ->
        r = {| status := 200; payload := imageReport (lit "failed") Null |}).
Proof.
  unfold ServerJs.submitMember, ServerJs.imageRequests, serverJsRow, errorLine.
  intros Hp -> Ha Hf. fields Hp. read_fields. rewrite Ha. exec.
  all: do 3 eexists; split; [reflexivity|]; read_trace.
  all: split; [in_trace|]; do 3 (split; [reflexivity|]).
  all: intro Hx; try reflexivity; store_mismatch.
Qed.

End NotAString.

(** X13 (POST /submitMember, all revisions): a field that is not a string
    (the array left by a form field sent twice, a JSON number) is not
    validated but makes [?.trim()] throw.  When it is one of the fields
    read at the top of the handler (name, email, location in server.js;
    the five fields in part_001; name, email in part_002) the request is
    answered 500 and no collaborator is called: only console lines are
    written, and part_002 hands the TypeError's message to the caller.
    In server.js the activity is read inside the image steps: with a photo
    attached such an activity is taken for an image failure before the
    image model is called, the row is written with a null [image_url] and
    the answer is 200 with status "failed". *)
Theorem X13_field_that_is_not_a_string :
  (forall w req,
      serverJsReadable req = false ->
      exists msg,
        run (ServerJs.submitMember w req)
        = (Some {| status := 500;
                   payload := errorBody (lit "Internal Server Error.") |},
           [ConsoleLog [Val (Str (lit "----- NEW SUBMISSION -----"))];
            ConsoleError [Val (Str (lit "[/submitMember]")); Val (Str msg)]]))
  /\ (forall w req,
         part001Readable req = false ->
         exists e,
           run (Part001.submitMember w req)
           = (Some {| status := 500;
                      payload := errorBody
                                   (lit "server error while processing submission") |},
              [ConsoleLog [Val (Str (lit "----- NEW SUBMISSION -----"))];
               ConsoleError [Val (Str (lit "Request failed:")); errorObject e]]))
  /\ (forall w req,
         part002Readable req = false ->
         exists e,
           run (Part002.submitMember w req)
           = (Some {| status := 500; payload := errorBody (message e) |},
              [ConsoleError [errorObject e]]))
  /\ (forall w req f,
         serverJsReadable req = true -> file req = Some f ->
         bodyField (body req) "activity" = NotText ->
         w_toFile w = None ->
         (forall rows, w_insert w rows = Accepted) ->
         exists t msg,
           run (ServerJs.submitMember w req)
           = (Some {| status := 200; payload := imageReport (lit "failed") Null |}, t)
           /\ In (errorLine "Image processing failed:" msg) t
           /\ editCalls t = [] /\ uploadCalls t = []
           /\ inserts t = [[serverJsRow req Null]]).
Proof.
  split; [exact ServerJs_unreadable|].
  split; [exact Part001_unreadable|].
  split; [exact Part002_unreadable|].
  intros w req f Hp Hf Ha Ht Hi.
  destruct (ServerJs_unreadable_activity w req f Hp Hf Ha Ht)
    as (r & t & msg & Hr & Hl & He & Hu & Hin & Hok).
  exists t, msg. rewrite Hr, (Hok (Hi _)). repeat split; assumption.
Qed.

(** The email field sent twice, on each revision; the activity field sent
    twice with a photo, on server.js. *)
Lemma X13_field_that_is_not_a_string_witness :
  (serverJsReadable emailTwice = false
   /\ fst (run (ServerJs.submitMember calmWorld emailTwice))
      = Some serverJsFailure
   /\ inserts (snd (run (ServerJs.submitMember calmWorld emailTwice))) = [])
  /\ (part001Readable emailTwice = false
      /\ fst (run (Part001.submitMember calmWorld emailTwice))
         = Some part001Failure)
  /\ (part002Readable emailTwice = false
      /\ option_map status (fst (run (Part002.submitMember calmWorld emailTwice)))
         = Some 500)
  /\ (serverJsReadable activityTwiceWithPhoto = true
      /\ fst (run (ServerJs.submitMember calmWorld activityTwiceWithPhoto))
         = Some {| status := 200; payload := imageReport (lit "failed") Null |}).
Proof.
  split; [|split; [|split]].
  - split; [reflexivity|].
    destruct (proj1 X13_field_that_is_not_a_string calmWorld emailTwice eq_refl)
      as (msg & Hr).
    rewrite Hr. split; reflexivity.
  - split; [reflexivity|].
    destruct (proj1 (proj2 X13_field_that_is_not_a_string)
                calmWorld emailTwice eq_refl) as (e & Hr).
    rewrite Hr. reflexivity.
  - split; [reflexivity|].
    destruct (proj1 (proj2 (proj2 X13_field_that_is_not_a_string))
                calmWorld emailTwice eq_refl) as (e & Hr).
    rewrite Hr. reflexivity.
  - split; [reflexivity|].
    destruct (proj2 (proj2 (proj2 X13_field_that_is_not_a_string))
                calmWorld activityTwiceWithPhoto photo
                eq_refl eq_refl eq_refl eq_refl (fun _ => eq_refl))
      as (t & msg & Hr & _).
    rewrite Hr. reflexivity.
Defined.
